(** * Your-Pharma: orchestration core, shallow embedding

    The Python sources embedded here are
    - [backend/agents/safety_agent.py]   (the rule evaluator),
    - [backend/agents/refill_agent.py]   (the refill prediction and its
      deterministic fallback),
    - [backend/agents/extraction_agent.py] (what is made of the extraction),
    - [backend/agents/orchestrator_agent.py] (one turn, session store, order
      assembly, confirmation and cancellation),
    - [backend/models/tools.py]          (the tools offered),
    - [backend/main.py]                  (evidence parsing and the hand-off loop).

    Python [int] is [Z]; [float] is an IEEE 754 binary64 number, given
    by the Standard Library's [SpecFloat]; [str] is the sequence of its
    code points, those below 256; [dict] is stdpp's [gmap];
    [Optional[int]] is [option Z] and its truthiness test (an [if x:] on
    it) is written out as [truthy].  An exception that the code's own
    arithmetic or conversions raise is a [None] result; the collaborators
    (language model, data service) are taken not to raise, except where
    stated. *)

From Stdlib Require Import ZArith QArith Qround Qabs Lqa String Ascii List Lia Bool DecimalString.
From Stdlib Require SpecFloat.
From stdpp Require Import base gmap strings list.

Local Open Scope string_scope.
Local Open Scope list_scope.
Local Open Scope Z_scope.

(** ** Python helpers *)

(** [str(n)] for an [int]. *)
Definition str_of_Z (n : Z) : string := NilZero.string_of_int (Z.to_int n).

(** Truthiness of an [Optional[int]]: [None] and [0] are both false. *)
Definition truthy (o : option Z) : bool :=
  match o with
  | Some n => negb (n =? 0)
  | None => false
  end.

(** Truthiness of a list. *)
Definition nonempty {A} (l : list A) : bool :=
  match l with [] => false | _ :: _ => true end.

(** ** Python floats *)

(** The integer nearest to a rational, a tie going to the even one. *)
Definition round_half_even (q : Q) : Z :=
  let f := Qfloor q in
  match Qcompare (q - inject_Z f)%Q (1 # 2)%Q with
  | Lt => f
  | Gt => f + 1
  | Eq => if Z.even f then f else f + 1
  end.

Module PyFloat.

(** A [float] is a binary64 number: 53 bits of precision, the infinities at
    exponent 1024, results rounded to the nearest, a tie to the even one. *)
Definition float := SpecFloat.spec_float.
Definition prec : Z := 53.
Definition emax : Z := 1024.

(** [x + y] and [x * y] on two floats; they never raise. *)
Definition add : float -> float -> float := SpecFloat.SFadd prec emax.
Definition mul : float -> float -> float := SpecFloat.SFmul prec emax.

(** The conversion of an [int] operand of a float operation: the nearest
    float; [None] is the [OverflowError] ("int too large to convert to
    float"). *)
Definition of_int (n : Z) : option float :=
  match SpecFloat.binary_normalize prec emax n 0 false with
  | SpecFloat.S754_infinity _ => None
  | x => Some x
  end.

(** The float nearest to the fraction [n / d], with the given sign: what
    the decimal literal or decimal text of that value denotes. *)
Definition of_ratio (negative : bool) (n d : positive) : float :=
  let '(m, e, l) :=
    SpecFloat.SFdiv_core_binary prec emax (Zpos n) 0 (Zpos d) 0 in
  SpecFloat.binary_round_aux prec emax negative m e l.

(** [1.0] *)
Definition one : float := SpecFloat.S754_finite false 4503599627370496 (-52).

(** The exact value of the finite float of mantissa [m] and exponent [e],
    sign apart. *)
Definition magnitude (m : positive) (e : Z) : Q :=
  (inject_Z (Zpos m) * Qpower 2 e)%Q.

(** [round(x, 2)]: the exact value of [x] is rounded to the nearest
    hundredth, a tie to the even one, and the float nearest to that decimal
    is returned, with the sign of [x]; an infinity and a NaN are returned
    as they are. *)
Definition round2 (x : float) : float :=
  match x with
  | SpecFloat.S754_finite s m e =>
      match round_half_even (magnitude m e * 100)%Q with
      | Zpos k => of_ratio s k 100
      | _ => SpecFloat.S754_zero s
      end
  | _ => x
  end.

End PyFloat.

(** ** Data model (the fields of [models.schemas] that the code reads) *)

Record ExtractedEntity := {
  medicine : string;
  dosage : string;             (* empty when the message gave none *)
  quantity : Z
}.

Record Medicine := {
  medicine_id : string;
  medicine_name : string;
  strength : string;
  stock_level : Z;
  max_quantity_per_order : Z;
  prescription_required : bool;
  controlled_substance : bool;
  discontinued : bool
}.

Inductive SafetyDecision := APPROVE | CONDITIONAL | REJECT.

Record SafetyCheckResult := {
  decision : SafetyDecision;
  reasons : list string;
  allowed_quantity : option Z;
  requires_followup : bool;
  requires_prescription : bool;
  blocked_items : list string
}.

#[global] Instance SafetyDecision_eq_dec : EqDecision SafetyDecision.
Proof. solve_decision. Defined.

(** ** safety_agent.py *)

Module SafetyAgent.

(** The five locals of [_perform_safety_checks], threaded through its loop. *)
Record checks := {
  c_reasons : list string;
  c_blocked_items : list string;
  c_requires_prescription : bool;
  c_allowed_quantity : option Z;
  c_requires_followup : bool
}.

Definition init : checks :=
  {| c_reasons := []; c_blocked_items := [];
     c_requires_prescription := false;
     c_allowed_quantity := None;
     c_requires_followup := false |}.

(** [entity.quantity if entity and entity.quantity > 0 else 30] *)
Definition requested_qty (entity : option ExtractedEntity) : Z :=
  match entity with
  | Some e => if 0 <? quantity e then quantity e else 30
  | None => 30
  end.

Definition msg_discontinued (m : Medicine) : string :=
  medicine_name m +:+ " has been discontinued and is no longer available.".
Definition msg_prescription (m : Medicine) : string :=
  medicine_name m +:+ " requires a valid prescription.".
Definition msg_controlled (m : Medicine) : string :=
  medicine_name m +:+ " is a controlled substance. Special handling required.".
Definition msg_out_of_stock (m : Medicine) : string :=
  medicine_name m +:+ " is currently out of stock.".
Definition msg_limited_stock (m : Medicine) (cap : Z) : string :=
  "Limited stock available for " +:+ medicine_name m
    +:+ ". Maximum quantity: " +:+ str_of_Z cap.
Definition msg_max_quantity (m : Medicine) : string :=
  "Maximum quantity per order for " +:+ medicine_name m +:+ " is "
    +:+ str_of_Z (max_quantity_per_order m).

Definition add_reason (r : string) (c : checks) : checks :=
  {| c_reasons := c_reasons c ++ [r];
     c_blocked_items := c_blocked_items c;
     c_requires_prescription := c_requires_prescription c;
     c_allowed_quantity := c_allowed_quantity c;
     c_requires_followup := c_requires_followup c |}.

Definition block (name : string) (c : checks) : checks :=
  {| c_reasons := c_reasons c;
     c_blocked_items := c_blocked_items c ++ [name];
     c_requires_prescription := c_requires_prescription c;
     c_allowed_quantity := c_allowed_quantity c;
     c_requires_followup := c_requires_followup c |}.

Definition set_requires_prescription (c : checks) : checks :=
  {| c_reasons := c_reasons c;
     c_blocked_items := c_blocked_items c;
     c_requires_prescription := true;
     c_allowed_quantity := c_allowed_quantity c;
     c_requires_followup := c_requires_followup c |}.

Definition set_requires_followup (c : checks) : checks :=
  {| c_reasons := c_reasons c;
     c_blocked_items := c_blocked_items c;
     c_requires_prescription := c_requires_prescription c;
     c_allowed_quantity := c_allowed_quantity c;
     c_requires_followup := true |}.

Definition set_allowed_quantity (q : Z) (c : checks) : checks :=
  {| c_reasons := c_reasons c;
     c_blocked_items := c_blocked_items c;
     c_requires_prescription := c_requires_prescription c;
     c_allowed_quantity := Some q;
     c_requires_followup := c_requires_followup c |}.

(** Lines 98-102: the prescription check. *)
Definition check_prescription (has_prescription : bool) (m : Medicine)
    (c : checks) : checks :=
  if prescription_required m then
    let c := set_requires_prescription c in
    if negb has_prescription then add_reason (msg_prescription m) c else c
  else c.

(** Lines 104-107: the controlled-substance check. *)
Definition check_controlled (m : Medicine) (c : checks) : checks :=
  if controlled_substance m then
    set_requires_followup (add_reason (msg_controlled m) c)
  else c.

(** Lines 115-117: the stock cap. *)
Definition check_stock (m : Medicine) (req : Z) (c : checks) : checks :=
  if stock_level m <? req then
    let cap := Z.min (stock_level m) (max_quantity_per_order m) in
    add_reason (msg_limited_stock m cap) (set_allowed_quantity cap c)
  else c.

(** Lines 119-123: the per-order maximum.  The guard is the Python
    [if not allowed_quantity], a truthiness test. *)
Definition check_max (m : Medicine) (req : Z) (c : checks) : checks :=
  if max_quantity_per_order m <? req then
    let c :=
      if negb (truthy (c_allowed_quantity c))
      then set_allowed_quantity (max_quantity_per_order m) c
      else c in
    add_reason (msg_max_quantity m) c
  else c.

(** One iteration of the loop body (lines 89-123); the two [continue]
    statements are the two early results. *)
Definition check_item (has_prescription : bool)
    (entity : option ExtractedEntity) (m : Medicine) (c : checks) : checks :=
  let req := requested_qty entity in
  if discontinued m then
    add_reason (msg_discontinued m) (block (medicine_name m) c)
  else
    let c := check_prescription has_prescription m c in
    let c := check_controlled m c in
    if stock_level m =? 0 then
      add_reason (msg_out_of_stock m) (block (medicine_name m) c)
    else
      check_max m req (check_stock m req c).

(** [for i, medicine in enumerate(matched_medicines)], with
    [entities[i] if i < len(entities) else None]. *)
Fixpoint check_loop (has_prescription : bool) (entities : list ExtractedEntity)
    (i : nat) (meds : list Medicine) (c : checks) : checks :=
  match meds with
  | [] => c
  | m :: rest =>
      check_loop has_prescription entities (S i) rest
        (check_item has_prescription (entities !! i) m c)
  end.

(** Lines 125-135: the aggregation. *)
Definition decide_outcome (has_prescription : bool) (n_matched : nat)
    (c : checks) : SafetyDecision :=
  if nonempty (c_blocked_items c)
     && (length (c_blocked_items c) =? n_matched)%nat then REJECT
  else if nonempty (c_blocked_items c)
          || (c_requires_prescription c && negb has_prescription) then CONDITIONAL
  else if c_requires_followup c || truthy (c_allowed_quantity c) then CONDITIONAL
  else APPROVE.

Definition final_reasons (d : SafetyDecision) (rs : list string) : list string :=
  match d with
  | APPROVE => if nonempty rs then rs else rs ++ ["All safety checks passed."]
  | _ => rs
  end.

Definition _perform_safety_checks (entities : list ExtractedEntity)
    (matched_medicines : list Medicine) (has_prescription : bool)
    : SafetyCheckResult :=
  let c := check_loop has_prescription entities 0 matched_medicines init in
  let d := decide_outcome has_prescription (length matched_medicines) c in
  {| decision := d;
     reasons := final_reasons d (c_reasons c);
     allowed_quantity := c_allowed_quantity c;
     requires_followup := c_requires_followup c;
     requires_prescription := c_requires_prescription c;
     blocked_items := c_blocked_items c |}.

(** [evaluate] only adds tracing around [_perform_safety_checks]. *)
Definition evaluate := _perform_safety_checks.

End SafetyAgent.

(** ** refill_agent.py *)

Record RefillPrediction := {
  rp_medicine : string;
  days_remaining : Z;
  action : string;
  confidence : PyFloat.float;
  reason : string
}.

(** One entry of the medication history, a Python dict read with [.get].
    An absent key is [None].  [h_purchase_date] is the purchase instant in
    microseconds; the source reads a ["%Y-%m-%d"] string as the midnight of
    that day, and that reading is taken as done. *)
Record MedicationRecord := {
  h_medicine_name : option string;
  h_supply_days : option Z;
  h_purchase_date : option Z
}.

Module RefillAgent.

Definition day : Z := 86400000000.

(** [(datetime.now() - purchase_date).days]: a [timedelta] is normalised
    with its [days] rounded down. *)
Definition days_since (now purchase_date : Z) : Z := (now - purchase_date) / day.

(** The loop body of [_fallback_calculation] (lines 106-124). *)
Definition fallback_one (now : Z) (med : MedicationRecord)
    : option RefillPrediction :=
  let days_supply := default 30 (h_supply_days med) in
  match h_purchase_date med with
  | Some purchase_date =>
      let remaining := Z.max 0 (days_supply - days_since now purchase_date) in
      Some {| rp_medicine := default "Unknown" (h_medicine_name med);
              days_remaining := remaining;
              action := if remaining <=? 5 then "REMIND" else "NONE";
              confidence := PyFloat.one;
              reason := "Deterministic calculation" |}
  | None => None
  end.

(** [clock i] is what [datetime.now()] returns while entry [i] is
    handled: the source reads the clock inside the loop. *)
Fixpoint fallback_from (clock : nat -> Z) (i : nat)
    (history : list MedicationRecord) : list RefillPrediction :=
  match history with
  | [] => []
  | med :: rest =>
      match fallback_one (clock i) med with
      | Some p => p :: fallback_from clock (S i) rest
      | None => fallback_from clock (S i) rest
      end
  end.

Definition _fallback_calculation (clock : nat -> Z)
    (history : list MedicationRecord) : list RefillPrediction :=
  fallback_from clock 0 history.

(** [predict], lines 37-100.  [answer] is what the reply of the reasoning
    service comes to: [None] when the call, the JSON decoding or the
    building of a prediction raises, and otherwise the predictions built
    from [data["predictions"]], the defaults of the [.get]s filled in. *)
Definition predict (clock : nat -> Z) (answer : option (list RefillPrediction))
    (medication_history : list MedicationRecord) : list RefillPrediction :=
  match answer with
  | Some (p :: ps) => p :: ps
  | _ => _fallback_calculation clock medication_history
  end.

(** [get_all_patient_refills], lines 128-144.  Each patient comes with the
    history the data service returns for them and with what [predict] is
    answered for them. *)
Definition get_all_patient_refills
    (patients : list (list MedicationRecord * option (list RefillPrediction)
                      * (nat -> Z)))
    : list RefillPrediction :=
  flat_map
    (fun '(meds, answer, clock) =>
       if nonempty meds
       then List.filter (fun p => negb (String.eqb (action p) "NONE"))
              (predict clock answer meds)
       else [])
    patients.

End RefillAgent.

(** ** Python string operations

    A [str] is the sequence of its code points; the strings of the model
    are those whose code points are below 256, one [ascii] per code
    point. *)

Module PyStr.

(** [c.isspace()], the white space of [strip()]: U+0009-000D,
    U+001C-0020, U+0085 and U+00A0. *)
Definition is_space (c : ascii) : bool :=
  let n := nat_of_ascii c in
  ((9 <=? n) && (n <=? 13) || (28 <=? n) && (n <=? 32)
   || (n =? 133) || (n =? 160))%nat.

(** The white space that [int] skips around a number: the C white space
    (U+0009-000D and the blank), and U+0085 and U+00A0, which [int] turns
    into blanks first.  U+001C-001F are not part of it. *)
Definition is_int_space (c : ascii) : bool :=
  let n := nat_of_ascii c in
  ((9 <=? n) && (n <=? 13) || (n =? 32) || (n =? 133) || (n =? 160))%nat.

(** A decimal digit, [0] to [9]. *)
Definition is_digit (c : ascii) : bool :=
  let n := nat_of_ascii c in ((48 <=? n) && (n <=? 57))%nat.

(** [c.isdigit()]: the decimal digits and the superscripts two, three and
    one (U+00B2, U+00B3, U+00B9). *)
Definition isdigit_char (c : ascii) : bool :=
  let n := nat_of_ascii c in
  (is_digit c || (n =? 178) || (n =? 179) || (n =? 185))%nat.

(** [c.lower()]: the capitals A-Z and U+00C0-00DE, the multiplication
    sign U+00D7 apart. *)
Definition lower_char (c : ascii) : ascii :=
  let n := nat_of_ascii c in
  if ((65 <=? n) && (n <=? 90)
      || (192 <=? n) && (n <=? 222) && negb (n =? 215))%nat
  then ascii_of_nat (n + 32) else c.

(** [s.lower()] *)
Fixpoint lower (s : string) : string :=
  match s with
  | EmptyString => EmptyString
  | String c r => String (lower_char c) (lower r)
  end.

Fixpoint lstrip (s : string) : string :=
  match s with
  | String c r => if is_space c then lstrip r else s
  | EmptyString => EmptyString
  end.

Fixpoint rstrip (s : string) : string :=
  match s with
  | EmptyString => EmptyString
  | String c r =>
      match rstrip r with
      | EmptyString => if is_space c then EmptyString else String c EmptyString
      | r' => String c r'
      end
  end.

(** [s.strip()] *)
Definition strip (s : string) : string := rstrip (lstrip s).

(** [needle in hay] *)
Fixpoint contains (needle hay : string) : bool :=
  String.prefix needle hay
  || match hay with
     | EmptyString => false
     | String _ r => contains needle r
     end.

(** [s.split(":", 1)] when [":" in s]; [None] when there is no colon. *)
Fixpoint split_colon (s : string) : option (string * string) :=
  match s with
  | EmptyString => None
  | String c r =>
      if Ascii.eqb c ":" then Some (EmptyString, r)
      else match split_colon r with
           | Some (k, v) => Some (String c k, v)
           | None => None
           end
  end.

(** [s.replace("x", "")] *)
Fixpoint remove_x (s : string) : string :=
  match s with
  | EmptyString => EmptyString
  | String c r => if Ascii.eqb c "x" then remove_x r else String c (remove_x r)
  end.

(** Decimal digits only. *)
Fixpoint all_digits (s : string) : bool :=
  match s with
  | EmptyString => true
  | String c r => is_digit c && all_digits r
  end.

Fixpoint all_isdigit (s : string) : bool :=
  match s with
  | EmptyString => true
  | String c r => isdigit_char c && all_isdigit r
  end.

(** [s.isdigit()]: non-empty, and [isdigit()] holds of every character. *)
Definition isdigit (s : string) : bool :=
  match s with EmptyString => false | _ => all_isdigit s end.

Definition digit_value (c : ascii) : Z := Z.of_nat (nat_of_ascii c) - 48.

(** The digits of an integer literal, read left to right; a single
    underscore is allowed between two digits.  [prev_digit] tells whether
    the character before was a digit. *)
Fixpoint read_digits (s : string) (prev_digit : bool) (acc : Z) : option Z :=
  match s with
  | EmptyString => if prev_digit then Some acc else None
  | String c r =>
      if is_digit c then read_digits r true (10 * acc + digit_value c)
      else if Ascii.eqb c "_" && prev_digit then read_digits r false acc
      else None
  end.

(** How many decimal digits a literal holds. *)
Fixpoint count_digits (s : string) : nat :=
  match s with
  | EmptyString => 0
  | String c r => if is_digit c then S (count_digits r) else count_digits r
  end.

(** [sys.get_int_max_str_digits()]: a literal of more digits is refused. *)
Definition int_max_str_digits : nat := 4300.

(** The digits after the sign. *)
Definition read_number (s : string) : option Z :=
  if (int_max_str_digits <? count_digits s)%nat then None
  else read_digits s false 0.

Fixpoint int_lskip (s : string) : string :=
  match s with
  | String c r => if is_int_space c then int_lskip r else s
  | EmptyString => EmptyString
  end.

Fixpoint int_rskip (s : string) : string :=
  match s with
  | EmptyString => EmptyString
  | String c r =>
      match int_rskip r with
      | EmptyString => if is_int_space c then EmptyString else String c EmptyString
      | r' => String c r'
      end
  end.

(** [int(s)] for a string: white space, an optional sign, the digits,
    white space.  [None] is the [ValueError]. *)
Definition int (s : string) : option Z :=
  match int_rskip (int_lskip s) with
  | String c r =>
      if Ascii.eqb c "-" then Z.opp <$> read_number r
      else if Ascii.eqb c "+" then read_number r
      else read_number (String c r)
  | EmptyString => None
  end.

End PyStr.

(** ** Orders and the order life cycle *)

Record OrderItem := {
  oi_medicine_id : string;
  oi_medicine_name : string;
  oi_strength : string;
  oi_quantity : Z;
  unit_price : PyFloat.float;
  oi_prescription_required : bool
}.

Inductive OrderStatus :=
  PENDING | VALIDATED | CONFIRMED | PROCESSING | PREPARING | SHIPPED
| COMPLETED | CANCELLED.

#[global] Instance OrderStatus_eq_dec : EqDecision OrderStatus.
Proof. solve_decision. Defined.


(** An entry of the event log is either a status transition or a side
    event; the time stamp is left out. *)
Inductive EventKind :=
| StatusChange (s : OrderStatus)
| SideEvent (tag : string).

Record OrderEvent := { ev_kind : EventKind; ev_note : string }.

Record Order := {
  order_id : string;
  o_patient_id : string;
  o_patient_name : string;
  o_items : list OrderItem;
  o_total_amount : PyFloat.float;
  status : OrderStatus;
  prescription_id : option string;
  events : list OrderEvent
}.



(** [item.unit_price * item.quantity]: the quantity, an [int], is converted
    to a float first; [None] is the [OverflowError] of that conversion. *)
Definition line_total (it : OrderItem) : option PyFloat.float :=
  PyFloat.mul (unit_price it) <$> PyFloat.of_int (oi_quantity it).

(** The loop of [sum]: each term is computed and added to what has been
    summed so far. *)
Fixpoint sum_from (acc : PyFloat.float) (its : list OrderItem)
    : option PyFloat.float :=
  match its with
  | [] => Some acc
  | it :: rest =>
      match line_total it with
      | Some x => sum_from (PyFloat.add acc x) rest
      | None => None
      end
  end.

(** [sum(item.unit_price * item.quantity for item in items)]: the terms are
    added from left to right to the start value [0], by float additions
    (the [sum] of CPython up to 3.11; from 3.12 on it carries a
    compensation term for floats).  The sum of no term, the [int] 0, is
    kept as [0.0], which is what a float field makes of it. *)
Definition subtotal_of (its : list OrderItem) : option PyFloat.float :=
  sum_from (SpecFloat.S754_zero false) its.

(** ** The fulfilment agent *)

Module FulfillmentAgent.

Definition append_event (e : OrderEvent) (o : Order) : Order :=
  {| order_id := order_id o; o_patient_id := o_patient_id o;
     o_patient_name := o_patient_name o; o_items := o_items o;
     o_total_amount := o_total_amount o; status := status o;
     prescription_id := prescription_id o;
     events := events o ++ [e] |}.

Definition set_status (s : OrderStatus) (o : Order) : Order :=
  {| order_id := order_id o; o_patient_id := o_patient_id o;
     o_patient_name := o_patient_name o; o_items := o_items o;
     o_total_amount := o_total_amount o; status := s;
     prescription_id := prescription_id o;
     events := events o |}.

(** Modelled from the spec: [fulfillment_agent.create_order], of
    [agents/fulfillment_agent.py].  An order is created in [PENDING] with
    the given items, and its creation is the first entry of its log.
    [oid] is the order id the agent mints.  The total is the rounded sum
    of the line totals, as for a preview (and [0.0] for items whose sum
    cannot be computed, which the items of a preview never are). *)
Definition create_order (oid patient_id patient_name : string)
    (its : list OrderItem) (orders : gmap string Order)
    : Order * gmap string Order :=
  let o := {| order_id := oid; o_patient_id := patient_id;
              o_patient_name := patient_name; o_items := its;
              o_total_amount :=
                default (SpecFloat.S754_zero false)
                  (PyFloat.round2 <$> subtotal_of its);
              status := PENDING; prescription_id := None;
              events := [ {| ev_kind := StatusChange PENDING;
                             ev_note := "Order created" |} ] |} in
  (o, <[oid := o]> orders).

(** Modelled from the spec: [fulfillment_agent.update_order_status].
    The status is set and the transition is appended to the event
    log; nothing is overwritten.  An unknown order id changes nothing. *)
Definition update_order_status (oid : string) (s : OrderStatus)
    (note : string) (orders : gmap string Order) : gmap string Order :=
  alter (fun o => append_event {| ev_kind := StatusChange s; ev_note := note |}
                    (set_status s o)) oid orders.

(** Modelled from the spec: the four [record_*] methods of the fulfilment
    agent append a side event, which is no status. *)
Definition record_event (oid tag note : string)
    (orders : gmap string Order) : gmap string Order :=
  alter (append_event {| ev_kind := SideEvent tag; ev_note := note |}) oid orders.

(** Modelled from the spec: the side events of the confirmation, as the
    session handler records them. *)
Definition record_safety_validation (oid : string) :=
  record_event oid "SAFETY_VALIDATION" "Safety validation recorded".
Definition record_order_confirmed (oid : string) :=
  record_event oid "ORDER_CONFIRMED" "Order confirmation recorded".
Definition record_inventory_updated (oid : string) (total_quantity : Z) :=
  record_event oid "INVENTORY_UPDATED" (str_of_Z total_quantity).
Definition record_fulfillment_initiated (oid : string) :=
  record_event oid "FULFILLMENT_INITIATED" "Fulfillment initiated".

End FulfillmentAgent.

(** ** orchestrator_agent.py *)

Record Patient := {
  patient_id : string;
  patient_name : string
}.

Record ChatRequest := {
  rq_patient_id : string;
  rq_message : string;
  rq_session_id : option string
}.

Record ExtractionResult := {
  entities : list ExtractedEntity;
  needs_clarification : bool;
  clarification_message : string
}.

Record OrderPreview := {
  preview_id : string;
  pv_patient_id : string;
  pv_patient_name : string;
  items : list OrderItem;
  total_amount : PyFloat.float;
  safety_decision : SafetyDecision;
  safety_reasons : list string;
  pv_requires_prescription : bool
}.

(** The reply texts.  A literal reply is kept as its text; a formatted one
    is kept as the values it is formatted from. *)
Inductive Message :=
| Text (s : string)
| NotInInventory (name : string)
| CannotProcess (rs : list string)
| PreparedHowever (its : list OrderItem) (rs : list string)
| PreparedTotal (its : list OrderItem) (total : PyFloat.float)
| OrderConfirmed (oid : string) (subtotal tax delivery grand_total : PyFloat.float).

Record ChatResponse := {
  message : Message;
  extracted_entities : option ExtractionResult;
  safety_result : option SafetyCheckResult;
  order_preview : option OrderPreview;
  order : option Order;
  requires_confirmation : bool
}.

(** The calls made on the data service, in the order they are made. *)
Inductive DataCall :=
| UpdateStock (med_id : string) (qty : Z)
| AddOrder (oid med_id : string) (qty : Z).

Module Orchestrator.

(** The two dictionaries of [OrchestratorAgent] that the order handlers
    read and write. *)
Record state := {
  pending_previews : gmap string OrderPreview;
  session_contexts : gmap string string
}.

Definition empty_state : state :=
  {| pending_previews := ∅; session_contexts := ∅ |}.

Definition reply (m : Message) : ChatResponse :=
  {| message := m; extracted_entities := None; safety_result := None;
     order_preview := None; order := None; requires_confirmation := false |}.

(** [request.session_id or request.patient_id] *)
Definition session_of (request : ChatRequest) : string :=
  match rq_session_id request with
  | Some (String c r) => String c r
  | _ => rq_patient_id request
  end.

(** [f"PRV-{uuid.uuid4().hex[:8].upper()}"]; [uuid8] stands for the eight
    hexadecimal digits drawn. *)
Definition _generate_preview_id (uuid8 : string) : string := "PRV-" +:+ uuid8.

(** The pending preview of a session, as lines 125-127 and 365-372 read it:
    the session's id must be truthy and still in [pending_previews]. *)
Definition pending_preview (st : state) (session_id : string)
    : option (string * OrderPreview) :=
  match session_contexts st !! session_id with
  | Some (String c r) =>
      match pending_previews st !! String c r with
      | Some pv => Some (String c r, pv)
      | None => None
      end
  | _ => None
  end.

(** A price literal of so many hundredths, such as [0.15]. *)
Definition cents (n : positive) : PyFloat.float := PyFloat.of_ratio false n 100.

Definition price_map : gmap string PyFloat.float :=
  list_to_map
    [ ("Paracetamol", cents 15); ("Metformin", cents 20);
      ("Atorvastatin", cents 85); ("Lisinopril", cents 55);
      ("Amlodipine", cents 65); ("Omeprazole", cents 40);
      ("Amoxicillin", cents 35); ("Ibuprofen", cents 20);
      ("Aspirin", cents 10) ].

(** [price_map.get(item.medicine_name, 0.50)] *)
Definition price_of (name : string) : PyFloat.float :=
  default (cents 50) (price_map !! name).

(** Lines 292-294. *)
Definition resolve_quantity (entity : ExtractedEntity) (allowed : option Z) : Z :=
  let quantity := if 0 <? quantity entity then quantity entity else 30 in
  if truthy allowed then
    match allowed with
    | Some cap => Z.min quantity cap
    | None => quantity
    end
  else quantity.

(** Lines 296-302 with the price of lines 318-319, which is assigned
    to every item before anything reads it. *)
Definition make_item (med : Medicine) (qty : Z) : OrderItem :=
  {| oi_medicine_id := medicine_id med;
     oi_medicine_name := medicine_name med;
     oi_strength := strength med;
     oi_quantity := qty;
     unit_price := price_of (medicine_name med);
     oi_prescription_required := prescription_required med |}.

(** [for i, entity in enumerate(entities): if i < len(matched_medicines)] *)
Fixpoint build_items (i : nat) (ents : list ExtractedEntity)
    (matched : list Medicine) (allowed : option Z) : list OrderItem :=
  match ents with
  | [] => []
  | entity :: rest =>
      match matched !! i with
      | Some med =>
          make_item med (resolve_quantity entity allowed)
            :: build_items (S i) rest matched allowed
      | None => build_items (S i) rest matched allowed
      end
  end.

Section Pipeline.

(** [data_service.search_medicine] *)
Variable search_medicine : string -> list Medicine.

(** Lines 246-251, a [for ... else]. *)
Definition dosage_fits (entity : ExtractedEntity) (med : Medicine) : bool :=
  match dosage entity with
  | EmptyString => true
  | d => PyStr.contains (PyStr.lower d) (PyStr.lower (strength med))
  end.

Definition best_match (entity : ExtractedEntity) : option Medicine :=
  match search_medicine (medicine entity) with
  | [] => None
  | first :: more =>
      Some (default first (List.find (dosage_fits entity) (first :: more)))
  end.

Definition match_medicines (ents : list ExtractedEntity) : list Medicine :=
  omap best_match ents.

(** The preview of lines 323-333, from the subtotal of line 321. *)
Definition build_preview (uuid8 : string) (patient : Patient)
    (ents : list ExtractedEntity) (matched : list Medicine)
    (sr : SafetyCheckResult) (subtotal : PyFloat.float) : OrderPreview :=
  {| preview_id := _generate_preview_id uuid8;
     pv_patient_id := patient_id patient;
     pv_patient_name := patient_name patient;
     items := build_items 0 ents matched (allowed_quantity sr);
     total_amount := PyFloat.round2 subtotal;
     safety_decision := decision sr;
     safety_reasons := reasons sr;
     pv_requires_prescription := requires_prescription sr |}.

(** [_handle_order].  [extraction_result] is what the extraction agent
    returned for the message and [uuid8] the digits drawn for the
    preview id.  [None] is the [OverflowError] that line 321 raises when
    a quantity is too large for a float; nothing has been stored by
    then. *)
Definition _handle_order (extraction_result : ExtractionResult)
    (uuid8 : string) (request : ChatRequest) (patient : Patient)
    (st : state) : option (ChatResponse * state) :=
  let with_entities (m : Message) :=
    {| message := m; extracted_entities := Some extraction_result;
       safety_result := None; order_preview := None; order := None;
       requires_confirmation := false |} in
  if needs_clarification extraction_result then
    Some (with_entities (Text (clarification_message extraction_result)), st)
  else
    match entities extraction_result with
    | [] =>
        Some (with_entities (Text "I couldn't identify any medications in your request. Could you please specify which medicine you need?"), st)
    | first :: _ =>
        let ents := entities extraction_result in
        let matched := match_medicines ents in
        if negb (nonempty matched) then
          Some (with_entities (NotInInventory (medicine first)), st)
        else
          let sr := SafetyAgent.evaluate ents matched false in
          if decide (decision sr = REJECT) then
            Some ({| message := CannotProcess (reasons sr);
                     extracted_entities := Some extraction_result;
                     safety_result := Some sr; order_preview := None;
                     order := None; requires_confirmation := false |}, st)
          else
            match subtotal_of (build_items 0 ents matched (allowed_quantity sr)) with
            | None => None
            | Some subtotal =>
                let preview :=
                  build_preview uuid8 patient ents matched sr subtotal in
                let st' :=
                  {| pending_previews :=
                       <[preview_id preview := preview]> (pending_previews st);
                     session_contexts :=
                       <[session_of request := preview_id preview]>
                         (session_contexts st) |} in
                let m :=
                  if decide (decision sr = CONDITIONAL)
                  then PreparedHowever (items preview) (reasons sr)
                  else PreparedTotal (items preview) (total_amount preview) in
                Some ({| message := m;
                         extracted_entities := Some extraction_result;
                         safety_result := Some sr;
                         order_preview := Some preview;
                         order := None;
                         requires_confirmation := true |}, st')
            end
    end.

End Pipeline.

(** [_handle_order_confirmation], lines 362-431.  [oid] is the id the
    fulfilment agent mints for the new order and [orders] its order
    store.  The receipt and the refill advice only shape the text of the
    reply and are left out. *)
Definition _handle_order_confirmation (oid : string) (request : ChatRequest)
    (patient : Patient) (st : state) (orders : gmap string Order)
    : ChatResponse * state * gmap string Order * list DataCall :=
  let session_id := session_of request in
  match pending_preview st session_id with
  | None =>
      (reply (Text "I don't see any pending order to confirm. Would you like to place a new order?"),
       st, orders, [])
  | Some (preview_id, preview) =>
      let '(order, orders) :=
        FulfillmentAgent.create_order oid (patient_id patient)
          (patient_name patient) (items preview) orders in
      let oid := order_id order in
      (* Step 1 *)
      let orders := FulfillmentAgent.record_safety_validation oid orders in
      let orders := FulfillmentAgent.update_order_status oid VALIDATED
                      "Safety validation completed" orders in
      (* Step 2 *)
      let orders := FulfillmentAgent.record_order_confirmed oid orders in
      let orders := FulfillmentAgent.update_order_status oid CONFIRMED
                      "Order confirmed by patient" orders in
      (* Step 3 *)
      let stock_calls :=
        map (fun it => UpdateStock (oi_medicine_id it) (oi_quantity it))
          (o_items order) in
      let total_quantity :=
        fold_left (fun acc it => acc + oi_quantity it) (o_items order) 0 in
      let orders := FulfillmentAgent.record_inventory_updated oid total_quantity
                      orders in
      (* Step 4 *)
      let orders := FulfillmentAgent.record_fulfillment_initiated oid orders in
      let orders := FulfillmentAgent.update_order_status oid PROCESSING
                      "Order is being processed for delivery" orders in
      let history_calls :=
        map (fun it => AddOrder oid (oi_medicine_id it) (oi_quantity it))
          (o_items order) in
      let st' :=
        {| pending_previews := delete preview_id (pending_previews st);
           session_contexts := delete session_id (session_contexts st) |} in
      let tax := PyFloat.mul (o_total_amount order) (cents 5) in
      let delivery := PyFloat.of_ratio false 2 1 in
      let grand_total :=
        PyFloat.add (PyFloat.add (o_total_amount order) tax) delivery in
      ({| message := OrderConfirmed oid (o_total_amount order) tax delivery
                       grand_total;
          extracted_entities := None; safety_result := None;
          order_preview := None;
          order := orders !! oid;
          requires_confirmation := false |},
       st', orders, stock_calls ++ history_calls)
  end.

(** [_handle_order_cancellation], lines 489-501. *)
Definition _handle_order_cancellation (request : ChatRequest) (st : state)
    : ChatResponse * state :=
  let session_id := session_of request in
  let previews :=
    match pending_preview st session_id with
    | Some (preview_id, _) => delete preview_id (pending_previews st)
    | None => pending_previews st
    end in
  (reply (Text "Your order has been cancelled. Is there anything else I can help you with?"),
   {| pending_previews := previews;
      session_contexts := delete session_id (session_contexts st) |}).

End Orchestrator.

(** ** main.py: the decision router *)

Inductive Verdict := APPROVED | REJECTED | NEEDS_INFO | SCHEDULED.

#[global] Instance Verdict_eq_dec : EqDecision Verdict.
Proof. solve_decision. Defined.

Record AgentDecision := {
  agent : string;
  verdict : Verdict;
  ad_reason : string;
  ad_message : option string;
  evidence : list string;
  next_agent : option string
}.

(** What [chat] answers with. *)
Inductive Reply :=
| Say (s : string)
| CannotFulfill (why : string)
| SafetyCheckFailed (why : string)
| RefillStatus (s : string)
| OrderPlaced (oid : string)
| PlaceOrderError
| GoodNews (qty : string) (med : string) (price : string).

(** A reply, or the [HTTPException] with status 500 that the outer
    [except] clause of [chat] raises for an exception in its body. *)
Inductive Outcome :=
| Replied (r : Reply)
| ServerError.

Module Main.

(** [parse_evidence], lines 100-107. *)
Definition parse_evidence (evidence : list string) : gmap string string :=
  fold_left
    (fun result item =>
       match PyStr.split_colon item with
       | Some (key, val) =>
           <[PyStr.lower (PyStr.strip key) := PyStr.strip val]> result
       | None => result
       end)
    evidence ∅.

(** A string used as a condition: [None] and the empty string are false. *)
Definition truthy_str (o : option string) : option string :=
  match o with
  | Some (String c r) => Some (String c r)
  | _ => None
  end.

(** [decision.message or decision.reason] *)
Definition message_or_reason (d : AgentDecision) : string :=
  default (ad_reason d) (truthy_str (ad_message d)).

(** Lines 153 and 166:
    [int(extracted_data.get("quantity", "30").replace("x","")) if "quantity" in extracted_data else 30].
    [None] is the [ValueError] of [int]. *)
Definition quantity_or_raise (extracted_data : gmap string string) : option Z :=
  match extracted_data !! "quantity" with
  | Some v => PyStr.int (PyStr.remove_x v)
  | None => Some 30
  end.

(** Lines 186-187, inside the [try] of the fulfilment branch. *)
Definition quantity_or_default (extracted_data : gmap string string) : option Z :=
  let qty_str :=
    PyStr.strip (PyStr.remove_x (default "1" (extracted_data !! "quantity"))) in
  if PyStr.isdigit qty_str then PyStr.int qty_str else Some 1.

Inductive step_result :=
| Next (d : AgentDecision) (extracted_data : gmap string string)
| Exit
| Return (o : Outcome).

Section Chat.

(** The collaborators.  The first argument numbers the hop: the same
    request may be answered differently at another hop. *)
Variable inventory_agent_run : nat -> string -> Z -> AgentDecision.
Variable policy_agent_run : nat -> string -> Z -> bool -> AgentDecision.
Variable refill_prediction_agent_run : nat -> AgentDecision.
(** Lines 191-216, order creation and the warehouse call: the id of the
    order placed, or [None] when an exception is raised there. *)
Variable place_order : nat -> string -> string -> Z -> option string.

(** One turn of the [while] loop, lines 146-226, its test included. *)
Definition handoff_step (hop : nat) (current_decision : AgentDecision)
    (extracted_data : gmap string string) : step_result :=
  match truthy_str (next_agent current_decision) with
  | None => Exit
  | Some next_agent_name =>
      if decide (next_agent_name = "InventoryAgent") then
        let med := default "" (extracted_data !! "medicine") in
        match quantity_or_raise extracted_data with
        | None => Return ServerError
        | Some qty =>
            let new_decision := inventory_agent_run hop med qty in
            if decide (verdict new_decision = REJECTED) then
              Return (Replied (CannotFulfill (ad_reason new_decision)))
            else
              Next new_decision
                (parse_evidence (evidence new_decision) ∪ extracted_data)
        end
      else if decide (next_agent_name = "PolicyAgent") then
        let med := default "" (extracted_data !! "medicine") in
        match quantity_or_raise extracted_data with
        | None => Return ServerError
        | Some qty =>
            let req_script :=
              PyStr.contains "yes"
                (PyStr.lower
                   (default "no" (extracted_data !! "requires prescription"))) in
            let new_decision := policy_agent_run hop med qty req_script in
            if decide (verdict new_decision = REJECTED) then
              Return (Replied (SafetyCheckFailed (ad_reason new_decision)))
            else Next new_decision extracted_data
        end
      else if decide (next_agent_name = "RefillPredictionAgent") then
        Return (Replied (RefillStatus
                  (message_or_reason (refill_prediction_agent_run hop))))
      else if decide (next_agent_name = "FulfillmentAgent") then
        let med_name := default "Generic Medicine" (extracted_data !! "medicine") in
        match quantity_or_default extracted_data with
        | None => Return (Replied PlaceOrderError)
        | Some qty =>
            match place_order hop med_name
                    (default "Unknown" (extracted_data !! "strength")) qty with
            | Some oid => Return (Replied (OrderPlaced oid))
            | None => Return (Replied PlaceOrderError)
            end
        end
      else Exit
  end.

(** Lines 228-239, after the loop. *)
Definition after_loop (decision : AgentDecision)
    (extracted_data : gmap string string) : Outcome :=
  match extracted_data !! "medicine" with
  | Some med =>
      Replied (GoodNews (default "30" (extracted_data !! "quantity")) med
                 (default "0.50" (extracted_data !! "price")))
  | None => Replied (Say (ad_reason decision))
  end.

(** The loop, run for at most [fuel] turns; [None] when the turns are
    used up before the loop is left. *)
Fixpoint handoff_loop (fuel hop : nat) (decision current_decision : AgentDecision)
    (extracted_data : gmap string string) : option Outcome :=
  match fuel with
  | O => None
  | S fuel' =>
      match handoff_step hop current_decision extracted_data with
      | Next d data => handoff_loop fuel' (S hop) decision d data
      | Exit => Some (after_loop decision extracted_data)
      | Return o => Some o
      end
  end.

(** [chat] from step 3 on (lines 133-239), for a patient that was found;
    [decision] is the pharmacist agent's. *)
Definition chat (fuel : nat) (decision : AgentDecision) : option Outcome :=
  if decide (verdict decision = NEEDS_INFO) then
    Some (Replied (Say (message_or_reason decision)))
  else if decide (verdict decision = REJECTED) then
    Some (Replied (Say (message_or_reason decision)))
  else
    handoff_loop fuel 0 decision decision (parse_evidence (evidence decision)).

End Chat.

(** The answer of an order endpoint: its effect, or the status code of
    the [HTTPException] it raises. *)
Inductive http (A : Type) :=
| Ok (a : A)
| HTTPError (code : nat).
Arguments Ok {A} a.
Arguments HTTPError {A} code.


(** [cancel_order], lines 360-371. *)
Definition cancel_order (oid : string) (orders : gmap string Order)
    : http (gmap string Order) :=
  match orders !! oid with
  | None => HTTPError 404
  | Some order =>
      if decide (status order = COMPLETED \/ status order = CANCELLED)
      then HTTPError 400
      else Ok (FulfillmentAgent.update_order_status oid CANCELLED
                 "Order cancelled by user" orders)
  end.

End Main.

(** ** extraction_agent.py *)

Module ExtractionAgent.

(** One element of the tool arguments' ["entities"], a dict read with
    [.get]; an absent key is [None]. *)
Record EntityData := {
  ed_medicine : option string;
  ed_dosage : option string;
  ed_quantity : option Z
}.

(** The arguments of the [extract_order_details] tool call, decoded. *)
Record ToolArguments := {
  ta_entities : option (list EntityData);
  ta_needs_clarification : option bool;
  ta_clarification_message : option string
}.

(** Lines 145-152. *)
Definition parse_entity (entity_data : EntityData) : ExtractedEntity :=
  {| medicine := default "" (ed_medicine entity_data);
     dosage := default "" (ed_dosage entity_data);
     quantity := default 0 (ed_quantity entity_data) |}.

(** [extract], lines 130-176, from the reply of the reasoning service on:
    [inl e] is an exception with text [e] anywhere in the [try], [inr a]
    the decoded tool arguments. *)
Definition extract (outcome : string + ToolArguments) : ExtractionResult :=
  match outcome with
  | inr result_data =>
      {| entities := map parse_entity (default [] (ta_entities result_data));
         needs_clarification :=
           default false (ta_needs_clarification result_data);
         clarification_message :=
           default "" (ta_clarification_message result_data) |}
  | inl e =>
      {| entities := [];
         needs_clarification := true;
         clarification_message :=
           "I had trouble understanding your request. Could you please rephrase it? Error: "
           +:+ e |}
  end.

End ExtractionAgent.

(** ** models/tools.py *)

Module Tools.

(** The names of the tools of [ALL_TOOLS], in its order. *)
Definition ALL_TOOLS : list string :=
  [ "extract_order_details"; "check_refill_status"; "place_order";
    "confirm_last_order"; "cancel_order"; "check_order_status" ].

End Tools.

(** ** orchestrator_agent.py: [process_message] *)

(** A stored message, a dict read with [.get]. *)
Record HistoryMessage := {
  hm_role : option string;
  hm_content : option Message
}.

(** What the chat completion answers: the names of the tools called, none
    when it answers in words, and its words. *)
Record LLMMessage := {
  tool_calls : list string;
  content : string
}.

(** The messages sent to the chat completion. *)
Inductive PromptMessage :=
| SystemPrompt
| PatientInfo (name id : string) (recent_orders : nat)
| PendingStatus (pid : string) (preview : OrderPreview)
| Past (role : string) (text : Message)
| UserMessage (text : string).

(** [l[-n:]] for a positive [n]. *)
Definition last_n {A} (n : nat) (l : list A) : list A := drop (length l - n) l.

Module Turn.

Import Orchestrator.

(** The orchestrator's stores with its third dictionary. *)
Record agent := {
  stores : state;
  conversation_histories : gmap string (list HistoryMessage)
}.

(** What the handlers of one turn read and write. *)
Record world := {
  w_stores : state;
  w_orders : gmap string Order;
  w_calls : list DataCall
}.

(** How the loop over the tool calls ends: with the response it leaves, or
    with the exception a handler raised, which ends the [try] at once;
    what the handlers before it wrote stays written. *)
Inductive ran :=
| Finished (w : world) (response : option ChatResponse)
| Raised (w : world).

(** [response.message] as a condition. *)
Definition has_text (m : Message) : bool :=
  match m with
  | Text EmptyString => false
  | _ => true
  end.

(** Lines 113-153. *)
Definition build_messages (patient : Patient) (recent_orders : nat)
    (st : state) (session_id : string)
    (conversation_history : list HistoryMessage) (text : string)
    : list PromptMessage :=
  [SystemPrompt; PatientInfo (patient_name patient) (patient_id patient) recent_orders]
  ++ match pending_preview st session_id with
     | Some (pid, preview) => [PendingStatus pid preview]
     | None => []
     end
  ++ map (fun msg => Past (default "user" (hm_role msg))
                       (default (Text "") (hm_content msg)))
       (last_n 10 conversation_history)
  ++ [UserMessage text].

Section ProcessMessage.

(** The collaborators of one turn; those asked once per tool call are numbered
    by the position of the call. *)
Variable search_medicine : string -> list Medicine.
Variable extraction : nat -> ExtractionResult.
Variable uuid : nat -> string.
Variable order_id_for : nat -> string.
(** What [_handle_refill_check] and [_handle_status_check] answer; they read
    the data service and write nothing. *)
Variable refill_reply : nat -> ChatResponse.
Variable status_reply : nat -> ChatResponse.
(** The chat completion: an exception text or its message. *)
Variable llm : list PromptMessage -> string + LLMMessage.

(** The body of the loop over the tool calls, lines 174-189. *)
Definition run_tool (i : nat) (tool_name : string) (request : ChatRequest)
    (patient : Patient) (w : world) (response : option ChatResponse) : ran :=
  if decide (tool_name = "extract_order_details" \/ tool_name = "place_order") then
    match _handle_order search_medicine (extraction i) (uuid i) request patient
            (w_stores w) with
    | Some (r, st') =>
        Finished {| w_stores := st'; w_orders := w_orders w; w_calls := w_calls w |}
          (Some r)
    | None => Raised w
    end
  else if decide (tool_name = "check_refill_status") then
    Finished w (Some (refill_reply i))
  else if decide (tool_name = "confirm_last_order") then
    let '(r, st', orders', calls) :=
      _handle_order_confirmation (order_id_for i) request patient
        (w_stores w) (w_orders w) in
    Finished
      {| w_stores := st'; w_orders := orders'; w_calls := w_calls w ++ calls |}
      (Some r)
  else if decide (tool_name = "cancel_order") then
    let '(r, st') := _handle_order_cancellation request (w_stores w) in
    Finished {| w_stores := st'; w_orders := w_orders w; w_calls := w_calls w |}
      (Some r)
  else if decide (tool_name = "check_order_status") then
    Finished w (Some (status_reply i))
  else Finished w response.

Fixpoint run_tools (i : nat) (names : list string) (request : ChatRequest)
    (patient : Patient) (w : world) (response : option ChatResponse) : ran :=
  match names with
  | [] => Finished w response
  | tool_name :: rest =>
      match run_tool i tool_name request patient w response with
      | Finished w' response' => run_tools (S i) rest request patient w' response'
      | Raised w' => Raised w'
      end
  end.

(** [process_message], lines 80-210.  [patient] is what the data service
    finds for the request's patient id, [recent_orders] how many recent
    orders it returns, [request_history] the request's conversation
    history.  The reply is [None] when the function returns [None].  An
    exception of a handler is caught by the [except] of line 206 like one
    of the completion. *)
Definition process_message (patient : option Patient) (recent_orders : nat)
    (request : ChatRequest) (request_history : list HistoryMessage)
    (a : agent) (orders : gmap string Order)
    : option ChatResponse * agent * gmap string Order * list DataCall :=
  match patient with
  | None =>
      (Some (reply (Text "I couldn't find your patient record. Please select a valid patient.")),
       a, orders, [])
  | Some patient =>
      let session_id := session_of request in
      let histories :=
        if nonempty request_history
        then <[session_id := request_history]> (conversation_histories a)
        else conversation_histories a in
      let conversation_history := default [] (histories !! session_id) in
      let messages :=
        build_messages patient recent_orders (stores a) session_id
          conversation_history (rq_message request) in
      let failed (e : string) (w : world) :=
        (Some (reply (Text ("I encountered an error processing your request. Error: "
                            +:+ e))),
         {| stores := w_stores w; conversation_histories := histories |},
         w_orders w, w_calls w) in
      let w0 := {| w_stores := stores a; w_orders := orders; w_calls := [] |} in
      match llm messages with
      | inl e => failed e w0
      | inr answer =>
          match
            if nonempty (tool_calls answer)
            then run_tools 0 (tool_calls answer) request patient w0 None
            else Finished w0 (Some (reply (Text (content answer))))
          with
          | Raised w => failed "int too large to convert to float" w
          | Finished w response =>
              let said :=
                [ {| hm_role := Some "user";
                     hm_content := Some (Text (rq_message request)) |} ]
                ++ match response with
                   | Some r =>
                       if has_text (message r)
                       then [ {| hm_role := Some "assistant";
                                 hm_content := Some (message r) |} ]
                       else []
                   | None => []
                   end in
              (response,
               {| stores := w_stores w;
                  conversation_histories :=
                    <[session_id := conversation_history ++ said]> histories |},
               w_orders w, w_calls w)
          end
      end
  end.

End ProcessMessage.

End Turn.

(** ** Sample inputs *)

Module Samples.

Definition entity (name : string) (qty : Z) : ExtractedEntity :=
  {| medicine := name; dosage := ""; quantity := qty |}.

Definition med (name : string) (stock max : Z) : Medicine :=
  {| medicine_id := "MED-" +:+ name; medicine_name := name; strength := "500mg";
     stock_level := stock; max_quantity_per_order := max;
     prescription_required := false; controlled_substance := false;
     discontinued := false |}.

(** A catalog with one medicine per name. *)
Definition catalog (name : string) : list Medicine :=
  if decide (name = "Paracetamol") then [med "Paracetamol" 100 30]
  else if decide (name = "Aspirin") then [med "Aspirin" 10 0]
  else [].

Definition patient : Patient := {| patient_id := "PAT001"; patient_name := "Asha" |}.

Definition request (text : string) : ChatRequest :=
  {| rq_patient_id := "PAT001"; rq_message := text; rq_session_id := Some "s1" |}.

Definition wants (name : string) (qty : Z) : ExtractionResult :=
  {| entities := [entity name qty]; needs_clarification := false;
     clarification_message := "" |}.

(** What a turn returns, for a turn that does not raise. *)
Definition returned (turn : option (ChatResponse * Orchestrator.state))
    : ChatResponse * Orchestrator.state :=
  default (Orchestrator.reply (Text ""), Orchestrator.empty_state) turn.

(** Two order turns of session ["s1"], from the empty store. *)
Definition turn1 :=
  returned
    (Orchestrator._handle_order catalog (wants "Paracetamol" 2) "0000AAAA"
       (request "2 paracetamol please") patient Orchestrator.empty_state).

Definition turn2 :=
  returned
    (Orchestrator._handle_order catalog (wants "Paracetamol" 40) "0000BBBB"
       (request "make it 40") patient turn1.2).

(** The confirmation of the first turn's preview, as order ["ORD-1"]. *)
Definition confirmed :=
  Orchestrator._handle_order_confirmation "ORD-1" (request "confirm") patient
    turn1.2 ∅.

(** A decision of the fulfilment agent that lets an order through. *)
Definition go_ahead : AgentDecision :=
  {| agent := "FulfillmentAgent"; verdict := APPROVED; ad_reason := "Order ready.";
     ad_message := None; evidence := []; next_agent := None |}.

(** Decisions that name a next agent. *)
Definition hand_to (who : string) (ev : list string) : AgentDecision :=
  {| agent := "PharmacistAgent"; verdict := APPROVED; ad_reason := "Intent clear.";
     ad_message := None; evidence := ev; next_agent := Some who |}.

(** Two collaborators that name each other, whatever they are asked. *)
Definition ping (hop : nat) (med : string) (qty : Z) : AgentDecision :=
  hand_to "PolicyAgent" [].
Definition pong (hop : nat) (med : string) (qty : Z) (rx : bool) : AgentDecision :=
  hand_to "InventoryAgent" [].

(** Collaborators that route as their prompts say: inventory, policy,
    fulfilment. *)
Definition inventory_ok (hop : nat) (med : string) (qty : Z) : AgentDecision :=
  hand_to "PolicyAgent" ["Stock: 100"; "Price: 0.15"].
Definition policy_ok (hop : nat) (med : string) (qty : Z) (rx : bool)
    : AgentDecision :=
  hand_to "FulfillmentAgent" ["Quantity: Safe"].
Definition refill_none (hop : nat) : AgentDecision := go_ahead.
Definition place_ok (hop : nat) (med strength : string) (qty : Z)
    : option string := Some "ORD-7".

Definition preview_of (uuid8 : string) (er : ExtractionResult) : OrderPreview :=
  let ents := entities er in
  let matched := Orchestrator.match_medicines catalog ents in
  let sr := SafetyAgent.evaluate ents matched false in
  Orchestrator.build_preview uuid8 patient ents matched sr
    (default (SpecFloat.S754_zero false)
       (subtotal_of (Orchestrator.build_items 0 ents matched (allowed_quantity sr)))).

End Samples.

(** ** Notions used to state the properties *)

(** The items the rule evaluator blocks: the discontinued ones and those
    out of stock. *)
Definition is_blocked (m : Medicine) : bool :=
  discontinued m || (stock_level m =? 0).

(** A cap is present in the result, whatever its value. *)
Definition cap_imposed (o : option Z) : bool :=
  match o with Some _ => true | None => false end.

(** One of the conditions that rule out APPROVE holds, the cap being read
    as present whatever its value. *)
Definition flagged (has : bool) (c : SafetyAgent.checks) : bool :=
  nonempty (SafetyAgent.c_blocked_items c)
  || (SafetyAgent.c_requires_prescription c && negb has)
  || SafetyAgent.c_requires_followup c
  || cap_imposed (SafetyAgent.c_allowed_quantity c).

(** [y] is [x] rounded to two decimals.  For a finite [x] there is a whole
    number [k] of hundredths at most half a hundredth away from the exact
    value of [x], the even one when two are equally near, and [y] is the
    float nearest to [k / 100], with the sign of [x]; an infinity and a
    NaN are left as they are. *)
Definition rounded_to_hundredths (x y : PyFloat.float) : Prop :=
  match x with
  | SpecFloat.S754_finite s m e =>
      exists k : Z,
        (Qabs (inject_Z k - PyFloat.magnitude m e * 100) <= 1 # 2)%Q
        /\ ((Qabs (inject_Z k - PyFloat.magnitude m e * 100) == 1 # 2)%Q ->
            Z.even k = true)
        /\ y = match k with
               | Zpos p => PyFloat.of_ratio s p 100
               | _ => SpecFloat.S754_zero s
               end
  | _ => y = x
  end.

(** * Properties *)

(** ** The rule evaluator *)

Section SafetyFacts.

Import SafetyAgent.

Lemma check_item_blocked has e m c :
  c_blocked_items (check_item has e m c)
  = c_blocked_items c ++ (if is_blocked m then [medicine_name m] else []).
Proof.
  unfold check_item, is_blocked, check_max, check_stock, check_controlled,
    check_prescription.
  destruct (discontinued m); simpl; [reflexivity|].
  destruct (stock_level m =? 0); simpl.
  - destruct (controlled_substance m), (prescription_required m), has;
      reflexivity.
  - repeat (match goal with |- context [if ?b then _ else _] => destruct b end;
            simpl); now rewrite app_nil_r.
Qed.

Lemma check_loop_blocked has ents meds : forall i c,
  c_blocked_items (check_loop has ents i meds c)
  = c_blocked_items c ++ map medicine_name (List.filter is_blocked meds).
Proof.
  induction meds as [|m meds IH]; intros i c; simpl.
  - now rewrite app_nil_r.
  - rewrite IH, check_item_blocked.
    destruct (is_blocked m); simpl; rewrite <- app_assoc; reflexivity.
Qed.

Lemma filter_all_length {A} (f : A -> bool) (l : list A) :
  (length (List.filter f l) =? length l)%nat = forallb f l.
Proof.
  assert (Hle : forall l', (length (List.filter f l') <= length l')%nat).
  { induction l' as [|a l' IH]; simpl; [lia|]. destruct (f a); simpl; lia. }
  induction l as [|a l IH]; simpl; [reflexivity|].
  destruct (f a); simpl; [exact IH|].
  apply Nat.eqb_neq. specialize (Hle l). lia.
Qed.

(** The aggregation, on the result record, with the evaluator's own test
    of the cap ([truthy]). *)
Lemma decision_by_priority ents meds has :
  meds <> [] ->
  let r := _perform_safety_checks ents meds has in
  decision r =
    if forallb is_blocked meds then REJECT
    else if nonempty (blocked_items r)
            || (requires_prescription r && negb has)
            || requires_followup r
            || truthy (allowed_quantity r)
         then CONDITIONAL
         else APPROVE.
Proof.
  intros Hne r. unfold r, _perform_safety_checks, decide_outcome. simpl.
  set (c := check_loop has ents 0 meds init).
  assert (Hb : c_blocked_items c = map medicine_name (List.filter is_blocked meds)).
  { unfold c. now rewrite check_loop_blocked. }
  rewrite Hb, length_map, filter_all_length.
  destruct (forallb is_blocked meds) eqn:Hall.
  - assert (Hf : List.filter is_blocked meds = meds).
    { clear -Hall. induction meds as [|a l IH]; simpl in *; [reflexivity|].
      apply andb_true_iff in Hall as [-> Hl]. now rewrite IH. }
    rewrite Hf. destruct meds; [congruence|reflexivity].
  - rewrite andb_false_r.
    destruct (nonempty _); simpl; [reflexivity|].
    destruct (c_requires_prescription c && negb has); simpl; reflexivity.
Qed.

Lemma truthy_cap_imposed (o : option Z) :
  o <> Some 0 -> truthy o = cap_imposed o.
Proof.
  destruct o as [n|]; simpl; [|reflexivity].
  intros H. destruct (Z.eqb_spec n 0) as [->|]; [congruence|reflexivity].
Qed.

Lemma nonempty_snoc {A} (l : list A) (x : A) : nonempty (l ++ [x]) = true.
Proof. destruct l; reflexivity. Qed.

(** Every reason the loop adds comes with one of the flags. *)
Lemma check_item_flagged has e m c :
  (nonempty (c_reasons c) = true -> flagged has c = true) ->
  nonempty (c_reasons (check_item has e m c)) = true ->
  flagged has (check_item has e m c) = true.
Proof.
  unfold check_item, check_max, check_stock, check_controlled,
    check_prescription, flagged.
  destruct c as [rs bl rp al fu]; simpl. intros Hc.
  repeat match goal with
         | |- context [if ?b then _ else _] => destruct b eqn:?; simpl
         end;
    rewrite ?nonempty_snoc, ?orb_true_r; simpl; intros Hrs;
    try reflexivity;
    try (specialize (Hc Hrs));
    destruct (nonempty bl), rp, fu, al as [?|], has;
    simpl in *; try reflexivity; try discriminate; auto.
Qed.

Lemma check_loop_flagged has ents meds : forall i c,
  (nonempty (c_reasons c) = true -> flagged has c = true) ->
  nonempty (c_reasons (check_loop has ents i meds c)) = true ->
  flagged has (check_loop has ents i meds c) = true.
Proof.
  induction meds as [|m meds IH]; intros i c Hc; simpl; [exact Hc|].
  apply IH. now apply check_item_flagged.
Qed.

(** The aggregation as the specification words it, for every run whose
    cap is not the number zero. *)
Theorem decision_as_specified ents meds has :
  meds <> [] ->
  let r := _perform_safety_checks ents meds has in
  allowed_quantity r <> Some 0 ->
  decision r =
    (if forallb is_blocked meds then REJECT
     else if nonempty (blocked_items r)
             || (requires_prescription r && negb has)
             || requires_followup r
             || cap_imposed (allowed_quantity r)
          then CONDITIONAL
          else APPROVE)
  /\ (decision r = APPROVE -> reasons r = ["All safety checks passed."]).
Proof.
  intros Hne r Hcap.
  pose proof (decision_by_priority ents meds has Hne) as Hd. cbv zeta in Hd.
  fold r in Hd. rewrite (truthy_cap_imposed _ Hcap) in Hd.
  split; [exact Hd|].
  intros Happ. rewrite Happ in Hd.
  destruct (forallb is_blocked meds); [discriminate|].
  match type of Hd with
  | _ = if ?b then _ else _ => destruct b eqn:Hfl; [discriminate|]
  end.
  unfold r, _perform_safety_checks in *. simpl in *.
  set (c := check_loop has ents 0 meds init) in *.
  rewrite Happ. simpl.
  destruct (nonempty (c_reasons c)) eqn:Hrs.
  - pose proof (check_loop_flagged has ents meds 0 init) as Hinv.
    fold c in Hinv. unfold flagged in Hinv.
    rewrite Hfl in Hinv. discriminate Hinv; [discriminate|exact Hrs].
  - destruct (c_reasons c); [reflexivity|discriminate].
Qed.

(** What one loop turn does to the cap, for an item that reaches the
    two quantity checks. *)
Lemma check_item_cap has e m c :
  discontinued m = false -> 0 < stock_level m ->
  let req := requested_qty e in
  c_allowed_quantity (check_item has e m c) =
    if stock_level m <? req
    then Some (Z.min (stock_level m) (max_quantity_per_order m))
    else if max_quantity_per_order m <? req
         then (if truthy (c_allowed_quantity c) then c_allowed_quantity c
               else Some (max_quantity_per_order m))
         else c_allowed_quantity c.
Proof.
  intros Hd Hs req. unfold check_item. rewrite Hd. fold req.
  destruct (Z.eqb_spec (stock_level m) 0) as [E|_]; [lia|].
  assert (Hpre : c_allowed_quantity (check_controlled m (check_prescription has m c))
                 = c_allowed_quantity c).
  { unfold check_controlled, check_prescription.
    destruct (controlled_substance m), (prescription_required m), has; reflexivity. }
  unfold check_max, check_stock.
  destruct (Z.ltb_spec (stock_level m) req) as [Hlt|Hge];
    destruct (Z.ltb_spec (max_quantity_per_order m) req) as [Hmx|Hmx]; simpl;
    rewrite ?Hpre; try reflexivity.
  - destruct (Z.eqb_spec (Z.min (stock_level m) (max_quantity_per_order m)) 0)
      as [E|E]; simpl; [|reflexivity].
    f_equal. lia.
  - destruct (truthy (c_allowed_quantity c)); simpl; now rewrite ?Hpre.
Qed.

(** The reasons of the two quantity checks. *)
Lemma check_item_cap_reasons has e m c :
  discontinued m = false -> 0 < stock_level m ->
  let req := requested_qty e in
  (stock_level m < req ->
     In (msg_limited_stock m (Z.min (stock_level m) (max_quantity_per_order m)))
       (c_reasons (check_item has e m c)))
  /\ (max_quantity_per_order m < req ->
     In (msg_max_quantity m) (c_reasons (check_item has e m c))).
Proof.
  intros Hd Hs req. unfold check_item. rewrite Hd. fold req.
  destruct (Z.eqb_spec (stock_level m) 0) as [E|_]; [lia|].
  unfold check_max, check_stock.
  split; intros H.
  - destruct (Z.ltb_spec (stock_level m) req); [|lia].
    destruct (max_quantity_per_order m <? req); simpl.
    + destruct (negb _); simpl; apply in_or_app; left;
        apply in_or_app; right; now left.
    + apply in_or_app; right; now left.
  - destruct (Z.ltb_spec (max_quantity_per_order m) req); [|lia].
    simpl. apply in_or_app; right; now left.
Qed.

(** The scenario of the specification: stock 10, 30 requested, at most 30
    per order. *)
Lemma limited_stock_scenario (e : ExtractedEntity) (m : Medicine) (has : bool) :
  quantity e = 30 -> stock_level m = 10 -> max_quantity_per_order m = 30 ->
  discontinued m = false ->
  let r := _perform_safety_checks [e] [m] has in
  decision r = CONDITIONAL
  /\ allowed_quantity r = Some 10
  /\ In (msg_limited_stock m 10) (reasons r).
Proof.
  intros Hq Hs Hm Hd r.
  assert (Hcap : allowed_quantity r = Some 10).
  { unfold r, _perform_safety_checks. simpl.
    rewrite check_item_cap by (auto; lia). simpl. rewrite Hq, Hs, Hm. reflexivity. }
  assert (Hdec : decision r = CONDITIONAL).
  { pose proof (decision_by_priority [e] [m] has) as H. cbv zeta in H.
    fold r in H. rewrite H by discriminate. rewrite Hcap. simpl.
    unfold is_blocked. rewrite Hd, Hs. simpl. now rewrite !orb_true_r. }
  repeat split; trivial.
  unfold r, _perform_safety_checks in *. simpl in *. rewrite Hdec. simpl.
  pose proof (check_item_cap_reasons has (Some e) m init Hd ltac:(lia)) as [H _].
  simpl in H. rewrite Hq, Hs, Hm in H. apply H. reflexivity.
Qed.

End SafetyFacts.

(** ** The order-assembly pipeline *)

Section PipelineFacts.

Import Orchestrator.

(** A reply of [_handle_order] that carries a preview comes from the last
    branch: the preview is the one built, it is stored under its id and
    the session points to it. *)
Lemma handle_order_preview search er uuid8 request patient st r st' pv :
  _handle_order search er uuid8 request patient st = Some (r, st') ->
  order_preview r = Some pv ->
  let ents := entities er in
  let matched := match_medicines search ents in
  let sr := SafetyAgent.evaluate ents matched false in
  let its := build_items 0 ents matched (allowed_quantity sr) in
  pv = build_preview uuid8 patient ents matched sr
         (default (SpecFloat.S754_zero false) (subtotal_of its))
  /\ decision sr <> REJECT
  /\ requires_confirmation r = true
  /\ st' = {| pending_previews := <[preview_id pv := pv]> (pending_previews st);
              session_contexts :=
                <[session_of request := preview_id pv]> (session_contexts st) |}.
Proof.
  unfold _handle_order. intros H Hpv.
  destruct (needs_clarification er); [inversion H; subst; discriminate|].
  destruct (entities er) as [|e0 ents'] eqn:Hents;
    [inversion H; subst; discriminate|].
  destruct (negb (nonempty (match_medicines search (e0 :: ents'))));
    [inversion H; subst; discriminate|].
  destruct (decide (decision _ = REJECT)) as [|Hrej];
    [inversion H; subst; discriminate|].
  destruct (subtotal_of _) as [subtotal|] eqn:Hsub; [|discriminate].
  inversion H; subst; clear H. cbn [order_preview] in Hpv.
  inversion Hpv; subst; clear Hpv.
  cbv zeta. repeat split; trivial.
Qed.

(** The subtotal of a generated preview was computed: no quantity of its
    items is too large for a float. *)
Lemma handle_order_subtotal search er uuid8 request patient st r st' pv :
  _handle_order search er uuid8 request patient st = Some (r, st') ->
  order_preview r = Some pv ->
  exists subtotal,
    subtotal_of (items pv) = Some subtotal
    /\ total_amount pv = PyFloat.round2 subtotal.
Proof.
  unfold _handle_order. intros H Hpv.
  destruct (needs_clarification er); [inversion H; subst; discriminate|].
  destruct (entities er) as [|e0 ents'] eqn:Hents;
    [inversion H; subst; discriminate|].
  destruct (negb (nonempty (match_medicines search (e0 :: ents'))));
    [inversion H; subst; discriminate|].
  destruct (decide (decision _ = REJECT)) as [|Hrej];
    [inversion H; subst; discriminate|].
  destruct (subtotal_of _) as [subtotal|] eqn:Hsub; [|discriminate].
  inversion H; subst; clear H. cbn [order_preview] in Hpv.
  inversion Hpv; subst; clear Hpv.
  exists subtotal. split; [exact Hsub|reflexivity].
Qed.

Lemma preview_id_truthy uuid8 :
  exists c r, _generate_preview_id uuid8 = String c r.
Proof. unfold _generate_preview_id. simpl. eauto. Qed.

Lemma preview_id_inj u1 u2 :
  _generate_preview_id u1 = _generate_preview_id u2 -> u1 = u2.
Proof. unfold _generate_preview_id. intros H. now inversion H. Qed.

(** The quantity of an item, case by case.  The cap applies when it is
    not zero. *)
Lemma resolve_quantity_cases (e : ExtractedEntity) (allowed : option Z) :
  let requested := if 0 <? quantity e then quantity e else 30 in
  (0 < quantity e -> requested = quantity e)
  /\ (quantity e <= 0 -> requested = 30)
  /\ (allowed = None -> resolve_quantity e allowed = requested)
  /\ (forall cap, allowed = Some cap -> cap <> 0 ->
        resolve_quantity e allowed = Z.min requested cap)
  /\ (allowed = Some 0 -> resolve_quantity e allowed = requested).
Proof.
  intros requested. unfold resolve_quantity. fold requested.
  repeat split.
  - intros H. unfold requested. destruct (Z.ltb_spec 0 (quantity e)); [reflexivity|lia].
  - intros H. unfold requested. destruct (Z.ltb_spec 0 (quantity e)); [lia|reflexivity].
  - intros ->. reflexivity.
  - intros cap -> Hcap. simpl.
    destruct (Z.eqb_spec cap 0); [contradiction|reflexivity].
  - intros ->. reflexivity.
Qed.

(** The items of a preview, position by position. *)
Lemma build_items_lookup ents matched allowed : forall i k e m,
  ents !! k = Some e -> matched !! (i + k)%nat = Some m ->
  In (make_item m (resolve_quantity e allowed))
     (build_items i ents matched allowed).
Proof.
  induction ents as [|e0 ents IH]; intros i k e m He Hm; [discriminate|].
  destruct k as [|k]; simpl in *.
  - inversion He; subst. rewrite Nat.add_0_r in Hm. rewrite Hm. now left.
  - assert (In (make_item m (resolve_quantity e allowed))
              (build_items (S i) ents matched allowed)) as Hin.
    { apply (IH (S i) k); [exact He|]. now rewrite <- Nat.add_succ_comm in Hm. }
    destruct (matched !! i); [now right|exact Hin].
Qed.

(** *** The sum and its rounding *)

(** The loop of [sum], term by term: every quantity is converted, the
    products are added from left to right. *)
Lemma sum_from_spec its : forall acc s,
  sum_from acc its = Some s ->
  exists quantities,
    Forall2 (fun it q => PyFloat.of_int (oi_quantity it) = Some q) its quantities
    /\ s = fold_left (SpecFloat.SFadd 53 1024)
             (zip_with (SpecFloat.SFmul 53 1024) (map unit_price its) quantities)
             acc.
Proof.
  induction its as [|it its IH]; intros acc s H.
  - injection H as <-. exists []. split; [constructor|reflexivity].
  - cbn [sum_from] in H. unfold line_total in H.
    destruct (PyFloat.of_int (oi_quantity it)) as [q|] eqn:Hq; [|discriminate].
    cbn [fmap option_fmap option_map] in H.
    destruct (IH _ _ H) as (qs & HF & ->).
    exists (q :: qs). split; [now constructor|reflexivity].
Qed.

Lemma round_half_even_spec (q : Q) :
  (Qabs (inject_Z (round_half_even q) - q) <= 1 # 2)%Q
  /\ ((Qabs (inject_Z (round_half_even q) - q) == 1 # 2)%Q ->
      Z.even (round_half_even q) = true).
Proof.
  unfold round_half_even.
  pose proof (Qfloor_le q) as Hlo. pose proof (Qlt_floor q) as Hhi.
  rewrite inject_Z_plus in Hhi. change (inject_Z 1) with 1%Q in Hhi.
  set (f := Qfloor q) in *.
  destruct (Qcompare (q - inject_Z f) (1 # 2)) eqn:C.
  - apply Qeq_alt in C.
    assert (Hk : forall k,
              (inject_Z k == inject_Z f)%Q \/ (inject_Z k == inject_Z f + 1)%Q ->
              (Qabs (inject_Z k - q) == 1 # 2)%Q).
    { intros k [Hk|Hk].
      - rewrite Qabs_neg by lra. lra.
      - rewrite Qabs_pos by lra. lra. }
    destruct (Z.even f) eqn:E.
    + split; [rewrite (Hk f) by (left; reflexivity); lra|intros _; exact E].
    + assert (Hs : (inject_Z (f + 1) == inject_Z f + 1)%Q)
        by (rewrite inject_Z_plus; reflexivity).
      split; [rewrite (Hk (f + 1)) by (right; exact Hs); lra|].
      intros _. replace (f + 1) with (Z.succ f) by lia.
      rewrite Z.even_succ, <- Z.negb_even, E. reflexivity.
  - apply Qlt_alt in C. split.
    + rewrite Qabs_neg by lra. lra.
    + intros H. rewrite Qabs_neg in H by lra. lra.
  - apply Qgt_alt in C. rewrite inject_Z_plus. change (inject_Z 1) with 1%Q. split.
    + rewrite Qabs_pos by lra. lra.
    + intros H. rewrite Qabs_pos in H by lra. lra.
Qed.

(** [round(x, 2)] rounds to the nearest hundredth. *)
Lemma round2_rounds (x : PyFloat.float) :
  rounded_to_hundredths x (PyFloat.round2 x).
Proof.
  destruct x as [s|s| |s m e]; try reflexivity.
  cbn [rounded_to_hundredths PyFloat.round2].
  exists (round_half_even (PyFloat.magnitude m e * 100)).
  destruct (round_half_even_spec (PyFloat.magnitude m e * 100)) as [H1 H2].
  split; [exact H1|]. split; [exact H2|reflexivity].
Qed.

(** The literals of the price table and of the confirmation, as floats:
    [0.15] is [0x1.3333333333333p-3], and so on. *)
Lemma price_literals :
  cents 15 = SpecFloat.S754_finite false 5404319552844595 (-55)
  /\ cents 20 = SpecFloat.S754_finite false 7205759403792794 (-55)
  /\ cents 85 = SpecFloat.S754_finite false 7656119366529843 (-53)
  /\ cents 55 = SpecFloat.S754_finite false 4953959590107546 (-53)
  /\ cents 65 = SpecFloat.S754_finite false 5854679515581645 (-53)
  /\ cents 40 = SpecFloat.S754_finite false 7205759403792794 (-54)
  /\ cents 35 = SpecFloat.S754_finite false 6305039478318694 (-54)
  /\ cents 10 = SpecFloat.S754_finite false 7205759403792794 (-56)
  /\ cents 50 = SpecFloat.S754_finite false 4503599627370496 (-53)
  /\ cents 5 = SpecFloat.S754_finite false 7205759403792794 (-57)
  /\ PyFloat.of_ratio false 2 1 = SpecFloat.S754_finite false 4503599627370496 (-51).
Proof. vm_compute. repeat split. Qed.

(** An order turn that raises.  Aspirin has a maximum of 0 per order, so
    the evaluator's cap is 0 and is not applied; asked for 2^1024 units, the
    turn keeps that quantity, which no float holds: the subtotal raises
    [OverflowError] and nothing is stored. *)
Lemma oversized_quantity_raises :
  PyFloat.of_int (2 ^ 1024) = None
  /\ (exists q, PyFloat.of_int (2 ^ 1024 - 2 ^ 970 - 1) = Some q)
  /\ _handle_order Samples.catalog (Samples.wants "Aspirin" (2 ^ 1024)) "0000CCCC"
       (Samples.request "aspirin") Samples.patient empty_state = None.
Proof.
  split; [vm_compute; reflexivity|].
  split; [vm_compute; eexists; reflexivity|vm_compute; reflexivity].
Qed.

End PipelineFacts.

(** C3 (the code departs from it).  Claim: unless every item is blocked,
    the decision is CONDITIONAL as soon as an allowed_quantity cap was
    imposed.  Here one medicine with stock 10 and a maximum of 0 per order
    is asked for 5 times: the evaluator imposes the cap 0, gives the
    reason for it, and still approves, because it tests the cap for
    truth and 0 is false. *)
Theorem C3_zero_cap_approved :
  let r := SafetyAgent._perform_safety_checks
             [Samples.entity "Aspirin" 5] [Samples.med "Aspirin" 10 0] false in
  blocked_items r = []
  /\ allowed_quantity r = Some 0
  /\ reasons r = ["Maximum quantity per order for Aspirin is 0"]
  /\ decision r = APPROVE.
Proof. vm_compute. repeat split. Qed.

(** C4 (the code departs from it).  Claim: the per-order maximum is written
    to allowed_quantity only if no cap was set yet.  Here the first item
    (maximum 0) sets the cap 0; the second item (stock 100, maximum 20,
    30 requested) then overwrites it with 20, because the guard tests the
    cap for truth and 0 is false. *)
Theorem C4_zero_cap_overwritten :
  let first := SafetyAgent.check_item false (Some (Samples.entity "Aspirin" 5))
                 (Samples.med "Aspirin" 10 0) SafetyAgent.init in
  let r := SafetyAgent._perform_safety_checks
             [Samples.entity "Aspirin" 5; Samples.entity "Paracetamol" 30]
             [Samples.med "Aspirin" 10 0; Samples.med "Paracetamol" 100 20] false in
  SafetyAgent.c_allowed_quantity first = Some 0
  /\ allowed_quantity r = Some 20.
Proof. vm_compute. split; reflexivity. Qed.

(** C1.  After two order turns of one session that each produced a preview,
    with no confirmation or cancellation in between, the session's pending
    preview is the second one and no other id is retrievable as pending;
    the first preview is no longer the session's, yet it is still in the
    store when the two ids differ. *)
Theorem C1_single_pending_preview
    (search1 search2 : string -> list Medicine) (er1 er2 : ExtractionResult)
    (u1 u2 : string) (rq1 rq2 : ChatRequest) (pat1 pat2 : Patient)
    (st st1 st2 : Orchestrator.state) (r1 r2 : ChatResponse)
    (pv1 pv2 : OrderPreview) :
  Orchestrator.session_of rq1 = Orchestrator.session_of rq2 ->
  Orchestrator._handle_order search1 er1 u1 rq1 pat1 st = Some (r1, st1) ->
  Orchestrator._handle_order search2 er2 u2 rq2 pat2 st1 = Some (r2, st2) ->
  order_preview r1 = Some pv1 ->
  order_preview r2 = Some pv2 ->
  Orchestrator.pending_preview st2 (Orchestrator.session_of rq1)
    = Some (preview_id pv2, pv2)
  /\ (forall id pv,
        Orchestrator.pending_preview st2 (Orchestrator.session_of rq1) = Some (id, pv) ->
        id = preview_id pv2)
  /\ (u1 <> u2 ->
        preview_id pv1 <> preview_id pv2
        /\ Orchestrator.pending_previews st2 !! preview_id pv1 = Some pv1).
Proof.
  intros Hs H1 H2 Hp1 Hp2.
  destruct (handle_order_preview _ _ _ _ _ _ _ _ _ H1 Hp1) as (E1 & _ & _ & ->).
  destruct (handle_order_preview _ _ _ _ _ _ _ _ _ H2 Hp2) as (E2 & _ & _ & ->).
  assert (Hid1 : preview_id pv1 = Orchestrator._generate_preview_id u1)
    by (rewrite E1; reflexivity).
  assert (Hid2 : preview_id pv2 = Orchestrator._generate_preview_id u2)
    by (rewrite E2; reflexivity).
  assert (Hpend : Orchestrator.pending_preview
            {| Orchestrator.pending_previews :=
                 <[preview_id pv2 := pv2]>
                   (<[preview_id pv1 := pv1]> (Orchestrator.pending_previews st));
               Orchestrator.session_contexts :=
                 <[Orchestrator.session_of rq2 := preview_id pv2]>
                   (<[Orchestrator.session_of rq1 := preview_id pv1]>
                      (Orchestrator.session_contexts st)) |}
            (Orchestrator.session_of rq1) = Some (preview_id pv2, pv2)).
  { unfold Orchestrator.pending_preview. simpl.
    rewrite Hs, lookup_insert_eq.
    destruct (preview_id_truthy u2) as (c & r & Hc).
    rewrite Hid2, Hc, <- Hc, <- Hid2, lookup_insert_eq. reflexivity. }
  simpl. split; [exact Hpend|]. split.
  - intros id pv Hsome. simpl in Hpend. rewrite Hpend in Hsome. congruence.
  - intros Hne.
    assert (Hids : preview_id pv1 <> preview_id pv2).
    { rewrite Hid1, Hid2. intros E. apply Hne. now apply preview_id_inj. }
    split; [exact Hids|].
    rewrite lookup_insert_ne by congruence. apply lookup_insert_eq.
Qed.

Lemma C1_single_pending_preview_witness :
  Orchestrator.pending_preview Samples.turn2.2 "s1"
    = Some ("PRV-0000BBBB", Samples.preview_of "0000BBBB" (Samples.wants "Paracetamol" 40))
  /\ Orchestrator.pending_previews Samples.turn2.2 !! "PRV-0000AAAA"
     = Some (Samples.preview_of "0000AAAA" (Samples.wants "Paracetamol" 2)).
Proof.
  pose proof (C1_single_pending_preview
                Samples.catalog Samples.catalog
                (Samples.wants "Paracetamol" 2) (Samples.wants "Paracetamol" 40)
                "0000AAAA" "0000BBBB"
                (Samples.request "2 paracetamol please") (Samples.request "make it 40")
                Samples.patient Samples.patient
                Orchestrator.empty_state Samples.turn1.2 Samples.turn2.2
                Samples.turn1.1 Samples.turn2.1
                (Samples.preview_of "0000AAAA" (Samples.wants "Paracetamol" 2))
                (Samples.preview_of "0000BBBB" (Samples.wants "Paracetamol" 40))
                eq_refl ltac:(vm_compute; reflexivity)
                ltac:(vm_compute; reflexivity)
                eq_refl eq_refl) as (H1 & _ & H3).
  split; [exact H1|].
  apply H3. discriminate.
Defined.

(** C5.  The total of every preview the pipeline generates is the sum of
    unit price times quantity over its items, rounded to two decimals.
    The arithmetic is that of floats: every quantity is converted to a
    float, the products are added from left to right, and the total is
    that sum rounded to the nearest hundredth. *)
Theorem C5_preview_total_is_rounded_sum
    (search : string -> list Medicine) (er : ExtractionResult) (uuid8 : string)
    (request : ChatRequest) (patient : Patient) (st st' : Orchestrator.state)
    (r : ChatResponse) (pv : OrderPreview) :
  Orchestrator._handle_order search er uuid8 request patient st = Some (r, st') ->
  order_preview r = Some pv ->
  exists (quantities : list PyFloat.float) (sum : PyFloat.float),
    Forall2 (fun it q => PyFloat.of_int (oi_quantity it) = Some q)
      (items pv) quantities
    /\ sum = fold_left (SpecFloat.SFadd 53 1024)
               (zip_with (SpecFloat.SFmul 53 1024)
                  (map unit_price (items pv)) quantities)
               (SpecFloat.S754_zero false)
    /\ total_amount pv = PyFloat.round2 sum
    /\ rounded_to_hundredths sum (total_amount pv).
Proof.
  intros H Hpv.
  destruct (handle_order_subtotal _ _ _ _ _ _ _ _ _ H Hpv) as (sum & Hsum & Htotal).
  destruct (sum_from_spec _ _ _ Hsum) as (quantities & HF & Hfold).
  exists quantities, sum. split; [exact HF|]. split; [exact Hfold|].
  split; [exact Htotal|]. rewrite Htotal. apply round2_rounds.
Qed.

(** Three Paracetamol at 0.15: the product, and so the sum, is
    0.44999999999999996 ([0x1.cccccccccccccp-2]) and the total is 0.45
    ([0x1.ccccccccccccdp-2]). *)
Lemma C5_preview_total_is_rounded_sum_witness :
  let turn :=
    Orchestrator._handle_order Samples.catalog (Samples.wants "Paracetamol" 3)
      "0000AAAA" (Samples.request "3 paracetamol please") Samples.patient
      Orchestrator.empty_state in
  let pv := Samples.preview_of "0000AAAA" (Samples.wants "Paracetamol" 3) in
  (order_preview <$> (fst <$> turn)) = Some (Some pv)
  /\ (exists (quantities : list PyFloat.float) (sum : PyFloat.float),
        Forall2 (fun it q => PyFloat.of_int (oi_quantity it) = Some q)
          (items pv) quantities
        /\ sum = fold_left (SpecFloat.SFadd 53 1024)
                   (zip_with (SpecFloat.SFmul 53 1024)
                      (map unit_price (items pv)) quantities)
                   (SpecFloat.S754_zero false)
        /\ total_amount pv = PyFloat.round2 sum
        /\ rounded_to_hundredths sum (total_amount pv))
  /\ map oi_quantity (items pv) = [3]
  /\ map unit_price (items pv)
     = [SpecFloat.S754_finite false 5404319552844595 (-55)]
  /\ subtotal_of (items pv)
     = Some (SpecFloat.S754_finite false 8106479329266892 (-54))
  /\ total_amount pv = SpecFloat.S754_finite false 8106479329266893 (-54).
Proof.
  intros turn pv.
  split; [vm_compute; reflexivity|].
  split.
  - apply (C5_preview_total_is_rounded_sum
             Samples.catalog (Samples.wants "Paracetamol" 3) "0000AAAA"
             (Samples.request "3 paracetamol please") Samples.patient
             Orchestrator.empty_state (Samples.returned turn).2
             (Samples.returned turn).1 pv);
      vm_compute; reflexivity.
  - vm_compute. repeat split.
Defined.

(** C6 (the code departs from it).  Claim: when the evaluator produced an
    allowed_quantity cap, the quantity of an item is min(requested, cap), and
    without a cap it is the quantity requested for the item.
    (1) Aspirin (stock 10, maximum 0 per order) is asked for 5 times: the
    evaluator returns the cap 0 and the preview still holds 5, because the
    pipeline tests the cap for truth and 0 is false.
    (2) Seven of a medicine the catalog does not know and two Paracetamol
    are asked for: the unknown one is dropped from the matches, the
    pairing by position then gives Paracetamol the first entity's 7. *)
Theorem C6_preview_quantity_departs :
  let capped := fst <$> Orchestrator._handle_order Samples.catalog
                   (Samples.wants "Aspirin" 5) "0000CCCC"
                   (Samples.request "5 aspirin") Samples.patient
                   Orchestrator.empty_state in
  let shifted := fst <$> Orchestrator._handle_order Samples.catalog
                    {| entities := [Samples.entity "Unknownium" 7;
                                    Samples.entity "Paracetamol" 2];
                       needs_clarification := false;
                       clarification_message := "" |} "0000DDDD"
                    (Samples.request "7 unknownium and 2 paracetamol")
                    Samples.patient Orchestrator.empty_state in
  ((allowed_quantity <$> (capped ≫= safety_result)) = Some (Some 0)
   /\ ((fun pv => map oi_quantity (items pv)) <$> (capped ≫= order_preview))
      = Some [5]
   /\ Z.min 5 0 = 0)
  /\ ((allowed_quantity <$> (shifted ≫= safety_result)) = Some None
      /\ ((fun pv => map (fun it => (oi_medicine_name it, oi_quantity it)) (items pv))
            <$> (shifted ≫= order_preview)) = Some [("Paracetamol", 7)]).
Proof. vm_compute. repeat split. Qed.

(** ** Confirmation and cancellation *)

Section HandlerFacts.

Import Orchestrator.


End HandlerFacts.




(** C7, as amended.  Cancelling never fails and always answers with the
    same text, "Your order has been cancelled", whether or not anything was
    pending.  It is idempotent: a second cancellation changes nothing and
    answers the same.  Afterwards the session has no pending preview; a
    preview that was pending is removed from the store; a session without
    an entry leaves the whole state as it was; other sessions keep their
    entries. *)
Theorem C7_cancel_idempotent (request : ChatRequest) (st : Orchestrator.state) :
  let sid := Orchestrator.session_of request in
  let once := Orchestrator._handle_order_cancellation request st in
  let twice := Orchestrator._handle_order_cancellation request once.2 in
  message once.1
    = Text "Your order has been cancelled. Is there anything else I can help you with?"
  /\ twice = once
  /\ Orchestrator.pending_preview once.2 sid = None
  /\ Orchestrator.session_contexts once.2 !! sid = None
  /\ (forall pid pv, Orchestrator.pending_preview st sid = Some (pid, pv) ->
        Orchestrator.pending_previews once.2 !! pid = None)
  /\ (Orchestrator.session_contexts st !! sid = None -> once.2 = st)
  /\ (forall other, other <> sid ->
        Orchestrator.session_contexts once.2 !! other
        = Orchestrator.session_contexts st !! other).
Proof.
  intros sid once twice.
  assert (Hnone : Orchestrator.pending_preview once.2 sid = None).
  { unfold once, Orchestrator._handle_order_cancellation,
      Orchestrator.pending_preview. simpl. fold sid.
    now rewrite lookup_delete_eq. }
  split; [reflexivity|]. split.
  { unfold twice, Orchestrator._handle_order_cancellation at 1.
    fold sid. rewrite Hnone.
    unfold once, Orchestrator._handle_order_cancellation. simpl. fold sid.
    now rewrite delete_delete_eq. }
  split; [exact Hnone|]. split.
  { unfold once, Orchestrator._handle_order_cancellation. simpl. fold sid.
    apply lookup_delete_eq. }
  split.
  { intros pid pv Hp. unfold once, Orchestrator._handle_order_cancellation.
    fold sid. rewrite Hp. simpl. apply lookup_delete_eq. }
  split.
  { intros Hs. unfold once, Orchestrator._handle_order_cancellation,
      Orchestrator.pending_preview. fold sid. rewrite Hs. simpl.
    rewrite delete_id by exact Hs. now destruct st. }
  intros other Hne. unfold once, Orchestrator._handle_order_cancellation. simpl.
  fold sid. now rewrite lookup_delete_ne.
Qed.

Lemma C7_cancel_idempotent_witness :
  Orchestrator._handle_order_cancellation (Samples.request "cancel")
    (Orchestrator._handle_order_cancellation (Samples.request "cancel")
       Samples.turn1.2).2
  = Orchestrator._handle_order_cancellation (Samples.request "cancel") Samples.turn1.2
  /\ Orchestrator.pending_previews
       (Orchestrator._handle_order_cancellation (Samples.request "cancel")
          Samples.turn1.2).2 !! "PRV-0000AAAA" = None
  /\ (Orchestrator._handle_order_cancellation (Samples.request "cancel")
        Orchestrator.empty_state).2 = Orchestrator.empty_state.
Proof.
  destruct (C7_cancel_idempotent (Samples.request "cancel") Samples.turn1.2)
    as (_ & Hidem & _ & _ & Hgone & _ & _).
  destruct (C7_cancel_idempotent (Samples.request "cancel") Orchestrator.empty_state)
    as (_ & _ & _ & _ & _ & Hsame & _).
  split; [exact Hidem|]. split.
  - apply (Hgone "PRV-0000AAAA"
             (Samples.preview_of "0000AAAA" (Samples.wants "Paracetamol" 2))).
    vm_compute. reflexivity.
  - apply Hsame. reflexivity.
Defined.

(** C7, the claim as stated fails.  (1) With nothing pending, the answer is
    the very text given when a pending preview was discarded; it says the
    order has been cancelled and nowhere that there was nothing to cancel.
    (2) A session whose entry names a preview that is not in the store has
    no pending preview, and cancelling still removes that entry. *)
Lemma C7_cancel_counterexample :
  let nothing := Orchestrator._handle_order_cancellation (Samples.request "cancel")
                   Orchestrator.empty_state in
  let something := Orchestrator._handle_order_cancellation (Samples.request "cancel")
                     Samples.turn1.2 in
  let dangling := {| Orchestrator.pending_previews := ∅;
                     Orchestrator.session_contexts := {[ "s1" := "PRV-0000AAAA" ]} |} in
  Orchestrator.pending_preview Orchestrator.empty_state "s1" = None
  /\ message nothing.1
     = Text "Your order has been cancelled. Is there anything else I can help you with?"
  /\ message nothing.1 = message something.1
  /\ PyStr.contains "nothing"
       (PyStr.lower "Your order has been cancelled. Is there anything else I can help you with?")
     = false
  /\ Orchestrator.pending_preview dangling "s1" = None
  /\ (Orchestrator._handle_order_cancellation (Samples.request "cancel") dangling).2
     <> dangling.
Proof.
  vm_compute. repeat split. intros H. discriminate H.
Qed.

(** ** The refill fallback *)

Section RefillFacts.

Import RefillAgent.

Lemma fallback_from_in clock history : forall i0 k med pr,
  history !! k = Some med ->
  fallback_one (clock (i0 + k)%nat) med = Some pr ->
  In pr (fallback_from clock i0 history).
Proof.
  induction history as [|m history IH]; intros i0 k med pr Hk Hpr; [discriminate|].
  destruct k as [|k]; simpl in *.
  - inversion Hk; subst. rewrite Nat.add_0_r in Hpr. rewrite Hpr. now left.
  - assert (In pr (fallback_from clock (S i0) history)) as Hin.
    { apply (IH (S i0) k med); [exact Hk|]. now rewrite Nat.add_succ_comm. }
    destruct (fallback_one (clock i0) m); [now right|exact Hin].
Qed.

Lemma fallback_from_from clock history : forall i0 pr,
  In pr (fallback_from clock i0 history) ->
  exists k med, history !! k = Some med
                /\ fallback_one (clock (i0 + k)%nat) med = Some pr.
Proof.
  induction history as [|m history IH]; intros i0 pr Hin; [contradiction|].
  simpl in Hin.
  assert (Hrest : In pr (fallback_from clock (S i0) history) ->
            exists k med, (m :: history) !! k = Some med
                          /\ fallback_one (clock (i0 + k)%nat) med = Some pr).
  { intros H. destruct (IH _ _ H) as (k & med & Hk & Hp).
    exists (S k), med. split; [exact Hk|]. now rewrite <- Nat.add_succ_comm. }
  destruct (fallback_one (clock i0) m) as [p0|] eqn:E; [|now apply Hrest].
  destruct Hin as [->|Hin]; [|now apply Hrest].
  exists 0%nat, m. split; [reflexivity|]. now rewrite Nat.add_0_r.
Qed.

(** [days_since] is the number of whole days elapsed. *)
Lemma days_since_bounds now bought :
  days_since now bought * 86400000000 <= now - bought
  < (days_since now bought + 1) * 86400000000.
Proof.
  unfold days_since, day.
  pose proof (Z.div_mod (now - bought) 86400000000 ltac:(lia)).
  pose proof (Z.mod_pos_bound (now - bought) 86400000000 ltac:(lia)).
  lia.
Qed.

Lemma days_since_floor now bought days :
  days * 86400000000 <= now - bought < (days + 1) * 86400000000 ->
  days_since now bought = days.
Proof.
  intros H. pose proof (days_since_bounds now bought). nia.
Qed.

End RefillFacts.

(** C8, as amended.  For every history entry with a purchase date the
    fallback returns a prediction with days_remaining = max(0, supply_days
    - days since the purchase), the days since the purchase being the whole
    days elapsed and supply_days 30 when the entry gives none, action
    REMIND when that is at most 5 and NONE otherwise, confidence 1.0 and
    the reason "Deterministic calculation", with a capital D; it returns
    nothing else.  A supply of 30 days bought 25 days ago gives 5 days and
    REMIND.  A day is 86400000000 microseconds. *)
Theorem C8_fallback_prediction (clock : nat -> Z) (history : list MedicationRecord) :
  (forall i med bought days,
     history !! i = Some med -> h_purchase_date med = Some bought ->
     days * 86400000000 <= clock i - bought < (days + 1) * 86400000000 ->
     let remaining := Z.max 0 (default 30 (h_supply_days med) - days) in
     In {| rp_medicine := default "Unknown" (h_medicine_name med);
           days_remaining := remaining;
           action := if remaining <=? 5 then "REMIND" else "NONE";
           confidence := PyFloat.one;
           reason := "Deterministic calculation" |}
        (RefillAgent._fallback_calculation clock history))
  /\ (forall pr, In pr (RefillAgent._fallback_calculation clock history) ->
        exists i med bought days,
          history !! i = Some med /\ h_purchase_date med = Some bought
          /\ days * 86400000000 <= clock i - bought < (days + 1) * 86400000000
          /\ rp_medicine pr = default "Unknown" (h_medicine_name med)
          /\ days_remaining pr = Z.max 0 (default 30 (h_supply_days med) - days)
          /\ 0 <= days_remaining pr
          /\ (action pr = "REMIND" <-> days_remaining pr <= 5)
          /\ (action pr = "NONE" <-> 5 < days_remaining pr)
          /\ confidence pr = PyFloat.one
          /\ reason pr = "Deterministic calculation")
  /\ (forall now bought part_of_day,
        0 <= part_of_day < 86400000000 ->
        now = bought + 25 * 86400000000 + part_of_day ->
        RefillAgent._fallback_calculation (fun _ => now)
          [ {| h_medicine_name := Some "X"; h_supply_days := Some 30;
               h_purchase_date := Some bought |} ]
        = [ {| rp_medicine := "X"; days_remaining := 5; action := "REMIND";
               confidence := PyFloat.one;
               reason := "Deterministic calculation" |} ]).
Proof.
  split; [|split].
  - intros i med bought days Hi Hb Hdays remaining.
    apply (fallback_from_in clock history 0%nat i med); [exact Hi|].
    cbn [Nat.add]. unfold RefillAgent.fallback_one. rewrite Hb.
    rewrite (days_since_floor _ _ _ Hdays). reflexivity.
  - intros pr Hin.
    destruct (fallback_from_from clock history 0%nat pr Hin) as (k & med & Hk & Hone).
    unfold RefillAgent.fallback_one in Hone.
    destruct (h_purchase_date med) as [bought|] eqn:Hb; [|discriminate].
    inversion Hone; subst; clear Hone. simpl.
    exists k, med, bought, (RefillAgent.days_since (clock k) bought).
    split; [exact Hk|]. split; [exact Hb|].
    split; [apply days_since_bounds|].
    set (remaining := Z.max 0 _).
    split; [reflexivity|]. split; [reflexivity|].
    split; [unfold remaining; lia|].
    destruct (Z.leb_spec remaining 5); repeat split; intros; try lia;
      try discriminate; reflexivity.
  - intros now bought part Hpart ->.
    unfold RefillAgent._fallback_calculation, RefillAgent.fallback_from,
      RefillAgent.fallback_one.
    cbn [h_purchase_date h_supply_days h_medicine_name default from_option id].
    rewrite (days_since_floor _ _ 25) by lia. reflexivity.
Qed.

Lemma C8_fallback_prediction_witness :
  let history := [ {| h_medicine_name := Some "X"; h_supply_days := Some 30;
                      h_purchase_date := Some 0 |} ] in
  let clock := fun _ : nat => 26 * 86400000000 - 1 in
  In {| rp_medicine := "X"; days_remaining := 5; action := "REMIND";
        confidence := PyFloat.one; reason := "Deterministic calculation" |}
     (RefillAgent._fallback_calculation clock history)
  /\ RefillAgent._fallback_calculation clock history
     = [ {| rp_medicine := "X"; days_remaining := 5; action := "REMIND";
            confidence := PyFloat.one; reason := "Deterministic calculation" |} ].
Proof.
  intros history clock.
  destruct (C8_fallback_prediction clock history) as (Hin & _ & Hday).
  split.
  - apply (Hin 0%nat _ 0 25 eq_refl eq_refl). vm_compute. intuition congruence.
  - apply (Hday _ 0 (86400000000 - 1)); vm_compute; intuition congruence.
Defined.

(** C8, the claim as stated fails in the text of the reason: the fallback
    writes "Deterministic calculation" with a capital D, which is not the
    text "deterministic calculation" of the claim. *)
Lemma C8_reason_counterexample :
  let result :=
    RefillAgent._fallback_calculation (fun _ => 25 * 86400000000)
      [ {| h_medicine_name := Some "X"; h_supply_days := Some 30;
           h_purchase_date := Some 0 |} ] in
  map days_remaining result = [5]
  /\ map reason result = ["Deterministic calculation"]
  /\ map reason result <> ["deterministic calculation"].
Proof. vm_compute. repeat split. intros H. discriminate H. Qed.

(** ** The decision router *)

Section RouterFacts.

Import Main.

Lemma truthy_str_Some (o : option string) (s : string) :
  truthy_str o = Some s -> o = Some s.
Proof. destruct o as [[|c r]|]; simpl; congruence. Qed.

Variable inventory_agent_run : nat -> string -> Z -> AgentDecision.
Variable policy_agent_run : nat -> string -> Z -> bool -> AgentDecision.
Variable refill_prediction_agent_run : nat -> AgentDecision.
Variable place_order : nat -> string -> string -> Z -> option string.

Let step := handoff_step inventory_agent_run policy_agent_run
              refill_prediction_agent_run place_order.
Let loop := handoff_loop inventory_agent_run policy_agent_run
              refill_prediction_agent_run place_order.

(** The loop goes on only after a call of the inventory or of the policy
    agent, with that agent's decision as the current one. *)
Lemma step_next hop cur data d data' :
  step hop cur data = Next d data' ->
  (next_agent cur = Some "InventoryAgent"
   /\ exists med qty, d = inventory_agent_run hop med qty)
  \/ (next_agent cur = Some "PolicyAgent"
      /\ exists med qty rx, d = policy_agent_run hop med qty rx).
Proof.
  unfold step, handoff_step.
  destruct (truthy_str (next_agent cur)) as [name|] eqn:Hname; [|discriminate].
  apply truthy_str_Some in Hname.
  destruct (decide (name = "InventoryAgent")) as [->|_].
  { destruct (quantity_or_raise data) as [qty|]; [|discriminate].
    destruct (decide _); [discriminate|].
    intros H; inversion H; subst. left. eauto. }
  destruct (decide (name = "PolicyAgent")) as [->|_].
  { destruct (quantity_or_raise data) as [qty|]; [|discriminate].
    destruct (decide _); [discriminate|].
    intros H; inversion H; subst. right. eauto. }
  destruct (decide (name = "RefillPredictionAgent")); [discriminate|].
  destruct (decide (name = "FulfillmentAgent")); [|discriminate].
  destruct (quantity_or_default data); [|discriminate].
  destruct (place_order _ _ _ _); discriminate.
Qed.

(** More turns than needed change nothing. *)
Lemma loop_more_fuel fuel : forall hop decision cur data out extra,
  loop fuel hop decision cur data = Some out ->
  loop (fuel + extra) hop decision cur data = Some out.
Proof.
  induction fuel as [|fuel IH]; intros hop decision cur data out extra H;
    [discriminate|].
  simpl in *. unfold loop in *. simpl in *.
  destruct (handoff_step _ _ _ _ hop cur data); try exact H.
  now apply IH.
Qed.

(** When no agent hands back to an earlier one, three turns suffice. *)
Lemma loop_acyclic hop decision cur data :
  (forall h med qty,
     next_agent (inventory_agent_run h med qty) <> Some "InventoryAgent") ->
  (forall h med qty rx,
     next_agent (policy_agent_run h med qty rx) <> Some "InventoryAgent"
     /\ next_agent (policy_agent_run h med qty rx) <> Some "PolicyAgent") ->
  exists out, loop 3 hop decision cur data = Some out.
Proof.
  intros Hinv Hpol. unfold loop. simpl.
  fold (step hop cur data).
  destruct (step hop cur data) as [d1 data1| |o1] eqn:E1; eauto.
  fold (step (S hop) d1 data1).
  destruct (step (S hop) d1 data1) as [d2 data2| |o2] eqn:E2; eauto.
  fold (step (S (S hop)) d2 data2).
  destruct (step (S (S hop)) d2 data2) as [d3 data3| |o3] eqn:E3; eauto.
  exfalso.
  apply step_next in E1, E2, E3.
  destruct E2 as [[Hn2 (m2 & q2 & ->)]|[Hn2 (m2 & q2 & r2 & ->)]].
  - destruct E3 as [[Hn3 _]|[Hn3 _]].
    + exact (Hinv _ _ _ Hn3).
    + destruct E1 as [[_ (m1 & q1 & ->)]|[_ (m1 & q1 & r1 & ->)]].
      * exact (Hinv _ _ _ Hn2).
      * exact (proj1 (Hpol _ _ _ _) Hn2).
  - destruct E3 as [[Hn3 _]|[Hn3 _]].
    + exact (proj1 (Hpol _ _ _ _) Hn3).
    + exact (proj2 (Hpol _ _ _ _) Hn3).
Qed.

End RouterFacts.

(** C9, as amended.  The hand-off chain is sequential, one collaborator call
    per turn of the loop, and the loop has no bound or guard of its own.
    It ends within three turns, for every first decision, when the
    collaborators do not hand back: the inventory agent never names itself
    and the policy agent names neither the inventory agent nor itself.
    More turns then give the same answer. *)
Theorem C9_handoff_ends_without_cycles
    (inventory_agent_run : nat -> string -> Z -> AgentDecision)
    (policy_agent_run : nat -> string -> Z -> bool -> AgentDecision)
    (refill_prediction_agent_run : nat -> AgentDecision)
    (place_order : nat -> string -> string -> Z -> option string) :
  (forall h med qty,
     next_agent (inventory_agent_run h med qty) <> Some "InventoryAgent") ->
  (forall h med qty rx,
     next_agent (policy_agent_run h med qty rx) <> Some "InventoryAgent"
     /\ next_agent (policy_agent_run h med qty rx) <> Some "PolicyAgent") ->
  forall decision,
  exists out,
    forall extra,
      Main.chat inventory_agent_run policy_agent_run refill_prediction_agent_run
        place_order (3 + extra) decision = Some out.
Proof.
  intros Hinv Hpol decision. unfold Main.chat.
  destruct (decide (verdict decision = NEEDS_INFO)); [eauto|].
  destruct (decide (verdict decision = REJECTED)); [eauto|].
  destruct (loop_acyclic inventory_agent_run policy_agent_run
              refill_prediction_agent_run place_order 0 decision decision
              (Main.parse_evidence (evidence decision)) Hinv Hpol) as [out Hout].
  exists out. intros extra. now apply loop_more_fuel.
Qed.

Lemma C9_handoff_ends_without_cycles_witness :
  Main.chat Samples.inventory_ok Samples.policy_ok Samples.refill_none
    Samples.place_ok 3
    (Samples.hand_to "InventoryAgent" ["Medicine: Paracetamol"; "Quantity: 2x"])
  = Some (Replied (OrderPlaced "ORD-7")).
Proof.
  destruct (C9_handoff_ends_without_cycles Samples.inventory_ok Samples.policy_ok
              Samples.refill_none Samples.place_ok) with
    (decision := Samples.hand_to "InventoryAgent"
                   ["Medicine: Paracetamol"; "Quantity: 2x"]) as [out Hout].
  - intros h med qty. discriminate.
  - intros h med qty rx. split; discriminate.
  - specialize (Hout 0%nat). simpl Nat.add in Hout. rewrite Hout.
    assert (E : Main.chat Samples.inventory_ok Samples.policy_ok
                  Samples.refill_none Samples.place_ok 3
                  (Samples.hand_to "InventoryAgent"
                     ["Medicine: Paracetamol"; "Quantity: 2x"])
                = Some (Replied (OrderPlaced "ORD-7"))) by (vm_compute; reflexivity).
    rewrite Hout in E. exact E.
Defined.

(** C9, the claim as stated fails: nothing bounds the loop.  With an
    inventory agent that always names the policy agent and a policy agent
    that always names the inventory agent, no number of turns brings
    [chat] to an answer. *)
Lemma C9_ping_pong_counterexample :
  ~ exists fuel out,
      Main.chat Samples.ping Samples.pong Samples.refill_none Samples.place_ok
        fuel (Samples.hand_to "InventoryAgent" []) = Some out.
Proof.
  intros (fuel & out & H). unfold Main.chat in H. simpl in H.
  change (Main.parse_evidence []) with (∅ : gmap string string) in H.
  assert (Hloop : forall n hop cur,
            cur = Samples.hand_to "InventoryAgent" []
            \/ cur = Samples.hand_to "PolicyAgent" [] ->
            Main.handoff_loop Samples.ping Samples.pong Samples.refill_none
              Samples.place_ok n hop (Samples.hand_to "InventoryAgent" []) cur ∅
            = None).
  { induction n as [|n IH]; intros hop cur Hcur; [reflexivity|].
    simpl. destruct Hcur as [->| ->]; unfold Main.handoff_step; simpl.
    - change (Main.quantity_or_raise ∅) with (Some 30).
      change (Main.parse_evidence [] ∪ ∅) with (∅ : gmap string string).
      apply IH. now right.
    - change (Main.quantity_or_raise ∅) with (Some 30).
      apply IH. now left. }
  rewrite Hloop in H by now left. discriminate.
Qed.

(** ** Reading the quantity *)

Section QuantityFacts.

Import PyStr.

Lemma digit_not_space c : is_digit c = true -> is_space c = false.
Proof.
  intros H. destruct c as [[] [] [] [] [] [] [] []]; try discriminate H; reflexivity.
Qed.

Lemma int_space_is_space c : is_int_space c = true -> is_space c = true.
Proof.
  intros H. destruct c as [[] [] [] [] [] [] [] []]; try discriminate H; reflexivity.
Qed.

Lemma not_space_not_int_space c : is_space c = false -> is_int_space c = false.
Proof.
  intros H. destruct (is_int_space c) eqn:E; [|reflexivity].
  apply int_space_is_space in E. congruence.
Qed.

Lemma isdigit_char_not_space c : isdigit_char c = true -> is_space c = false.
Proof.
  intros H. destruct c as [[] [] [] [] [] [] [] []]; try discriminate H; reflexivity.
Qed.


Lemma digit_is_isdigit c : is_digit c = true -> isdigit_char c = true.
Proof. unfold isdigit_char. now intros ->. Qed.

Lemma digit_no_sign c :
  is_digit c = true -> Ascii.eqb c "-" = false /\ Ascii.eqb c "+" = false.
Proof.
  intros H. destruct c as [[] [] [] [] [] [] [] []]; try discriminate H;
    split; reflexivity.
Qed.

Lemma isdigit_char_no_sign c :
  isdigit_char c = true -> Ascii.eqb c "-" = false /\ Ascii.eqb c "+" = false.
Proof.
  intros H. destruct c as [[] [] [] [] [] [] [] []]; try discriminate H;
    split; reflexivity.
Qed.

Lemma all_digits_isdigit s : all_digits s = true -> all_isdigit s = true.
Proof.
  induction s as [|c r IH]; simpl; [reflexivity|]. intros H.
  apply andb_true_iff in H as [Hc Hr]. now rewrite (digit_is_isdigit c Hc), IH.
Qed.

Lemma rstrip_digits s : all_digits s = true -> rstrip s = s.
Proof.
  induction s as [|c r IH]; simpl; [reflexivity|].
  intros H. apply andb_true_iff in H as [Hc Hr].
  rewrite (IH Hr), (digit_not_space c Hc). now destruct r.
Qed.

Lemma strip_digits s : all_digits s = true -> strip s = s.
Proof.
  intros H. unfold strip.
  assert (Hl : lstrip s = s).
  { destruct s as [|c r]; simpl in *; [reflexivity|].
    apply andb_true_iff in H as [Hc _]. now rewrite (digit_not_space c Hc). }
  rewrite Hl. now apply rstrip_digits.
Qed.

Lemma read_digits_total s : forall prev acc,
  all_digits s = true -> (s <> EmptyString \/ prev = true) ->
  exists n, read_digits s prev acc = Some n.
Proof.
  induction s as [|c r IH]; intros prev acc Hd Hne; simpl.
  - destruct Hne as [Hne| ->]; [congruence|eauto].
  - simpl in Hd. apply andb_true_iff in Hd as [Hc Hr]. rewrite Hc.
    apply IH; [exact Hr|now right].
Qed.


Lemma count_digits_all s : all_digits s = true -> count_digits s = String.length s.
Proof.
  induction s as [|c r IH]; simpl; [reflexivity|]. intros H.
  apply andb_true_iff in H as [Hc Hr]. now rewrite Hc, IH.
Qed.

Lemma count_digits_le s : (count_digits s <= String.length s)%nat.
Proof. induction s as [|c r IH]; simpl; [lia|]. destruct (is_digit c); lia. Qed.

(** What [int] reads ends in a digit and is not empty: no white space of
    either kind is left at its end. *)
Lemma read_digits_ends s : forall prev acc n,
  read_digits s prev acc = Some n ->
  int_rskip s = s /\ rstrip s = s /\ (prev = false -> s <> EmptyString).
Proof.
  induction s as [|c r IH]; intros prev acc n H.
  - simpl in H. destruct prev; [|discriminate]. repeat split. discriminate.
  - assert (Hrest : exists prev' acc',
              read_digits r prev' acc' = Some n
              /\ is_space c = false
              /\ (r = EmptyString -> prev' = true)).
    { simpl in H. destruct (is_digit c) eqn:Hc.
      - exists true, (10 * acc + digit_value c). split; [exact H|].
        split; [now apply digit_not_space|reflexivity].
      - destruct (Ascii.eqb_spec c "_") as [->|]; [|discriminate].
        destruct prev; [|discriminate]. simpl in H.
        exists false, acc. split; [exact H|]. split; [reflexivity|].
        intros ->. discriminate H. }
    destruct Hrest as (prev' & acc' & Hr & Hc & Hne).
    destruct (IH _ _ _ Hr) as (Hi & Hs & _).
    simpl. rewrite Hi, Hs, Hc, (not_space_not_int_space c Hc).
    repeat split; try discriminate; now destruct r.
Qed.

Lemma read_digits_head c r acc n :
  read_digits (String c r) false acc = Some n -> is_digit c = true.
Proof.
  simpl. destruct (is_digit c); [reflexivity|].
  rewrite andb_false_r. discriminate.
Qed.

Lemma read_number_Some s n :
  read_number s = Some n -> read_digits s false 0 = Some n.
Proof. unfold read_number. now destruct (_ <? _)%nat. Qed.

(** A text that begins with a character that is no white space and no
    sign, and ends as [int] wants it, is read as it stands. *)
Lemma int_plain c r :
  is_int_space c = false -> Ascii.eqb c "-" = false -> Ascii.eqb c "+" = false ->
  int_rskip (String c r) = String c r ->
  PyStr.int (String c r) = read_number (String c r).
Proof.
  intros Hs Hm Hp Hr. unfold PyStr.int.
  change (int_lskip (String c r))
    with (if is_int_space c then int_lskip r else String c r).
  now rewrite Hs, Hr, Hm, Hp.
Qed.

Lemma int_signed c r :
  Ascii.eqb c "-" = true \/ Ascii.eqb c "+" = true ->
  int_rskip r = r -> r <> EmptyString ->
  PyStr.int (String c r)
  = if Ascii.eqb c "-" then Z.opp <$> read_number r else read_number r.
Proof.
  intros Hsign Hr Hne. unfold PyStr.int.
  assert (Hs : is_int_space c = false).
  { destruct Hsign as [H|H]; apply Ascii.eqb_eq in H; subst; reflexivity. }
  change (int_lskip (String c r))
    with (if is_int_space c then int_lskip r else String c r).
  rewrite Hs.
  change (int_rskip (String c r))
    with (match int_rskip r with
          | EmptyString => if is_int_space c then EmptyString else String c EmptyString
          | r' => String c r'
          end).
  rewrite Hr. destruct r as [|c' r']; [congruence|].
  destruct Hsign as [H|H]; rewrite H; [reflexivity|].
  apply Ascii.eqb_eq in H. subst. reflexivity.
Qed.

Lemma all_isdigit_rskip s : all_isdigit s = true -> int_rskip s = s.
Proof.
  induction s as [|c r IH]; simpl; [reflexivity|]. intros H.
  apply andb_true_iff in H as [Hc Hr]. rewrite (IH Hr).
  rewrite (not_space_not_int_space c (isdigit_char_not_space c Hc)).
  now destruct r.
Qed.

(** On a text that [isdigit()] accepts, [int] reads the digits as they
    stand. *)
Lemma int_isdigit s : isdigit s = true -> PyStr.int s = read_number s.
Proof.
  destruct s as [|c r]; [discriminate|]. intros H.
  change (isdigit (String c r)) with (all_isdigit (String c r)) in H.
  pose proof (all_isdigit_rskip _ H) as Hr.
  simpl in H. apply andb_true_iff in H as [Hc _].
  destruct (isdigit_char_no_sign c Hc) as [Hm Hp].
  apply int_plain; trivial.
  apply not_space_not_int_space, isdigit_char_not_space, Hc.
Qed.

Lemma digit_value_nonneg c : is_digit c = true -> 0 <= digit_value c.
Proof.
  unfold is_digit, digit_value. intros H.
  apply andb_true_iff in H as [H _]. apply Nat.leb_le in H. lia.
Qed.

Lemma read_digits_nonneg s : forall prev acc n,
  0 <= acc -> read_digits s prev acc = Some n -> 0 <= n.
Proof.
  induction s as [|c r IH]; intros prev acc n Hacc; simpl.
  - destruct prev; [|discriminate]. intros H. injection H as <-. exact Hacc.
  - destruct (is_digit c) eqn:Hc.
    + apply IH. pose proof (digit_value_nonneg c Hc). lia.
    + destruct (Ascii.eqb c "_" && prev); [|discriminate]. now apply IH.
Qed.

Lemma read_number_nonneg s n : read_number s = Some n -> 0 <= n.
Proof.
  intros H. apply read_number_Some in H.
  apply (read_digits_nonneg s false 0 n); [lia|exact H].
Qed.

(** Decimal digits, at least one and at most 4300, are a number. *)
Lemma read_number_digits s :
  s <> EmptyString -> all_digits s = true ->
  (String.length s <= int_max_str_digits)%nat ->
  exists n, read_number s = Some n /\ 0 <= n.
Proof.
  intros Hne Hd Hlen. unfold read_number.
  rewrite (count_digits_all s Hd).
  destruct (Nat.ltb_spec int_max_str_digits (String.length s)); [lia|].
  destruct (read_digits_total s false 0 Hd (or_introl Hne)) as [n Hn].
  exists n. split; [exact Hn|].
  apply (read_digits_nonneg s false 0 n); [lia|exact Hn].
Qed.


End QuantityFacts.

(** ** The branches that call [int] unguarded *)

Section StrictBranches.

Variable inventory_agent_run : nat -> string -> Z -> AgentDecision.
Variable policy_agent_run : nat -> string -> Z -> bool -> AgentDecision.
Variable refill_prediction_agent_run : nat -> AgentDecision.
Variable place_order : nat -> string -> string -> Z -> option string.

(** Whatever the evidence, a quantity that [int] rejects ends the request
    with the server error on the inventory and on the policy branch. *)
Lemma strict_branches_raise hop (cur : AgentDecision)
    (extracted_data : gmap string string) :
  Main.quantity_or_raise extracted_data = None ->
  next_agent cur = Some "InventoryAgent" \/ next_agent cur = Some "PolicyAgent" ->
  Main.handoff_step inventory_agent_run policy_agent_run
    refill_prediction_agent_run place_order hop cur extracted_data
  = Main.Return ServerError.
Proof.
  intros Hq [Hn|Hn]; unfold Main.handoff_step; rewrite Hn; simpl; now rewrite Hq.
Qed.

End StrictBranches.

(** C10 (the code departs from it).  Claim: on every branch that reads the
    quantity, a value that is no number falls back to a default instead of
    raising.  With the evidence "Quantity: thirty", the inventory branch and
    the policy branch call [int] on it unguarded and the request ends in
    the server error, whatever the collaborators are; the fulfilment branch
    alone falls back, to 1. *)
Theorem C10_unparsable_quantity_raises
    (inventory_agent_run : nat -> string -> Z -> AgentDecision)
    (policy_agent_run : nat -> string -> Z -> bool -> AgentDecision)
    (refill_prediction_agent_run : nat -> AgentDecision)
    (place_order : nat -> string -> string -> Z -> option string)
    (fuel : nat) :
  let chat := Main.chat inventory_agent_run policy_agent_run
                refill_prediction_agent_run place_order in
  let ev := ["Medicine: Aspirin"; "Quantity: thirty"] in
  Main.quantity_or_raise (Main.parse_evidence ev) = None
  /\ Main.quantity_or_default (Main.parse_evidence ev) = Some 1
  /\ chat (S fuel) (Samples.hand_to "InventoryAgent" ev) = Some ServerError
  /\ chat (S fuel) (Samples.hand_to "PolicyAgent" ev) = Some ServerError
  /\ chat (S fuel) (Samples.hand_to "FulfillmentAgent" ev)
     = Some (Replied match place_order 0%nat "Aspirin" "Unknown" 1 with
                     | Some oid => OrderPlaced oid
                     | None => PlaceOrderError
                     end).
Proof.
  intros chat ev.
  assert (Hraise : Main.quantity_or_raise (Main.parse_evidence ev) = None)
    by (vm_compute; reflexivity).
  assert (Hdef : Main.quantity_or_default (Main.parse_evidence ev) = Some 1)
    by (vm_compute; reflexivity).
  assert (Hmed : Main.parse_evidence ev !! "medicine" = Some "Aspirin")
    by (vm_compute; reflexivity).
  assert (Hstr : Main.parse_evidence ev !! "strength" = None)
    by (vm_compute; reflexivity).
  split; [exact Hraise|]. split; [exact Hdef|].
  unfold chat, Main.chat. simpl verdict. simpl evidence. fold ev.
  repeat split; simpl; unfold Main.handoff_step; simpl;
    rewrite ?Hraise, ?Hdef, ?Hmed, ?Hstr; simpl; try reflexivity.
  destruct (place_order _ _ _ _); reflexivity.
Qed.

(** * Further properties of the rule evaluator *)

Section EvaluatorFacts.

Import SafetyAgent.

(** An item that reaches the prescription and controlled-substance checks. *)
Let orderable_rx (m : Medicine) : bool :=
  negb (discontinued m) && prescription_required m.
Let orderable_controlled (m : Medicine) : bool :=
  negb (discontinued m) && controlled_substance m.

Lemma check_item_flags has e m c :
  c_requires_prescription (check_item has e m c)
  = c_requires_prescription c || orderable_rx m
  /\ c_requires_followup (check_item has e m c)
     = c_requires_followup c || orderable_controlled m.
Proof.
  unfold check_item, check_max, check_stock, check_controlled,
    check_prescription, orderable_rx, orderable_controlled.
  destruct c as [rs bl rp al fu]; simpl.
  destruct (discontinued m); simpl; [now rewrite !orb_false_r|].
  repeat match goal with
         | |- context [if ?b then _ else _] => destruct b eqn:?; simpl
         end;
    rewrite ?orb_true_r, ?orb_false_r; split; reflexivity.
Qed.

Lemma check_loop_flags has ents meds : forall i c,
  c_requires_prescription (check_loop has ents i meds c)
  = c_requires_prescription c || existsb orderable_rx meds
  /\ c_requires_followup (check_loop has ents i meds c)
     = c_requires_followup c || existsb orderable_controlled meds.
Proof.
  induction meds as [|m meds IH]; intros i c; simpl.
  - now rewrite !orb_false_r.
  - destruct (IH (S i) (check_item has (ents !! i) m c)) as [-> ->].
    destruct (check_item_flags has (ents !! i) m c) as [-> ->].
    now rewrite !orb_assoc.
Qed.

Lemma check_loop_take has meds : forall ents i c,
  check_loop has ents i meds c
  = check_loop has (take (i + length meds) ents) i meds c.
Proof.
  induction meds as [|m meds IH]; intros ents i c; simpl; [reflexivity|].
  rewrite lookup_take_lt by lia.
  rewrite (IH ents), (IH (take (i + S (length meds)) ents)).
  rewrite take_take.
  replace ((S i + length meds) `min` (i + S (length meds)))%nat
    with (S i + length meds)%nat by lia.
  reflexivity.
Qed.

Lemma check_item_no_rx e m c :
  orderable_rx m = false -> check_item true e m c = check_item false e m c.
Proof.
  unfold orderable_rx, check_item, check_prescription. intros H.
  destruct (discontinued m); simpl in *; [reflexivity|]. now rewrite H.
Qed.

Lemma check_loop_no_rx ents meds : forall i c,
  existsb orderable_rx meds = false ->
  check_loop true ents i meds c = check_loop false ents i meds c.
Proof.
  induction meds as [|m meds IH]; intros i c H; simpl in *; [reflexivity|].
  apply orb_false_iff in H as [Hm Hr]. rewrite (check_item_no_rx _ _ _ Hm).
  now apply IH.
Qed.

(** The cap the loop leaves, for a catalog without negative stock and with
    positive maxima. *)
Definition sane (m : Medicine) : Prop :=
  0 <= stock_level m /\ 0 < max_quantity_per_order m.

Definition cap_ok (meds : list Medicine) (o : option Z) : Prop :=
  match o with
  | None => True
  | Some cap => 0 < cap /\ exists m, In m meds /\ cap <= max_quantity_per_order m
  end.

Lemma check_item_cap_ok has e m c meds :
  sane m -> In m meds -> cap_ok meds (c_allowed_quantity c) ->
  cap_ok meds (c_allowed_quantity (check_item has e m c)).
Proof.
  intros [Hs Hm] Hin Hc.
  unfold check_item, check_max, check_stock, check_controlled, check_prescription.
  destruct c as [rs bl rp al fu]; simpl in *.
  destruct (discontinued m); simpl; [exact Hc|].
  destruct (Z.eqb_spec (stock_level m) 0) as [E|E];
    [destruct (prescription_required m), has, (controlled_substance m);
     simpl; exact Hc|].
  assert (Hmin : cap_ok meds (Some (Z.min (stock_level m) (max_quantity_per_order m)))).
  { simpl. split; [lia|]. exists m. split; [exact Hin|lia]. }
  assert (Hmax : cap_ok meds (Some (max_quantity_per_order m))).
  { simpl. split; [lia|]. exists m. split; [exact Hin|lia]. }
  destruct (prescription_required m), has, (controlled_substance m); simpl;
    destruct (stock_level m <? requested_qty e); simpl;
    destruct (max_quantity_per_order m <? requested_qty e); simpl;
    try exact Hc; try exact Hmin;
    try (destruct (Z.eqb_spec (Z.min (stock_level m) (max_quantity_per_order m)) 0);
         simpl; [exact Hmax|exact Hmin]);
    try (destruct al as [n|]; simpl;
         [destruct (Z.eqb_spec n 0); simpl; [exact Hmax|exact Hc]|exact Hmax]).
Qed.

Lemma check_loop_cap_ok has ents all_meds meds : forall i c,
  Forall sane meds -> (forall m, In m meds -> In m all_meds) ->
  cap_ok all_meds (c_allowed_quantity c) ->
  cap_ok all_meds (c_allowed_quantity (check_loop has ents i meds c)).
Proof.
  induction meds as [|m meds IH]; intros i c Hsane Hsub Hc; simpl; [exact Hc|].
  inversion Hsane; subst.
  apply IH; [assumption|intros; apply Hsub; now right|].
  apply check_item_cap_ok; [assumption|apply Hsub; now left|exact Hc].
Qed.

End EvaluatorFacts.

(** X1.  The blocked items of an evaluation are the names of the matched
    medicines that are discontinued or out of stock, in the order of the
    matches; nothing else is ever blocked. *)
Theorem X1_blocked_items_are_the_unavailable
    (ents : list ExtractedEntity) (meds : list Medicine) (has : bool) :
  blocked_items (SafetyAgent._perform_safety_checks ents meds has)
  = map medicine_name (List.filter is_blocked meds).
Proof.
  unfold SafetyAgent._perform_safety_checks. simpl.
  now rewrite check_loop_blocked.
Qed.

(** X2.  The evaluation rejects exactly when there is at least one matched
    medicine and every one of them is discontinued or out of stock; an
    empty list of matches is approved. *)
Theorem X2_reject_iff_all_unavailable
    (ents : list ExtractedEntity) (meds : list Medicine) (has : bool) :
  (decision (SafetyAgent._perform_safety_checks ents meds has) = REJECT
   <-> meds <> [] /\ forallb is_blocked meds = true)
  /\ decision (SafetyAgent._perform_safety_checks ents [] has) = APPROVE.
Proof.
  split; [|reflexivity].
  destruct meds as [|m meds].
  - split; [discriminate|]. intros [H _]. congruence.
  - rewrite decision_by_priority by discriminate.
    destruct (forallb is_blocked (m :: meds)).
    + split; [split; [discriminate|reflexivity]|reflexivity].
    + split; [|intros [_ H]; discriminate].
      match goal with |- (if ?b then _ else _) = _ -> _ => destruct b end;
        discriminate.
Qed.

(** X3.  The two flags of the result do not depend on quantities, stock or
    the prescription on file: requires_prescription is set exactly when a
    matched medicine that is not discontinued requires a prescription, and
    requires_followup exactly when one that is not discontinued is a
    controlled substance.  A discontinued medicine sets neither. *)
Theorem X3_flags_of_the_result
    (ents : list ExtractedEntity) (meds : list Medicine) (has : bool) :
  let r := SafetyAgent._perform_safety_checks ents meds has in
  requires_prescription r
  = existsb (fun m => negb (discontinued m) && prescription_required m) meds
  /\ requires_followup r
     = existsb (fun m => negb (discontinued m) && controlled_substance m) meds.
Proof.
  unfold SafetyAgent._perform_safety_checks. simpl.
  destruct (check_loop_flags has ents meds 0 SafetyAgent.init) as [-> ->].
  split; reflexivity.
Qed.

(** X4.  The evaluation reads one entity per matched medicine, by position:
    entities beyond the number of matches have no effect on the result. *)
Theorem X4_surplus_entities_are_ignored
    (ents : list ExtractedEntity) (meds : list Medicine) (has : bool) :
  SafetyAgent._perform_safety_checks ents meds has
  = SafetyAgent._perform_safety_checks (take (length meds) ents) meds has.
Proof.
  unfold SafetyAgent._perform_safety_checks.
  now rewrite (check_loop_take has meds ents 0 SafetyAgent.init).
Qed.

(** X5.  The prescription on file matters only through medicines that
    require one: when no matched medicine that is not discontinued requires a
    prescription, the whole result is the same with and without it. *)
Theorem X5_prescription_flag_irrelevant_without_rx_items
    (ents : list ExtractedEntity) (meds : list Medicine) :
  existsb (fun m => negb (discontinued m) && prescription_required m) meds = false ->
  SafetyAgent._perform_safety_checks ents meds true
  = SafetyAgent._perform_safety_checks ents meds false.
Proof.
  intros H. unfold SafetyAgent._perform_safety_checks.
  rewrite (check_loop_no_rx ents meds 0 SafetyAgent.init H).
  set (c := SafetyAgent.check_loop false ents 0 meds SafetyAgent.init).
  assert (Hrp : SafetyAgent.c_requires_prescription c = false).
  { unfold c. destruct (check_loop_flags false ents meds 0 SafetyAgent.init) as [-> _].
    exact H. }
  unfold SafetyAgent.decide_outcome. rewrite Hrp. reflexivity.
Qed.

Lemma X5_prescription_flag_irrelevant_without_rx_items_witness :
  SafetyAgent._perform_safety_checks [Samples.entity "Paracetamol" 40]
    [Samples.med "Paracetamol" 100 30] true
  = SafetyAgent._perform_safety_checks [Samples.entity "Paracetamol" 40]
      [Samples.med "Paracetamol" 100 30] false.
Proof.
  apply (X5_prescription_flag_irrelevant_without_rx_items
           [Samples.entity "Paracetamol" 40] [Samples.med "Paracetamol" 100 30]).
  reflexivity.
Defined.

(** X6.  For matched medicines without negative stock and with a positive
    maximum per order, a cap in the result is positive and does not exceed
    the maximum per order of one of the matched medicines. *)
Theorem X6_cap_is_positive_and_bounded
    (ents : list ExtractedEntity) (meds : list Medicine) (has : bool) (cap : Z) :
  Forall (fun m => 0 <= stock_level m /\ 0 < max_quantity_per_order m) meds ->
  allowed_quantity (SafetyAgent._perform_safety_checks ents meds has) = Some cap ->
  0 < cap /\ exists m, In m meds /\ cap <= max_quantity_per_order m.
Proof.
  intros Hsane Hcap. unfold SafetyAgent._perform_safety_checks in Hcap. simpl in Hcap.
  pose proof (check_loop_cap_ok has ents meds meds 0 SafetyAgent.init Hsane
                (fun m H => H) I) as H.
  rewrite Hcap in H. exact H.
Qed.

Lemma X6_cap_is_positive_and_bounded_witness :
  0 < 30 /\ exists m, In m [Samples.med "Paracetamol" 100 30]
                      /\ 30 <= max_quantity_per_order m.
Proof.
  apply (X6_cap_is_positive_and_bounded [Samples.entity "Paracetamol" 40]
           [Samples.med "Paracetamol" 100 30] false 30).
  - repeat constructor; simpl; lia.
  - reflexivity.
Defined.

(** * Further properties of the order handlers *)

Section OrderHandlerFacts.

Import Orchestrator.

Lemma handle_order_no_preview search er uuid8 request patient st r st' :
  _handle_order search er uuid8 request patient st = Some (r, st') ->
  order_preview r = None ->
  st' = st /\ requires_confirmation r = false.
Proof.
  unfold _handle_order. intros H Hnone.
  destruct (needs_clarification er); [inversion H; subst; now split|].
  destruct (entities er) as [|e0 ents']; [inversion H; subst; now split|].
  destruct (negb (nonempty (match_medicines search (e0 :: ents'))));
    [inversion H; subst; now split|].
  destruct (decide (decision _ = REJECT)); [inversion H; subst; now split|].
  destruct (subtotal_of _); [|discriminate].
  inversion H; subst. discriminate Hnone.
Qed.

Lemma build_items_none i ents matched allowed :
  (length matched <= i)%nat -> build_items i ents matched allowed = [].
Proof.
  revert i. induction ents as [|e ents IH]; intros i Hi; simpl; [reflexivity|].
  rewrite (lookup_ge_None_2 matched i Hi). apply IH. lia.
Qed.

Lemma build_items_ids allowed matched : forall ents i,
  map oi_medicine_id (build_items i ents matched allowed)
  = map medicine_id (take (length ents) (drop i matched)).
Proof.
  induction ents as [|e ents IH]; intros i; simpl; [reflexivity|].
  destruct (matched !! i) as [med|] eqn:E.
  - rewrite (drop_S _ _ _ E). simpl. now rewrite IH.
  - apply lookup_ge_None_1 in E.
    rewrite build_items_none by lia. now rewrite (drop_ge _ _ E).
Qed.

Lemma build_items_quantities allowed matched : forall ents i it,
  In it (build_items i ents matched allowed) ->
  exists e, In e ents /\ oi_quantity it = resolve_quantity e allowed.
Proof.
  induction ents as [|e ents IH]; intros i it Hin; simpl in *; [contradiction|].
  destruct (matched !! i).
  - destruct Hin as [<-|Hin]; [exists e; split; [now left|reflexivity]|].
    destruct (IH _ _ Hin) as (e' & He' & Hq). exists e'. split; [now right|exact Hq].
  - destruct (IH _ _ Hin) as (e' & He' & Hq). exists e'. split; [now right|exact Hq].
Qed.

Lemma best_match_in search e m :
  best_match search e = Some m -> In m (search (medicine e)).
Proof.
  unfold best_match. destruct (search (medicine e)) as [|first more] eqn:E;
    [discriminate|].
  destruct (List.find (dosage_fits e) (first :: more)) as [m0|] eqn:F;
    intros H; injection H as <-.
  - apply find_some in F. destruct F as [F _]. exact F.
  - now left.
Qed.

Lemma match_medicines_in search ents m :
  In m (match_medicines search ents) ->
  exists e, In e ents /\ best_match search e = Some m.
Proof.
  unfold match_medicines. induction ents as [|e ents IH]; simpl; [contradiction|].
  destruct (best_match search e) as [m0|] eqn:E; simpl.
  - intros [<-|Hin]; [exists e; split; [now left|exact E]|].
    destruct (IH Hin) as (e' & He' & Hb). exists e'. split; [now right|exact Hb].
  - intros Hin. destruct (IH Hin) as (e' & He' & Hb).
    exists e'. split; [now right|exact Hb].
Qed.

End OrderHandlerFacts.

(** X7.  An order turn that ends without a preview (clarification asked, no
    medicine recognised, nothing found in the catalog, or rejection by the
    evaluator) leaves the stores exactly as they were and does not ask for
    confirmation; a turn asks for confirmation exactly when it carries a
    preview. *)
Theorem X7_failed_order_turn_changes_nothing
    (search : string -> list Medicine) (er : ExtractionResult) (uuid8 : string)
    (request : ChatRequest) (patient : Patient) (st st' : Orchestrator.state)
    (r : ChatResponse) :
  Orchestrator._handle_order search er uuid8 request patient st = Some (r, st') ->
  (order_preview r = None -> st' = st)
  /\ (requires_confirmation r = true <-> exists pv, order_preview r = Some pv).
Proof.
  intros H. destruct (order_preview r) as [pv|] eqn:E.
  - split; [discriminate|].
    destruct (handle_order_preview _ _ _ _ _ _ _ _ _ H E) as (_ & _ & Hc & _).
    split; eauto.
  - destruct (handle_order_no_preview _ _ _ _ _ _ _ _ H E) as [Hst Hc].
    split; [intros _; exact Hst|]. rewrite Hc.
    split; [discriminate|intros [pv Hpv]; discriminate].
Qed.

Lemma X7_failed_order_turn_changes_nothing_witness :
  (Samples.returned
     (Orchestrator._handle_order Samples.catalog (Samples.wants "Unknownium" 3)
        "0000EEEE" (Samples.request "3 unknownium") Samples.patient
        Samples.turn1.2)).2
  = Samples.turn1.2.
Proof.
  apply (X7_failed_order_turn_changes_nothing Samples.catalog
           (Samples.wants "Unknownium" 3) "0000EEEE"
           (Samples.request "3 unknownium") Samples.patient Samples.turn1.2
           (Samples.returned
              (Orchestrator._handle_order Samples.catalog
                 (Samples.wants "Unknownium" 3) "0000EEEE"
                 (Samples.request "3 unknownium") Samples.patient
                 Samples.turn1.2)).2
           (Samples.returned
              (Orchestrator._handle_order Samples.catalog
                 (Samples.wants "Unknownium" 3) "0000EEEE"
                 (Samples.request "3 unknownium") Samples.patient
                 Samples.turn1.2)).1);
    vm_compute; reflexivity.
Defined.

(** X8.  An order turn never removes anything: every preview that was in the
    store is still there unless it had the new preview's id, and the
    entries of all other sessions are untouched. *)
Theorem X8_order_turn_keeps_other_entries
    (search : string -> list Medicine) (er : ExtractionResult) (uuid8 : string)
    (request : ChatRequest) (patient : Patient) (st st' : Orchestrator.state)
    (r : ChatResponse) :
  Orchestrator._handle_order search er uuid8 request patient st = Some (r, st') ->
  (forall pid, pid <> Orchestrator._generate_preview_id uuid8 ->
     Orchestrator.pending_previews st' !! pid = Orchestrator.pending_previews st !! pid)
  /\ (forall sid, sid <> Orchestrator.session_of request ->
        Orchestrator.session_contexts st' !! sid
        = Orchestrator.session_contexts st !! sid).
Proof.
  intros H. destruct (order_preview r) as [pv|] eqn:E.
  - destruct (handle_order_preview _ _ _ _ _ _ _ _ _ H E) as (Hpv & _ & _ & ->).
    assert (Hid : preview_id pv = Orchestrator._generate_preview_id uuid8)
      by (rewrite Hpv; reflexivity).
    simpl. split.
    + intros pid Hne. rewrite lookup_insert_ne by congruence. reflexivity.
    + intros sid Hne. rewrite lookup_insert_ne by congruence. reflexivity.
  - destruct (handle_order_no_preview _ _ _ _ _ _ _ _ H E) as [-> _].
    split; reflexivity.
Qed.

Lemma X8_order_turn_keeps_other_entries_witness :
  Orchestrator.pending_previews Samples.turn2.2 !! "PRV-0000AAAA"
  = Orchestrator.pending_previews Samples.turn1.2 !! "PRV-0000AAAA".
Proof.
  destruct (X8_order_turn_keeps_other_entries Samples.catalog
              (Samples.wants "Paracetamol" 40) "0000BBBB"
              (Samples.request "make it 40") Samples.patient
              Samples.turn1.2 Samples.turn2.2 Samples.turn2.1
              ltac:(vm_compute; reflexivity)) as [H _].
  apply H. discriminate.
Defined.

(** X9.  Ordering and then cancelling is a round trip: when the session had
    no entry and the new preview id was not in use, the cancellation that
    follows a successful order turn gives back the stores as they were
    before the order. *)
Theorem X9_order_then_cancel_restores
    (search : string -> list Medicine) (er : ExtractionResult) (uuid8 : string)
    (request cancel : ChatRequest) (patient : Patient)
    (st st' : Orchestrator.state) (r : ChatResponse) (pv : OrderPreview) :
  Orchestrator._handle_order search er uuid8 request patient st = Some (r, st') ->
  order_preview r = Some pv ->
  Orchestrator.session_of cancel = Orchestrator.session_of request ->
  Orchestrator.session_contexts st !! Orchestrator.session_of request = None ->
  Orchestrator.pending_previews st !! Orchestrator._generate_preview_id uuid8 = None ->
  (Orchestrator._handle_order_cancellation cancel st').2 = st.
Proof.
  intros H E Hsid Hs Hp.
  destruct (handle_order_preview _ _ _ _ _ _ _ _ _ H E) as (Hpv & _ & _ & ->).
  assert (Hid : preview_id pv = Orchestrator._generate_preview_id uuid8)
    by (rewrite Hpv; reflexivity).
  unfold Orchestrator._handle_order_cancellation, Orchestrator.pending_preview.
  rewrite Hsid. simpl. rewrite lookup_insert_eq.
  destruct (preview_id_truthy uuid8) as (c & s & Hc).
  rewrite Hid, Hc, <- Hc, lookup_insert_eq. simpl.
  rewrite !delete_insert_eq, delete_id by assumption.
  rewrite delete_id by assumption. now destruct st.
Qed.

Lemma X9_order_then_cancel_restores_witness :
  (Orchestrator._handle_order_cancellation (Samples.request "cancel")
     Samples.turn1.2).2 = Orchestrator.empty_state.
Proof.
  apply (X9_order_then_cancel_restores Samples.catalog
           (Samples.wants "Paracetamol" 2) "0000AAAA"
           (Samples.request "2 paracetamol please") (Samples.request "cancel")
           Samples.patient Orchestrator.empty_state Samples.turn1.2 Samples.turn1.1
           (Samples.preview_of "0000AAAA" (Samples.wants "Paracetamol" 2))
           ltac:(vm_compute; reflexivity) ltac:(vm_compute; reflexivity) eq_refl);
    reflexivity.
Defined.

Section PreviewFacts.

Import Orchestrator.

Lemma handle_order_safety search er uuid8 request patient st r st' pv :
  _handle_order search er uuid8 request patient st = Some (r, st') ->
  order_preview r = Some pv ->
  safety_result r
  = Some (SafetyAgent.evaluate (entities er)
            (match_medicines search (entities er)) false)
  /\ entities er <> [] /\ match_medicines search (entities er) <> [].
Proof.
  unfold _handle_order. intros H Hpv.
  destruct (needs_clarification er); [inversion H; subst; discriminate|].
  destruct (entities er) as [|e0 ents'] eqn:Hents;
    [inversion H; subst; discriminate|].
  destruct (nonempty (match_medicines search (e0 :: ents'))) eqn:Hm;
    [|inversion H; subst; discriminate].
  cbn [negb] in H.
  destruct (decide (decision _ = REJECT)); [inversion H; subst; discriminate|].
  destruct (subtotal_of _); [|discriminate].
  inversion H; subst; clear H. cbn [safety_result].
  split; [reflexivity|]. split; [discriminate|].
  intros E. rewrite E in Hm. discriminate.
Qed.

Lemma omap_length_le {A B} (f : A -> option B) (l : list A) :
  (length (omap f l) <= length l)%nat.
Proof.
  induction l as [|a l IH]; [reflexivity|].
  change (omap f (a :: l))
    with (match f a with Some y => y :: omap f l | None => omap f l end).
  destruct (f a); simpl in *; lia.
Qed.

Lemma map_names_ids allowed matched : forall ents i,
  map oi_medicine_name (build_items i ents matched allowed)
  = map medicine_name (take (length ents) (drop i matched)).
Proof.
  induction ents as [|e ents IH]; intros i; simpl; [reflexivity|].
  destruct (matched !! i) as [med|] eqn:E.
  - rewrite (drop_S _ _ _ E). simpl. now rewrite IH.
  - apply lookup_ge_None_1 in E.
    rewrite build_items_none by lia. now rewrite (drop_ge _ _ E).
Qed.

Lemma resolve_quantity_positive e allowed :
  (forall cap, allowed = Some cap -> cap = 0 \/ 0 < cap) ->
  1 <= resolve_quantity e allowed.
Proof.
  intros H. unfold resolve_quantity.
  set (q := if 0 <? quantity e then quantity e else 30).
  assert (Hq : 1 <= q).
  { unfold q. destruct (Z.ltb_spec 0 (quantity e)); lia. }
  destruct allowed as [cap|]; simpl; [|exact Hq].
  destruct (Z.eqb_spec cap 0); simpl; [exact Hq|].
  destruct (H cap eq_refl); lia.
Qed.

End PreviewFacts.

(** X10.  A confirmation cannot be repeated: once the session's pending
    preview has been confirmed, a further confirmation for that session
    finds nothing pending, answers so, creates no order, makes no call on
    the data service and leaves the stores as they are. *)
Theorem X10_second_confirmation_finds_nothing
    (oid : string) (request : ChatRequest) (patient : Patient)
    (st : Orchestrator.state) (orders : gmap string Order)
    (pid : string) (pv : OrderPreview) :
  Orchestrator.pending_preview st (Orchestrator.session_of request) = Some (pid, pv) ->
  let '(_, st1, orders1, _) :=
    Orchestrator._handle_order_confirmation oid request patient st orders in
  forall (oid2 : string) (request2 : ChatRequest) (patient2 : Patient),
    Orchestrator.session_of request2 = Orchestrator.session_of request ->
    Orchestrator._handle_order_confirmation oid2 request2 patient2 st1 orders1
    = (Orchestrator.reply
         (Text "I don't see any pending order to confirm. Would you like to place a new order?"),
       st1, orders1, []).
Proof.
  intros Hp. unfold Orchestrator._handle_order_confirmation at 1. rewrite Hp.
  destruct (FulfillmentAgent.create_order oid (patient_id patient)
              (patient_name patient) (items pv) orders) as [o orders0].
  cbv zeta. intros oid2 request2 patient2 Hs.
  unfold Orchestrator._handle_order_confirmation, Orchestrator.pending_preview.
  rewrite Hs. cbn [Orchestrator.session_contexts]. rewrite lookup_delete_eq.
  reflexivity.
Qed.

Lemma X10_second_confirmation_finds_nothing_witness :
  (Orchestrator._handle_order_confirmation "ORD-2" (Samples.request "confirm again")
     Samples.patient Samples.confirmed.1.1.2 Samples.confirmed.1.2).1.2
  = Samples.confirmed.1.2.
Proof.
  pose proof (X10_second_confirmation_finds_nothing "ORD-1" (Samples.request "confirm")
                Samples.patient Samples.turn1.2 ∅ "PRV-0000AAAA"
                (Samples.preview_of "0000AAAA" (Samples.wants "Paracetamol" 2))) as H.
  fold Samples.confirmed in H.
  destruct Samples.confirmed as [[[r st'] orders'] calls].
  cbn [fst snd].
  rewrite (H ltac:(vm_compute; reflexivity) "ORD-2" (Samples.request "confirm again")
             Samples.patient eq_refl).
  reflexivity.
Defined.

(** X11.  A generated preview holds exactly one item per matched medicine,
    in the order of the matches, and is never empty; the evaluator's blocked
    medicines are not taken out, so every blocked name is the name of an
    item of the preview. *)
Theorem X11_preview_has_one_item_per_match
    (search : string -> list Medicine) (er : ExtractionResult) (uuid8 : string)
    (request : ChatRequest) (patient : Patient) (st st' : Orchestrator.state)
    (r : ChatResponse) (pv : OrderPreview) :
  Orchestrator._handle_order search er uuid8 request patient st = Some (r, st') ->
  order_preview r = Some pv ->
  map oi_medicine_id (items pv)
  = map medicine_id (Orchestrator.match_medicines search (entities er))
  /\ items pv <> []
  /\ (forall sr name, safety_result r = Some sr -> In name (blocked_items sr) ->
        In name (map oi_medicine_name (items pv))).
Proof.
  intros H Hpv.
  destruct (handle_order_preview _ _ _ _ _ _ _ _ _ H Hpv) as (-> & _).
  destruct (handle_order_safety _ _ _ _ _ _ _ _ _ H Hpv) as (Hsr & Hents & Hm).
  set (ents := entities er) in *.
  set (matched := Orchestrator.match_medicines search ents) in *.
  assert (Htake : take (length ents) (drop 0 matched) = matched).
  { simpl. apply take_ge. apply omap_length_le. }
  unfold Orchestrator.build_preview. cbn [items].
  assert (Hids : map oi_medicine_id
                   (Orchestrator.build_items 0 ents matched
                      (allowed_quantity (SafetyAgent.evaluate ents matched false)))
                 = map medicine_id matched)
    by (rewrite build_items_ids, Htake; reflexivity).
  split; [exact Hids|]. split.
  - intros E. rewrite E in Hids. simpl in Hids.
    destruct matched; [congruence|discriminate].
  - intros sr name Hsome Hin. rewrite Hsr in Hsome. injection Hsome as <-.
    rewrite map_names_ids, Htake.
    unfold SafetyAgent.evaluate, SafetyAgent._perform_safety_checks in Hin.
    simpl in Hin. rewrite check_loop_blocked in Hin. simpl in Hin.
    apply in_map_iff in Hin as (m & <- & Hm').
    apply filter_In in Hm' as [Hm' _]. now apply in_map.
Qed.

Lemma X11_preview_has_one_item_per_match_witness :
  map oi_medicine_id
    (items (Samples.preview_of "0000AAAA" (Samples.wants "Paracetamol" 2)))
  = ["MED-Paracetamol"].
Proof.
  destruct (X11_preview_has_one_item_per_match Samples.catalog
              (Samples.wants "Paracetamol" 2) "0000AAAA"
              (Samples.request "2 paracetamol please") Samples.patient
              Orchestrator.empty_state Samples.turn1.2 Samples.turn1.1
              (Samples.preview_of "0000AAAA" (Samples.wants "Paracetamol" 2))
              ltac:(vm_compute; reflexivity) ltac:(vm_compute; reflexivity))
    as [H _].
  rewrite H. reflexivity.
Defined.

(** X12.  When the catalog holds no negative stock and only positive maxima
    per order, every item of a generated preview has a quantity of at
    least 1, and at most the evaluator's cap when there is one. *)
Theorem X12_preview_quantities_are_positive
    (search : string -> list Medicine) (er : ExtractionResult) (uuid8 : string)
    (request : ChatRequest) (patient : Patient) (st st' : Orchestrator.state)
    (r : ChatResponse) (pv : OrderPreview) :
  (forall name m, In m (search name) ->
     0 <= stock_level m /\ 0 < max_quantity_per_order m) ->
  Orchestrator._handle_order search er uuid8 request patient st = Some (r, st') ->
  order_preview r = Some pv ->
  forall it, In it (items pv) ->
    1 <= oi_quantity it
    /\ (forall sr cap, safety_result r = Some sr -> allowed_quantity sr = Some cap ->
          oi_quantity it <= cap).
Proof.
  intros Hcat H Hpv it Hin.
  destruct (handle_order_preview _ _ _ _ _ _ _ _ _ H Hpv) as (-> & _).
  destruct (handle_order_safety _ _ _ _ _ _ _ _ _ H Hpv) as (Hsr & _ & _).
  set (ents := entities er) in *.
  set (matched := Orchestrator.match_medicines search ents) in *.
  set (sr0 := SafetyAgent.evaluate ents matched false) in *.
  unfold Orchestrator.build_preview in Hin. cbn [items] in Hin.
  destruct (build_items_quantities _ _ _ _ _ Hin) as (e & _ & ->).
  assert (Hsane : Forall (fun m => 0 <= stock_level m /\ 0 < max_quantity_per_order m)
                    matched).
  { apply List.Forall_forall. intros m Hm.
    destruct (match_medicines_in _ _ _ Hm) as (e' & _ & Hb).
    apply (Hcat (medicine e')). now apply best_match_in. }
  assert (Hcap : forall cap, allowed_quantity sr0 = Some cap -> 0 < cap).
  { intros cap Hc.
    pose proof (check_loop_cap_ok false ents matched matched 0 SafetyAgent.init
                  Hsane (fun m H => H) I) as Hok.
    unfold sr0, SafetyAgent.evaluate, SafetyAgent._perform_safety_checks in Hc.
    simpl in Hc. rewrite Hc in Hok. exact (proj1 Hok). }
  split.
  - apply resolve_quantity_positive. intros cap Hc. right. now apply Hcap.
  - intros sr cap Hsome Hc. rewrite Hsr in Hsome. injection Hsome as <-.
    pose proof (Hcap cap Hc) as Hpos.
    unfold Orchestrator.resolve_quantity. rewrite Hc. simpl.
    destruct (Z.eqb_spec cap 0); simpl; lia.
Qed.

Lemma X12_preview_quantities_are_positive_witness :
  Forall (fun it => 1 <= oi_quantity it)
    (items (Samples.preview_of "0000AAAA" (Samples.wants "Paracetamol" 2))).
Proof.
  pose (search := fun name : string =>
                    if decide (name = "Paracetamol")
                    then [Samples.med "Paracetamol" 100 30] else []).
  assert (Hturn : Orchestrator._handle_order search (Samples.wants "Paracetamol" 2)
                    "0000AAAA" (Samples.request "2 paracetamol please")
                    Samples.patient Orchestrator.empty_state
                  = Some (Samples.turn1.1, Samples.turn1.2))
    by (vm_compute; reflexivity).
  assert (Hpv : order_preview Samples.turn1.1
                = Some (Samples.preview_of "0000AAAA" (Samples.wants "Paracetamol" 2)))
    by (vm_compute; reflexivity).
  assert (Hcat : forall name m, In m (search name) ->
                   0 <= stock_level m /\ 0 < max_quantity_per_order m).
  { intros name m Hm. unfold search in Hm.
    destruct (decide (name = "Paracetamol")); [|contradiction].
    destruct Hm as [<-|[]]. simpl. lia. }
  apply List.Forall_forall. intros it Hin.
  exact (proj1 (X12_preview_quantities_are_positive search
                  (Samples.wants "Paracetamol" 2) "0000AAAA"
                  (Samples.request "2 paracetamol please") Samples.patient
                  Orchestrator.empty_state Samples.turn1.2 Samples.turn1.1
                  (Samples.preview_of "0000AAAA" (Samples.wants "Paracetamol" 2))
                  Hcat Hturn Hpv it Hin)).
Defined.

(** X13.  The catalog match of an entity is one of the search results for
    its medicine name; it is absent exactly when the search finds nothing;
    when some result fits the entity's dosage the chosen one fits it too,
    and when none does, or the entity gives no dosage, the first result is
    chosen. *)
Theorem X13_best_match_prefers_the_dosage
    (search : string -> list Medicine) (e : ExtractedEntity) :
  (Orchestrator.best_match search e = None <-> search (medicine e) = [])
  /\ (forall m, Orchestrator.best_match search e = Some m ->
        In m (search (medicine e))
        /\ ((exists m', In m' (search (medicine e))
                        /\ Orchestrator.dosage_fits e m' = true) ->
            Orchestrator.dosage_fits e m = true)
        /\ ((forall m', In m' (search (medicine e)) ->
               Orchestrator.dosage_fits e m' = false) ->
            head (search (medicine e)) = Some m)
        /\ (dosage e = "" -> head (search (medicine e)) = Some m)).
Proof.
  unfold Orchestrator.best_match.
  destruct (search (medicine e)) as [|first more] eqn:E.
  - split; [split; reflexivity|]. intros m H. discriminate.
  - split; [split; discriminate|].
    destruct (List.find (Orchestrator.dosage_fits e) (first :: more)) as [m0|] eqn:F;
      intros m H; injection H as <-.
    + pose proof (find_some _ _ F) as [Hin Hfit].
      split; [exact Hin|]. split; [intros _; exact Hfit|]. split.
      * intros Hnone. rewrite (Hnone m0 Hin) in Hfit. discriminate.
      * intros Hd. simpl in F. unfold Orchestrator.dosage_fits in F at 1.
        rewrite Hd in F. injection F as <-. reflexivity.
    + split; [now left|]. split.
      * intros (m' & Hin & Hfit).
        rewrite (find_none _ _ F m' Hin) in Hfit. discriminate.
      * split; reflexivity.
Qed.

Lemma X13_best_match_prefers_the_dosage_witness :
  Orchestrator.best_match Samples.catalog (Samples.entity "Paracetamol" 2)
  = Some (Samples.med "Paracetamol" 100 30).
Proof.
  destruct (X13_best_match_prefers_the_dosage Samples.catalog
              (Samples.entity "Paracetamol" 2)) as [_ H].
  destruct (H (Samples.med "Paracetamol" 100 30) eq_refl) as (_ & _ & _ & Hd).
  specialize (Hd eq_refl). simpl in Hd. reflexivity.
Defined.

(** * Further properties of the evidence parser and of the router *)

Section TextFacts.

Import PyStr.

Lemma lower_char_idem c : lower_char (lower_char c) = lower_char c.
Proof. destruct c as [[] [] [] [] [] [] [] []]; reflexivity. Qed.

Lemma lower_char_space c : is_space (lower_char c) = is_space c.
Proof. destruct c as [[] [] [] [] [] [] [] []]; reflexivity. Qed.

Lemma lower_idem s : lower (lower s) = lower s.
Proof. induction s as [|c r IH]; simpl; [reflexivity|]. now rewrite lower_char_idem, IH. Qed.

Lemma lower_lstrip s : lstrip (lower s) = lower (lstrip s).
Proof.
  induction s as [|c r IH]; simpl; [reflexivity|].
  rewrite lower_char_space. now destruct (is_space c).
Qed.

Lemma lower_rstrip s : rstrip (lower s) = lower (rstrip s).
Proof.
  induction s as [|c r IH]; simpl; [reflexivity|].
  rewrite IH, lower_char_space.
  destruct (rstrip r); simpl; [now destruct (is_space c)|reflexivity].
Qed.

Lemma lower_strip s : strip (lower s) = lower (strip s).
Proof. unfold strip. now rewrite lower_lstrip, lower_rstrip. Qed.

Lemma rstrip_idem s : rstrip (rstrip s) = rstrip s.
Proof.
  induction s as [|c r IH]; simpl; [reflexivity|].
  destruct (rstrip r) as [|c' r'] eqn:E.
  - destruct (is_space c) eqn:Hc; simpl; [reflexivity|now rewrite Hc].
  - simpl. simpl in IH. rewrite IH. reflexivity.
Qed.

(** A string that does not begin with white space. *)
Definition no_lead (s : string) : Prop :=
  match s with
  | EmptyString => True
  | String c _ => is_space c = false
  end.

Lemma lstrip_no_lead s : no_lead (lstrip s).
Proof.
  induction s as [|c r IH]; simpl; [exact I|].
  destruct (is_space c) eqn:Hc; [exact IH|exact Hc].
Qed.

Lemma lstrip_id s : no_lead s -> lstrip s = s.
Proof. destruct s as [|c r]; simpl; [reflexivity|]. now intros ->. Qed.

Lemma rstrip_no_lead s : no_lead s -> no_lead (rstrip s).
Proof.
  destruct s as [|c r]; simpl; [trivial|]. intros Hc.
  destruct (rstrip r); simpl; [now rewrite Hc|exact Hc].
Qed.

Lemma strip_idem s : strip (strip s) = strip s.
Proof.
  unfold strip.
  rewrite (lstrip_id (rstrip (lstrip s))) by apply rstrip_no_lead, lstrip_no_lead.
  apply rstrip_idem.
Qed.

(** A key as [parse_evidence] writes it. *)
Definition normal_key (k : string) : string := lower (strip k).

Lemma normal_key_idem k : normal_key (normal_key k) = normal_key k.
Proof. unfold normal_key. now rewrite lower_strip, strip_idem, lower_idem. Qed.

Lemma contains_colon_cons c k :
  contains ":" (String c k) = Ascii.eqb c ":" || contains ":" k.
Proof.
  change (contains ":" (String c k))
    with ((if ascii_dec ":" c then String.prefix "" k else false)
          || contains ":" k).
  destruct (ascii_dec ":" c) as [<-|Hc].
  - now destruct k.
  - destruct (Ascii.eqb_spec c ":"); [congruence|reflexivity].
Qed.

Lemma split_colon_join k v :
  contains ":" k = false -> split_colon (k +:+ ":" +:+ v) = Some (k, v).
Proof.
  induction k as [|c k IH]; [reflexivity|].
  rewrite contains_colon_cons. intros H.
  apply orb_false_iff in H as [Hc Hk].
  simpl. rewrite Hc. now rewrite (IH Hk).
Qed.

Lemma split_colon_None s : split_colon s = None <-> contains ":" s = false.
Proof.
  induction s as [|c r IH]; [split; reflexivity|].
  rewrite contains_colon_cons. simpl.
  destruct (Ascii.eqb c ":"); simpl; [split; discriminate|].
  rewrite <- IH. destruct (split_colon r) as [[k v]|]; split; congruence.
Qed.

End TextFacts.

(** A text holds a character other than the digit 0. *)
Fixpoint has_nonzero (s : string) : bool :=
  match s with
  | EmptyString => false
  | String c r => negb (Ascii.eqb c "0") || has_nonzero r
  end.

(** What one evidence item contributes: its key, trimmed and in lower
    case, and its trimmed value; nothing when it has no colon. *)
Definition evidence_entry (item : string) : option (string * string) :=
  match PyStr.split_colon item with
  | Some (key, val) => Some (normal_key key, PyStr.strip val)
  | None => None
  end.

(** The value an item gives for key [k], if it is an item for [k]. *)
Definition value_for (k : string) (item : string) : option string :=
  match evidence_entry item with
  | Some (k', v) => if decide (k' = k) then Some v else None
  | None => None
  end.

Section EvidenceFacts.

Import Main.

Let step (result : gmap string string) (item : string) : gmap string string :=
  match PyStr.split_colon item with
  | Some (key, val) => <[PyStr.lower (PyStr.strip key) := PyStr.strip val]> result
  | None => result
  end.

Lemma step_lookup k item m :
  step m item !! k
  = match value_for k item with Some v => Some v | None => m !! k end.
Proof.
  unfold value_for, evidence_entry, step, normal_key.
  destruct (PyStr.split_colon item) as [[key val]|]; [|reflexivity].
  destruct (decide (PyStr.lower (PyStr.strip key) = k)) as [<-|Hne].
  - apply lookup_insert_eq.
  - now rewrite lookup_insert_ne.
Qed.

Lemma fold_step_lookup k ev : forall m,
  fold_left step ev m !! k
  = match last (omap (value_for k) ev) with
    | Some v => Some v
    | None => m !! k
    end.
Proof.
  induction ev as [|item ev IH]; intros m; [reflexivity|].
  change (fold_left step (item :: ev) m) with (fold_left step ev (step m item)).
  rewrite IH, step_lookup.
  change (omap (value_for k) (item :: ev))
    with (match value_for k item with
          | Some v => v :: omap (value_for k) ev
          | None => omap (value_for k) ev
          end).
  destruct (value_for k item) as [v|]; [|reflexivity].
  destruct (omap (value_for k) ev) as [|v0 l]; [reflexivity|].
  rewrite last_cons_cons.
  destruct (last (v0 :: l)) eqn:L; [reflexivity|].
  apply last_None in L. discriminate.
Qed.

Lemma parse_evidence_last k ev :
  parse_evidence ev !! k = last (omap (value_for k) ev).
Proof.
  unfold parse_evidence. fold step. rewrite fold_step_lookup, lookup_empty.
  now destruct (last _).
Qed.

Lemma value_for_normal k item v :
  value_for k item = Some v -> normal_key k = k /\ PyStr.strip v = v.
Proof.
  unfold value_for, evidence_entry.
  destruct (PyStr.split_colon item) as [[key val]|]; [|discriminate].
  destruct (decide _) as [<-|]; [|discriminate].
  intros H. injection H as <-. split; [apply normal_key_idem|apply strip_idem].
Qed.

Lemma last_omap_Some {A B} (f : A -> option B) (l : list A) (y : B) :
  last (omap f l) = Some y -> exists x, In x l /\ f x = Some y.
Proof.
  intros H. apply last_Some in H as [l' Hl'].
  assert (Hin : y ∈ omap f l) by (rewrite Hl'; set_solver).
  apply list_elem_of_omap in Hin as (x & Hx & Hf).
  exists x. split; [now apply list_elem_of_In|exact Hf].
Qed.

Lemma last_omap_None {A B} (f : A -> option B) (l : list A) :
  (forall x, In x l -> f x = None) -> last (omap f l) = None.
Proof.
  intros H. apply last_None. induction l as [|a l IH]; [reflexivity|].
  change (omap f (a :: l))
    with (match f a with Some y => y :: omap f l | None => omap f l end).
  rewrite (H a) by now left. apply IH. intros x Hx. apply H. now right.
Qed.

End EvidenceFacts.

(** X14.  The parsed evidence gives, for every key, the trimmed value of the
    last item written for that key, and nothing when no item is written
    for it; an item is written for the trimmed, lower-cased text before its
    first colon, and an item without a colon is written for no key. *)
Theorem X14_evidence_last_item_wins (ev : list string) (k : string) :
  Main.parse_evidence ev !! k = last (omap (value_for k) ev).
Proof. apply parse_evidence_last. Qed.

(** X15.  Every key of the parsed evidence is trimmed and in lower case and
    every value is trimmed, and each comes from an item of the evidence;
    so a key with an upper-case letter or with white space around it is
    never found. *)
Theorem X15_evidence_keys_are_normalised (ev : list string) (k v : string) :
  Main.parse_evidence ev !! k = Some v ->
  PyStr.lower (PyStr.strip k) = k
  /\ PyStr.strip v = v
  /\ exists item key val,
       In item ev /\ PyStr.split_colon item = Some (key, val)
       /\ PyStr.lower (PyStr.strip key) = k /\ PyStr.strip val = v.
Proof.
  rewrite parse_evidence_last. intros H.
  destruct (last_omap_Some _ _ _ H) as (item & Hin & Hv).
  destruct (value_for_normal _ _ _ Hv) as [Hk Hs].
  split; [exact Hk|]. split; [exact Hs|].
  unfold value_for, evidence_entry in Hv.
  destruct (PyStr.split_colon item) as [[key val]|] eqn:E; [|discriminate].
  destruct (decide _) as [Hkey|]; [|discriminate]. injection Hv as Hval.
  exists item, key, val. repeat split; assumption.
Qed.

Lemma X15_evidence_keys_are_normalised_witness :
  PyStr.lower (PyStr.strip "quantity") = "quantity" /\ PyStr.strip "30x" = "30x".
Proof.
  destruct (X15_evidence_keys_are_normalised
              ["Medicine: Aspirin"; " QuanTity : 30x "] "quantity" "30x")
    as (H1 & H2 & _); [vm_compute; reflexivity|].
  split; assumption.
Defined.

(** X16.  Writing and reading evidence is a round trip: an item made of a
    key without a colon, a colon and a value, put last, is read back under
    the trimmed lower-case key with the trimmed value, colons inside the
    value included. *)
Theorem X16_evidence_round_trip (ev : list string) (key val : string) :
  PyStr.contains ":" key = false ->
  Main.parse_evidence (ev ++ [key +:+ ":" +:+ val])
    !! PyStr.lower (PyStr.strip key)
  = Some (PyStr.strip val).
Proof.
  intros Hk. rewrite parse_evidence_last, omap_app.
  unfold value_for at 2. unfold evidence_entry.
  change (omap ?f [?x]) with (match f x with Some y => [y] | None => [] end).
  unfold value_for, evidence_entry.
  rewrite (split_colon_join key val Hk). unfold normal_key.
  rewrite decide_True by reflexivity. apply last_snoc.
Qed.

Lemma X16_evidence_round_trip_witness :
  Main.parse_evidence (["Stock: 5"] ++ ["Note" +:+ ":" +:+ " take at 8:30 "])
    !! "note" = Some "take at 8:30".
Proof.
  apply (X16_evidence_round_trip ["Stock: 5"] "Note" " take at 8:30 ").
  reflexivity.
Defined.

Section QuantityReading.

Import PyStr.

Lemma lstrip_int_lskip u : lstrip (int_lskip u) = lstrip u.
Proof.
  induction u as [|c r IH]; [reflexivity|]. simpl.
  destruct (is_int_space c) eqn:E; [|reflexivity].
  now rewrite (int_space_is_space c E).
Qed.

Lemma rstrip_int_rskip v : rstrip (int_rskip v) = rstrip v.
Proof.
  induction v as [|c r IH]; [reflexivity|].
  change (int_rskip (String c r))
    with (match int_rskip r with
          | EmptyString => if is_int_space c then EmptyString else String c EmptyString
          | r' => String c r'
          end).
  change (rstrip (String c r))
    with (match rstrip r with
          | EmptyString => if is_space c then EmptyString else String c EmptyString
          | r' => String c r'
          end).
  rewrite <- IH.
  destruct (int_rskip r) as [|c' r'] eqn:E.
  - simpl. destruct (is_int_space c) eqn:Hc.
    + now rewrite (int_space_is_space c Hc).
    + reflexivity.
  - reflexivity.
Qed.

Lemma int_rskip_head v c x : int_rskip v = String c x -> exists y, v = String c y.
Proof.
  destruct v as [|c0 r]; [discriminate|]. simpl.
  destruct (int_rskip r); [destruct (is_int_space c0); [discriminate|]|];
    intros H; injection H as -> _; eauto.
Qed.

Lemma rskip_signed (skip : string -> string) c r :
  skip r = r -> r <> EmptyString ->
  match skip r with
  | EmptyString => String c EmptyString
  | r' => String c r'
  end = String c r.
Proof. intros -> Hne. destruct r; [congruence|reflexivity]. Qed.

(** What [int] reads is what [strip()] leaves: a text from which [int]
    reads a number is read as the same number once stripped. *)
Lemma int_trimmed u n : PyStr.int u = Some n -> PyStr.int (strip u) = Some n.
Proof.
  intros H.
  assert (Hclean : exists c r,
            int_rskip (int_lskip u) = String c r
            /\ is_space c = false
            /\ rstrip (String c r) = String c r
            /\ int_rskip (String c r) = String c r).
  { unfold PyStr.int in H.
    destruct (int_rskip (int_lskip u)) as [|c r] eqn:E; [discriminate|].
    exists c, r. split; [reflexivity|].
    assert (Hsign : forall m, read_number r = Some m ->
              is_space c = false ->
              is_space c = false
              /\ rstrip (String c r) = String c r
              /\ int_rskip (String c r) = String c r).
    { intros m R Hc. apply read_number_Some in R.
      destruct (read_digits_ends _ _ _ _ R) as (Hi & Hs & Hne).
      specialize (Hne eq_refl). split; [exact Hc|]. split.
      - simpl. rewrite Hs, Hc. now destruct r.
      - simpl. rewrite Hi, (not_space_not_int_space c Hc). now destruct r. }
    destruct (Ascii.eqb_spec c "-") as [->|Hm].
    { destruct (read_number r) as [m|] eqn:R; [|discriminate].
      exact (Hsign m eq_refl eq_refl). }
    destruct (Ascii.eqb_spec c "+") as [->|Hp].
    { exact (Hsign n H eq_refl). }
    apply read_number_Some in H.
    pose proof (digit_not_space c (read_digits_head _ _ _ _ H)) as Hc.
    destruct (read_digits_ends _ _ _ _ H) as (Hi & Hs & _).
    split; [exact Hc|]. split; assumption. }
  destruct Hclean as (c & r & E & Hc & Hs & Hi).
  assert (Hstrip : strip u = String c r).
  { unfold strip. destruct (int_rskip_head _ _ _ E) as [y Hy].
    assert (Hl : lstrip u = int_lskip u).
    { rewrite <- lstrip_int_lskip, Hy. simpl. now rewrite Hc. }
    now rewrite Hl, <- rstrip_int_rskip, E. }
  rewrite Hstrip. unfold PyStr.int in *.
  change (int_lskip (String c r))
    with (if is_int_space c then int_lskip r else String c r).
  rewrite (not_space_not_int_space c Hc), Hi. now rewrite E in H.
Qed.

Lemma remove_x_digits s : all_digits s = true -> remove_x s = s.
Proof.
  induction s as [|c r IH]; simpl; [reflexivity|]. intros H.
  apply andb_true_iff in H as [Hc Hr]. rewrite (IH Hr).
  destruct (Ascii.eqb_spec c "x") as [->|_]; [discriminate Hc|reflexivity].
Qed.

Lemma strip_minus_digits d :
  d <> EmptyString -> all_digits d = true -> strip (String "-" d) = String "-" d.
Proof.
  intros Hne H. unfold strip.
  change (lstrip (String "-" d)) with (String "-" d).
  change (rstrip (String "-" d))
    with (match rstrip d with
          | EmptyString => String "-" EmptyString
          | r' => String "-" r'
          end).
  rewrite (rstrip_digits d H). destruct d; [congruence|reflexivity].
Qed.

Lemma digit_value_pos c :
  is_digit c = true -> Ascii.eqb c "0" = false -> 0 < digit_value c.
Proof.
  intros H H0.
  destruct c as [[] [] [] [] [] [] [] []]; try discriminate H; try discriminate H0;
    reflexivity.
Qed.

Lemma digit_value_zero c : Ascii.eqb c "0" = true -> digit_value c = 0.
Proof. intros H. apply Ascii.eqb_eq in H. now subst. Qed.

Lemma read_digits_pos s : forall prev acc n,
  all_digits s = true -> 0 <= acc -> read_digits s prev acc = Some n ->
  0 < acc \/ has_nonzero s = true -> 0 < n.
Proof.
  induction s as [|c r IH]; intros prev acc n Hd Hacc H Hpos.
  - simpl in H. destruct prev; [|discriminate]. injection H as <-.
    destruct Hpos as [Hpos|Hpos]; [exact Hpos|discriminate].
  - simpl in Hd. apply andb_true_iff in Hd as [Hc Hr].
    simpl in H. rewrite Hc in H.
    pose proof (digit_value_nonneg c Hc) as Hv.
    apply (IH _ _ _ Hr) in H; [exact H|lia|].
    destruct Hpos as [Hpos|Hpos]; [left; lia|].
    simpl in Hpos. destruct (Ascii.eqb c "0") eqn:E0; simpl in Hpos.
    + now right.
    + left. pose proof (digit_value_pos c Hc E0). lia.
Qed.

Lemma read_digits_zero s : forall prev n,
  has_nonzero s = false -> read_digits s prev 0 = Some n -> n = 0.
Proof.
  induction s as [|c r IH]; intros prev n Hz H.
  - simpl in H. destruct prev; [|discriminate]. now injection H as <-.
  - simpl in Hz. apply orb_false_iff in Hz as [Hc Hr].
    apply negb_false_iff in Hc. simpl in H.
    pose proof (Ascii.eqb_eq c "0") as [Heq _]. rewrite (Heq Hc) in H.
    simpl in H. now apply (IH true).
Qed.

End QuantityReading.

Section HandoffSteps.

Import Main.

Variable inventory_agent_run : nat -> string -> Z -> AgentDecision.
Variable policy_agent_run : nat -> string -> Z -> bool -> AgentDecision.
Variable refill_prediction_agent_run : nat -> AgentDecision.
Variable place_order : nat -> string -> string -> Z -> option string.

Let step := handoff_step inventory_agent_run policy_agent_run
              refill_prediction_agent_run place_order.

Lemma step_inventory hop cur data qty :
  next_agent cur = Some "InventoryAgent" ->
  quantity_or_raise data = Some qty ->
  let nd := inventory_agent_run hop (default "" (data !! "medicine")) qty in
  verdict nd <> REJECTED ->
  step hop cur data = Next nd (parse_evidence (evidence nd) ∪ data).
Proof.
  intros Hn Hq nd Hv. unfold step, handoff_step. rewrite Hn. cbn [truthy_str].
  rewrite decide_True by reflexivity. rewrite Hq. fold nd.
  now rewrite decide_False by exact Hv.
Qed.

Lemma step_policy hop cur data qty :
  next_agent cur = Some "PolicyAgent" ->
  quantity_or_raise data = Some qty ->
  let nd := policy_agent_run hop (default "" (data !! "medicine")) qty
              (PyStr.contains "yes"
                 (PyStr.lower (default "no" (data !! "requires prescription")))) in
  verdict nd <> REJECTED ->
  step hop cur data = Next nd data.
Proof.
  intros Hn Hq nd Hv. unfold step, handoff_step. rewrite Hn. cbn [truthy_str].
  rewrite decide_False by discriminate. rewrite decide_True by reflexivity.
  rewrite Hq. fold nd. now rewrite decide_False by exact Hv.
Qed.

Lemma step_fulfillment hop cur data qty :
  next_agent cur = Some "FulfillmentAgent" ->
  quantity_or_default data = Some qty ->
  step hop cur data
  = Return (Replied
              match place_order hop (default "Generic Medicine" (data !! "medicine"))
                      (default "Unknown" (data !! "strength")) qty with
              | Some oid => OrderPlaced oid
              | None => PlaceOrderError
              end).
Proof.
  intros Hn Hq. unfold step, handoff_step. rewrite Hn. cbn [truthy_str].
  rewrite !decide_False by discriminate. rewrite decide_True by reflexivity.
  rewrite Hq. now destruct (place_order _ _ _ _).
Qed.

Lemma step_unknown hop cur data :
  (forall name, truthy_str (next_agent cur) = Some name ->
     name <> "InventoryAgent" /\ name <> "PolicyAgent"
     /\ name <> "RefillPredictionAgent" /\ name <> "FulfillmentAgent") ->
  step hop cur data = Exit.
Proof.
  intros H. unfold step, handoff_step.
  destruct (truthy_str (next_agent cur)) as [name|]; [|reflexivity].
  destruct (H name eq_refl) as (H1 & H2 & H3 & H4).
  now rewrite !decide_False by assumption.
Qed.

End HandoffSteps.

(** X17.  When no item of the evidence is written for the key "quantity"
    (an item "Qty: 3" is not), the inventory and policy branches take the
    quantity to be 30 and the fulfilment branch takes it to be 1. *)
Theorem X17_missing_quantity_defaults_differ (ev : list string) :
  (forall item, In item ev -> value_for "quantity" item = None) ->
  Main.quantity_or_raise (Main.parse_evidence ev) = Some 30
  /\ Main.quantity_or_default (Main.parse_evidence ev) = Some 1.
Proof.
  intros H.
  assert (Hnone : Main.parse_evidence ev !! "quantity" = None).
  { rewrite parse_evidence_last. now apply last_omap_None. }
  unfold Main.quantity_or_raise, Main.quantity_or_default. rewrite Hnone.
  split; reflexivity.
Qed.

Lemma X17_missing_quantity_defaults_differ_witness :
  Main.quantity_or_raise
    (Main.parse_evidence ["Medicine: Amoxicillin"; "Strength: 500mg"; "Qty: 3"])
  = Some 30
  /\ Main.quantity_or_default
       (Main.parse_evidence ["Medicine: Amoxicillin"; "Strength: 500mg"; "Qty: 3"])
     = Some 1.
Proof.
  apply (X17_missing_quantity_defaults_differ
           ["Medicine: Amoxicillin"; "Strength: 500mg"; "Qty: 3"]).
  intros item [<-|[<-|[<-|[]]]]; reflexivity.
Defined.

(** X18.  Along the chain inventory, policy, fulfilment, when neither the
    first decision nor the inventory agent writes a quantity, both checks
    are made for 30 units and the order is then placed for 1 unit. *)
Theorem X18_checked_for_thirty_ordered_one
    (inventory_agent_run : nat -> string -> Z -> AgentDecision)
    (policy_agent_run : nat -> string -> Z -> bool -> AgentDecision)
    (refill_prediction_agent_run : nat -> AgentDecision)
    (place_order : nat -> string -> string -> Z -> option string)
    (decision : AgentDecision) (extra : nat) :
  let data0 := Main.parse_evidence (evidence decision) in
  let d1 := inventory_agent_run 0%nat (default "" (data0 !! "medicine")) 30 in
  let data1 := Main.parse_evidence (evidence d1) ∪ data0 in
  let d2 := policy_agent_run 1%nat (default "" (data1 !! "medicine")) 30
              (PyStr.contains "yes"
                 (PyStr.lower (default "no" (data1 !! "requires prescription")))) in
  verdict decision <> NEEDS_INFO -> verdict decision <> REJECTED ->
  next_agent decision = Some "InventoryAgent" ->
  data0 !! "quantity" = None ->
  verdict d1 <> REJECTED -> next_agent d1 = Some "PolicyAgent" ->
  Main.parse_evidence (evidence d1) !! "quantity" = None ->
  verdict d2 <> REJECTED -> next_agent d2 = Some "FulfillmentAgent" ->
  Main.chat inventory_agent_run policy_agent_run refill_prediction_agent_run
    place_order (3 + extra) decision
  = Some (Replied
            match place_order 2%nat (default "Generic Medicine" (data1 !! "medicine"))
                    (default "Unknown" (data1 !! "strength")) 1 with
            | Some oid => OrderPlaced oid
            | None => PlaceOrderError
            end).
Proof.
  intros data0 d1 data1 d2 Hv1 Hv2 Hn0 Hq0 Hr1 Hn1 Hq1 Hr2 Hn2.
  assert (Hraise0 : Main.quantity_or_raise data0 = Some 30)
    by (unfold Main.quantity_or_raise; now rewrite Hq0).
  assert (Hq1' : data1 !! "quantity" = None).
  { unfold data1. apply lookup_union_None. split; assumption. }
  assert (Hraise1 : Main.quantity_or_raise data1 = Some 30)
    by (unfold Main.quantity_or_raise; now rewrite Hq1').
  assert (Hdef1 : Main.quantity_or_default data1 = Some 1)
    by (unfold Main.quantity_or_default; now rewrite Hq1').
  unfold Main.chat. rewrite !decide_False by assumption. fold data0.
  change (3 + extra)%nat with (S (S (S extra))).
  cbn [Main.handoff_loop].
  rewrite (step_inventory _ _ _ _ 0%nat decision data0 30 Hn0 Hraise0 Hr1).
  fold d1 data1.
  rewrite (step_policy _ _ _ _ 1%nat d1 data1 30 Hn1 Hraise1 Hr2).
  fold d2.
  rewrite (step_fulfillment _ _ _ _ 2%nat d2 data1 1 Hn2 Hdef1).
  reflexivity.
Qed.

Lemma X18_checked_for_thirty_ordered_one_witness :
  Main.chat Samples.inventory_ok Samples.policy_ok Samples.refill_none
    Samples.place_ok 3
    (Samples.hand_to "InventoryAgent"
       ["Medicine: Amoxicillin"; "Strength: 500mg"; "Qty: 3"])
  = Some (Replied (OrderPlaced "ORD-7")).
Proof.
  apply (X18_checked_for_thirty_ordered_one Samples.inventory_ok Samples.policy_ok
           Samples.refill_none Samples.place_ok
           (Samples.hand_to "InventoryAgent"
              ["Medicine: Amoxicillin"; "Strength: 500mg"; "Qty: 3"]) 0);
    try discriminate; vm_compute; reflexivity.
Defined.

(** X19.  On a quantity that the fulfilment branch takes for digits, the
    inventory and policy branches never read another number: either they
    raise, or all three read the same number, which is not negative.  They
    raise where the fulfilment branch reads a number when one of the
    separators U+001C to U+001F stands beside the digits: [strip()] removes
    it and [int] does not accept it. *)
Theorem X19_branches_agree_on_digits
    (extracted_data : gmap string string) (v : string) :
  extracted_data !! "quantity" = Some v ->
  PyStr.isdigit (PyStr.strip (PyStr.remove_x v)) = true ->
  Main.quantity_or_raise extracted_data = None
  \/ exists n, Main.quantity_or_raise extracted_data = Some n
               /\ Main.quantity_or_default extracted_data = Some n
               /\ 0 <= n.
Proof.
  intros Hv Hd. unfold Main.quantity_or_raise, Main.quantity_or_default.
  rewrite Hv. change (default "1" (Some v)) with v. rewrite Hd.
  destruct (PyStr.int (PyStr.remove_x v)) as [n|] eqn:E; [right|now left].
  exists n. split; [reflexivity|].
  pose proof (int_trimmed _ _ E) as Ht. split; [exact Ht|].
  rewrite (int_isdigit _ Hd) in Ht. exact (read_number_nonneg _ _ Ht).
Qed.

Lemma X19_branches_agree_on_digits_witness :
  Main.quantity_or_raise {[ "quantity" := "30 x" ]} = None
  \/ exists n, Main.quantity_or_raise {[ "quantity" := "30 x" ]} = Some n
               /\ Main.quantity_or_default {[ "quantity" := "30 x" ]} = Some n
               /\ 0 <= n.
Proof.
  apply (X19_branches_agree_on_digits {[ "quantity" := "30 x" ]} "30 x").
  - reflexivity.
  - reflexivity.
Defined.

(** The quantity "3", the separator U+001C and "x": the fulfilment branch
    reads 3, the inventory and the policy branch raise. *)
Lemma separator_splits_the_branches :
  let v := String "3" (String "028" (String "x" EmptyString)) in
  PyStr.isdigit (PyStr.strip (PyStr.remove_x v)) = true
  /\ Main.quantity_or_default {[ "quantity" := v ]} = Some 3
  /\ Main.quantity_or_raise {[ "quantity" := v ]} = None.
Proof. vm_compute. repeat split. Qed.


(** The quantity written with the superscript two (U+00B2): [isdigit()]
    accepts it, [int] raises, and the fulfilment branch ends with the
    error reply whatever the collaborators are. *)
Lemma superscript_quantity_raises
    (inventory_agent_run : nat -> string -> Z -> AgentDecision)
    (policy_agent_run : nat -> string -> Z -> bool -> AgentDecision)
    (refill_prediction_agent_run : nat -> AgentDecision)
    (place_order : nat -> string -> string -> Z -> option string)
    (fuel : nat) :
  let ev := ["Medicine: Aspirin";
             "Quantity: " +:+ String "178" EmptyString] in
  PyStr.isdigit (String "178" EmptyString) = true
  /\ Main.quantity_or_default (Main.parse_evidence ev) = None
  /\ Main.chat inventory_agent_run policy_agent_run refill_prediction_agent_run
       place_order (S fuel) (Samples.hand_to "FulfillmentAgent" ev)
     = Some (Replied PlaceOrderError).
Proof.
  intros ev.
  assert (Hdef : Main.quantity_or_default (Main.parse_evidence ev) = None)
    by (vm_compute; reflexivity).
  split; [reflexivity|]. split; [exact Hdef|].
  unfold Main.chat. simpl verdict. simpl evidence. fold ev.
  simpl. unfold Main.handoff_step. simpl. now rewrite Hdef.
Qed.

(** X21.  A quantity written as a minus sign and decimal digits, at most
    4300 of them, reaches the inventory and the policy agent as minus the
    number the digits spell, which is negative unless every digit is 0,
    while the fulfilment branch takes 1. *)
Theorem X21_negative_quantity
    (extracted_data : gmap string string) (d : string) :
  extracted_data !! "quantity" = Some (String "-" d) ->
  d <> EmptyString ->
  PyStr.all_digits d = true ->
  (String.length d <= PyStr.int_max_str_digits)%nat ->
  exists n, PyStr.int d = Some n
            /\ Main.quantity_or_raise extracted_data = Some (- n)
            /\ (has_nonzero d = true -> - n < 0)
            /\ (has_nonzero d = false -> n = 0)
            /\ Main.quantity_or_default extracted_data = Some 1.
Proof.
  intros Hv Hne Hd Hlen.
  destruct (read_number_digits d Hne Hd Hlen) as (n & Hn & Hpos).
  assert (Hi : PyStr.isdigit d = true).
  { destruct d; [congruence|]. now apply all_digits_isdigit. }
  exists n. split; [now rewrite (int_isdigit _ Hi)|].
  assert (Hrx : PyStr.remove_x (String "-" d) = String "-" d).
  { change (PyStr.remove_x (String "-" d)) with (String "-" (PyStr.remove_x d)).
    now rewrite remove_x_digits. }
  unfold Main.quantity_or_raise, Main.quantity_or_default.
  rewrite Hv. change (default "1" (Some (String "-" d))) with (String "-" d).
  rewrite Hrx, (strip_minus_digits d Hne Hd).
  split; [|split; [|split]].
  - rewrite (int_signed "-" d (or_introl eq_refl)
               (all_isdigit_rskip d (all_digits_isdigit d Hd)) Hne).
    cbn [Ascii.eqb]. simpl. now rewrite Hn.
  - intros Hnz. apply read_number_Some in Hn.
    pose proof (read_digits_pos d false 0 n Hd ltac:(lia) Hn (or_intror Hnz)). lia.
  - intros Hz. apply read_number_Some in Hn.
    exact (read_digits_zero d false n Hz Hn).
  - reflexivity.
Qed.

Lemma X21_negative_quantity_witness :
  Main.quantity_or_raise {[ "quantity" := "-5" ]} = Some (-5)
  /\ Main.quantity_or_default {[ "quantity" := "-5" ]} = Some 1.
Proof.
  destruct (X21_negative_quantity ({[ "quantity" := "-5" ]} : gmap string string)
              "5" (lookup_singleton_eq _ _) ltac:(discriminate) eq_refl
              ltac:(vm_compute; lia))
    as (n & Hn & H1 & _ & _ & H2).
  vm_compute in Hn. injection Hn as <-. split; assumption.
Defined.

(** X22.  When the first decision is neither NEEDS_INFO nor REJECTED and
    names no agent, or one the router does not know, no collaborator is
    called: if the evidence names a medicine the answer is the "in stock,
    safety checks passed, reply confirm" message, built from the evidence
    alone, and otherwise it is the decision's reason. *)
Theorem X22_unknown_agent_ends_with_good_news
    (inventory_agent_run : nat -> string -> Z -> AgentDecision)
    (policy_agent_run : nat -> string -> Z -> bool -> AgentDecision)
    (refill_prediction_agent_run : nat -> AgentDecision)
    (place_order : nat -> string -> string -> Z -> option string)
    (decision : AgentDecision) (fuel : nat) :
  verdict decision <> NEEDS_INFO -> verdict decision <> REJECTED ->
  (forall name, Main.truthy_str (next_agent decision) = Some name ->
     name <> "InventoryAgent" /\ name <> "PolicyAgent"
     /\ name <> "RefillPredictionAgent" /\ name <> "FulfillmentAgent") ->
  let data := Main.parse_evidence (evidence decision) in
  Main.chat inventory_agent_run policy_agent_run refill_prediction_agent_run
    place_order (S fuel) decision
  = Some match data !! "medicine" with
         | Some med =>
             Replied (GoodNews (default "30" (data !! "quantity")) med
                        (default "0.50" (data !! "price")))
         | None => Replied (Say (ad_reason decision))
         end.
Proof.
  intros Hv1 Hv2 Hname data. unfold Main.chat.
  rewrite !decide_False by assumption. fold data. cbn [Main.handoff_loop].
  rewrite (step_unknown _ _ _ _ 0%nat decision data Hname).
  unfold Main.after_loop. now destruct (data !! "medicine").
Qed.

Lemma X22_unknown_agent_ends_with_good_news_witness :
  Main.chat Samples.inventory_ok Samples.policy_ok Samples.refill_none
    Samples.place_ok 1 (Samples.hand_to "None" ["Medicine: Aspirin"])
  = Some (Replied (GoodNews "30" "Aspirin" "0.50")).
Proof.
  apply (X22_unknown_agent_ends_with_good_news Samples.inventory_ok
           Samples.policy_ok Samples.refill_none Samples.place_ok
           (Samples.hand_to "None" ["Medicine: Aspirin"]) 0); try discriminate.
  intros name H. injection H as <-. repeat split; discriminate.
Defined.

(** * Further properties of the refill agent and of the extraction *)

Section PredictFacts.

Import RefillAgent.

Lemma fallback_from_nil clock history : forall i,
  fallback_from clock i history = []
  <-> Forall (fun med => h_purchase_date med = None) history.
Proof.
  induction history as [|med history IH]; intros i; simpl.
  - split; [constructor|reflexivity].
  - unfold fallback_one. destruct (h_purchase_date med) as [bought|] eqn:E.
    + split; [discriminate|]. intros H. inversion H; congruence.
    + rewrite IH. split; [now constructor|]. intros H. now inversion H.
Qed.

End PredictFacts.

(** X23.  The prediction falls back on the deterministic calculation
    whenever the reasoning service fails or returns no prediction, and
    hands on a non-empty answer unchanged; so it returns an empty list
    exactly when the service gave nothing and no entry of the history has
    a purchase date. *)
Theorem X23_predict_falls_back
    (clock : nat -> Z) (answer : option (list RefillPrediction))
    (history : list MedicationRecord) :
  (forall p ps, answer = Some (p :: ps) ->
     RefillAgent.predict clock answer history = p :: ps)
  /\ (answer = None \/ answer = Some [] ->
      RefillAgent.predict clock answer history
      = RefillAgent._fallback_calculation clock history)
  /\ (RefillAgent.predict clock answer history = []
      <-> (answer = None \/ answer = Some [])
          /\ Forall (fun med => h_purchase_date med = None) history).
Proof.
  split; [intros p ps ->; reflexivity|].
  split; [intros [->| ->]; reflexivity|].
  unfold RefillAgent.predict, RefillAgent._fallback_calculation.
  destruct answer as [[|p ps]|]; rewrite ?fallback_from_nil.
  - split; [intros H; split; [now right|exact H]|intros [_ H]; exact H].
  - split; [discriminate|]. intros [[H|H] _]; discriminate.
  - split; [intros H; split; [now left|exact H]|intros [_ H]; exact H].
Qed.

Lemma X23_predict_falls_back_witness :
  RefillAgent.predict (fun _ => 26 * RefillAgent.day - 1) (Some [])
    [ {| h_medicine_name := Some "X"; h_supply_days := Some 30;
         h_purchase_date := Some 0 |} ]
  = RefillAgent._fallback_calculation (fun _ => 26 * RefillAgent.day - 1)
      [ {| h_medicine_name := Some "X"; h_supply_days := Some 30;
           h_purchase_date := Some 0 |} ].
Proof.
  destruct (X23_predict_falls_back (fun _ => 26 * RefillAgent.day - 1) (Some [])
              [ {| h_medicine_name := Some "X"; h_supply_days := Some 30;
                   h_purchase_date := Some 0 |} ]) as (_ & H & _).
  apply H. now right.
Defined.

(** X24.  For one history entry the fallback never gives more days as time
    passes: a later reading of the clock gives at most as many days
    remaining, and a reminder once due stays due.  Once the days since the
    purchase reach the supply, the days remaining are 0 (never negative)
    and the action is REMIND. *)
Theorem X24_fallback_counts_down
    (med : MedicationRecord) (now later bought : Z) (p q : RefillPrediction) :
  now <= later ->
  h_purchase_date med = Some bought ->
  RefillAgent.fallback_one now med = Some p ->
  RefillAgent.fallback_one later med = Some q ->
  days_remaining q <= days_remaining p
  /\ (action p = "REMIND" -> action q = "REMIND")
  /\ (default 30 (h_supply_days med) <= RefillAgent.days_since now bought ->
      days_remaining p = 0 /\ action p = "REMIND").
Proof.
  intros Hle Hb Hp Hq. unfold RefillAgent.fallback_one in Hp, Hq.
  rewrite Hb in Hp, Hq. injection Hp as <-. injection Hq as <-. simpl.
  assert (Hdiv : RefillAgent.days_since now bought
                 <= RefillAgent.days_since later bought).
  { unfold RefillAgent.days_since. apply Z.div_le_mono; [reflexivity|lia]. }
  set (s := default 30 (h_supply_days med)) in *.
  set (d1 := RefillAgent.days_since now bought) in *.
  set (d2 := RefillAgent.days_since later bought) in *.
  split; [lia|]. split.
  - destruct (Z.leb_spec (Z.max 0 (s - d1)) 5); [|discriminate].
    intros _. destruct (Z.leb_spec (Z.max 0 (s - d2)) 5); [reflexivity|lia].
  - intros H. replace (Z.max 0 (s - d1)) with 0 by lia. split; reflexivity.
Qed.

Lemma X24_fallback_counts_down_witness :
  5 <= 10 /\ ("NONE" = "REMIND" -> "REMIND" = "REMIND").
Proof.
  pose (med := {| h_medicine_name := Some "X"; h_supply_days := Some 30;
                  h_purchase_date := Some 0 |}).
  destruct (X24_fallback_counts_down med (20 * RefillAgent.day)
              (25 * RefillAgent.day) 0
              {| rp_medicine := "X"; days_remaining := 10; action := "NONE";
                 confidence := PyFloat.one;
                 reason := "Deterministic calculation" |}
              {| rp_medicine := "X"; days_remaining := 5; action := "REMIND";
                 confidence := PyFloat.one;
                 reason := "Deterministic calculation" |})
    as (H1 & H2 & _); try reflexivity; [vm_compute; discriminate|].
  split; [exact H1|exact H2].
Defined.

Section ExtractionFacts.

Import Orchestrator.

Lemma single_item_evaluation (e : ExtractedEntity) (m : Medicine) :
  discontinued m = false ->
  SafetyAgent.requested_qty (Some e) <= stock_level m ->
  SafetyAgent.requested_qty (Some e) <= max_quantity_per_order m ->
  let sr := SafetyAgent.evaluate [e] [m] false in
  allowed_quantity sr = None /\ decision sr <> REJECT.
Proof.
  intros Hd Hs Hm sr.
  assert (Hreq : 1 <= SafetyAgent.requested_qty (Some e)).
  { simpl. destruct (Z.ltb_spec 0 (quantity e)); lia. }
  split.
  - unfold sr, SafetyAgent.evaluate, SafetyAgent._perform_safety_checks.
    cbn [allowed_quantity SafetyAgent.check_loop]. cbn [lookup list_lookup].
    rewrite check_item_cap by (trivial; lia). cbv zeta.
    destruct (Z.ltb_spec (stock_level m) (SafetyAgent.requested_qty (Some e)));
      [lia|].
    destruct (Z.ltb_spec (max_quantity_per_order m)
                (SafetyAgent.requested_qty (Some e))); [lia|reflexivity].
  - unfold sr, SafetyAgent.evaluate.
    rewrite decision_by_priority by discriminate.
    assert (Hb : forallb is_blocked [m] = false).
    { simpl. unfold is_blocked. rewrite Hd.
      destruct (Z.eqb_spec (stock_level m) 0); [lia|reflexivity]. }
    rewrite Hb.
    match goal with |- (if ?b then _ else _) <> _ => destruct b end; discriminate.
Qed.

(** The default quantity is a float: its conversion does not raise. *)
Lemma of_int_thirty : exists q, PyFloat.of_int 30 = Some q.
Proof. vm_compute. eexists. reflexivity. Qed.

End ExtractionFacts.

(** X25.  What the pipeline makes of the gaps of an extraction.  When the call
    of the extraction service raises, the order turn answers with the
    request to rephrase, error text included, builds no preview and leaves
    the stores as they are.  When the service returns one entity without
    a quantity (or with one that is not positive) and the catalog match can
    supply 30, the turn does not ask for the quantity: it prepares a preview
    of 30 units of the match. *)
Theorem X25_extraction_gaps
    (search : string -> list Medicine) (uuid8 : string) (request : ChatRequest)
    (patient : Patient) (st : Orchestrator.state) :
  (forall err,
     Orchestrator._handle_order search (ExtractionAgent.extract (inl err)) uuid8
       request patient st
     = Some
         ({| message :=
               Text ("I had trouble understanding your request. Could you please rephrase it? Error: "
                     +:+ err);
             extracted_entities := Some (ExtractionAgent.extract (inl err));
             safety_result := None; order_preview := None; order := None;
             requires_confirmation := false |}, st))
  /\ (forall args d m,
        ExtractionAgent.ta_needs_clarification args <> Some true ->
        ExtractionAgent.ta_entities args = Some [d] ->
        default 0 (ExtractionAgent.ed_quantity d) <= 0 ->
        Orchestrator.best_match search (ExtractionAgent.parse_entity d) = Some m ->
        discontinued m = false ->
        30 <= stock_level m -> 30 <= max_quantity_per_order m ->
        exists pv r st',
          Orchestrator._handle_order search (ExtractionAgent.extract (inr args))
            uuid8 request patient st = Some (r, st')
          /\ order_preview r = Some pv
          /\ map (fun it => (oi_medicine_id it, oi_quantity it)) (items pv)
             = [(medicine_id m, 30)]).
Proof.
  split; [reflexivity|].
  intros args d m Hnc Hents Hq Hbest Hd Hs Hm.
  set (e := ExtractionAgent.parse_entity d) in *.
  assert (Hreq : SafetyAgent.requested_qty (Some e) = 30).
  { simpl. destruct (Z.ltb_spec 0 (default 0 (ExtractionAgent.ed_quantity d)));
      [lia|reflexivity]. }
  destruct (single_item_evaluation e m Hd) as [Hcap Hrej]; [lia|lia|].
  unfold Orchestrator._handle_order, ExtractionAgent.extract.
  cbn [needs_clarification entities]. rewrite Hents.
  assert (Hflag : default false (ExtractionAgent.ta_needs_clarification args) = false).
  { destruct (ExtractionAgent.ta_needs_clarification args) as [[]|];
      [congruence|reflexivity|reflexivity]. }
  rewrite Hflag. cbn [default from_option id map].
  fold e.
  assert (Hmatch : Orchestrator.match_medicines search [e] = [m]).
  { unfold Orchestrator.match_medicines.
    change (omap (Orchestrator.best_match search) [e])
      with (match Orchestrator.best_match search e with
            | Some y => [y] | None => [] end).
    now rewrite Hbest. }
  rewrite Hmatch. cbn [nonempty negb].
  rewrite decide_False by exact Hrej.
  assert (Hitems : Orchestrator.build_items 0 [e] [m]
                     (allowed_quantity (SafetyAgent.evaluate [e] [m] false))
                   = [Orchestrator.make_item m 30]).
  { rewrite Hcap. cbn [Orchestrator.build_items lookup list_lookup].
    unfold Orchestrator.resolve_quantity. cbn [truthy].
    change (quantity e) with (default 0 (ExtractionAgent.ed_quantity d)).
    destruct (Z.ltb_spec 0 (default 0 (ExtractionAgent.ed_quantity d)));
      [lia|reflexivity]. }
  unfold Orchestrator.build_preview. rewrite Hitems.
  destruct of_int_thirty as [thirty Hthirty].
  unfold subtotal_of. cbn [sum_from]. unfold line_total.
  change (oi_quantity (Orchestrator.make_item m 30)) with 30.
  rewrite Hthirty. cbn [fmap option_fmap option_map].
  eexists _, _, _. split; [reflexivity|]. split; reflexivity.
Qed.

Lemma X25_extraction_gaps_witness :
  exists pv r st',
    Orchestrator._handle_order Samples.catalog
      (ExtractionAgent.extract
         (inr {| ExtractionAgent.ta_entities :=
                   Some [ {| ExtractionAgent.ed_medicine := Some "Paracetamol";
                             ExtractionAgent.ed_dosage := None;
                             ExtractionAgent.ed_quantity := None |} ];
                 ExtractionAgent.ta_needs_clarification := None;
                 ExtractionAgent.ta_clarification_message := None |}))
      "0000FFFF" (Samples.request "paracetamol") Samples.patient
      Orchestrator.empty_state = Some (r, st')
    /\ order_preview r = Some pv
    /\ map (fun it => (oi_medicine_id it, oi_quantity it)) (items pv)
       = [("MED-Paracetamol", 30)].
Proof.
  destruct (X25_extraction_gaps Samples.catalog "0000FFFF"
              (Samples.request "paracetamol") Samples.patient
              Orchestrator.empty_state) as [_ H].
  apply (H _ {| ExtractionAgent.ed_medicine := Some "Paracetamol";
                ExtractionAgent.ed_dosage := None;
                ExtractionAgent.ed_quantity := None |}
           (Samples.med "Paracetamol" 100 30)); try reflexivity;
    try discriminate; simpl; lia.
Defined.

(** * One turn of the orchestrator *)

Section TurnFacts.

Import Orchestrator Turn.

Variable search_medicine : string -> list Medicine.
Variable extraction : nat -> ExtractionResult.
Variable uuid order_id_for : nat -> string.
Variable refill_reply status_reply : nat -> ChatResponse.

Local Abbreviation tool := (run_tool search_medicine extraction uuid order_id_for
                          refill_reply status_reply).
Local Abbreviation tools := (run_tools search_medicine extraction uuid order_id_for
                           refill_reply status_reply).

(** The loop leaves a response, when it is not ended by an exception. *)
Definition answered (o : ran) : Prop :=
  match o with
  | Finished _ response => is_Some response
  | Raised _ => True
  end.

Lemma run_tool_offered i name request patient w resp :
  In name Tools.ALL_TOOLS -> answered (tool i name request patient w resp).
Proof.
  intros Hin. unfold run_tool.
  repeat match goal with
         | |- context [decide ?P] => destruct (decide P)
         end;
    try (destruct (_handle_order _ _ _ _ _ _) as [[? ?]|]; cbn [answered]; eauto);
    try (destruct (_handle_order_confirmation _ _ _ _ _) as [[[? ?] ?] ?];
         cbn [answered]; eauto);
    try (destruct (_handle_order_cancellation _ _) as [? ?]; cbn [answered]; eauto);
    try (cbn [answered]; eauto).
  exfalso. unfold Tools.ALL_TOOLS in Hin. cbn [In] in Hin. intuition congruence.
Qed.

Lemma run_tool_not_offered i name request patient w resp :
  ~ In name Tools.ALL_TOOLS -> tool i name request patient w resp = Finished w resp.
Proof.
  intros Hin. unfold run_tool. unfold Tools.ALL_TOOLS in Hin. cbn [In] in Hin.
  repeat match goal with
         | |- context [decide ?P] =>
             destruct (decide P); [exfalso; intuition congruence|]
         end.
  reflexivity.
Qed.

Lemma run_tools_offered request patient names : forall i w resp,
  Forall (fun n => In n Tools.ALL_TOOLS) names ->
  names <> [] \/ is_Some resp ->
  answered (tools i names request patient w resp).
Proof.
  induction names as [|n names IH]; intros i w resp Hall Hor.
  - destruct Hor as [H|H]; [congruence|exact H].
  - inversion Hall as [|? ? Hn Hrest]; subst. cbn [run_tools].
    pose proof (run_tool_offered i n request patient w resp Hn) as Hs.
    destruct (run_tool _ _ _ _ _ _ i n request patient w resp) as [w' r'|w'];
      [|exact I].
    apply IH; [exact Hrest|right; exact Hs].
Qed.

Lemma run_tools_not_offered request patient names : forall i w resp,
  Forall (fun n => ~ In n Tools.ALL_TOOLS) names ->
  tools i names request patient w resp = Finished w resp.
Proof.
  induction names as [|n names IH]; intros i w resp Hall; [reflexivity|].
  inversion Hall as [|? ? Hn Hrest]; subst. cbn [run_tools].
  pose proof (run_tool_not_offered i n request patient w resp Hn) as Hs.
  rewrite Hs. apply IH, Hrest.
Qed.

Lemma run_tool_order i request patient w resp :
  tool i "extract_order_details" request patient w resp
  = match _handle_order search_medicine (extraction i) (uuid i) request patient
            (w_stores w) with
    | Some (r, st') =>
        Finished {| w_stores := st'; w_orders := w_orders w; w_calls := w_calls w |}
          (Some r)
    | None => Raised w
    end.
Proof. reflexivity. Qed.

Lemma run_tool_confirm i request patient w resp :
  tool i "confirm_last_order" request patient w resp
  = (let '(r, st', orders', calls) :=
       _handle_order_confirmation (order_id_for i) request patient
         (w_stores w) (w_orders w) in
     Finished {| w_stores := st'; w_orders := orders';
                 w_calls := w_calls w ++ calls |} (Some r)).
Proof. reflexivity. Qed.

Lemma pending_of_stored (previews : gmap string OrderPreview)
    (contexts : gmap string string) sid pid pv :
  (exists c r, pid = String c r) ->
  pending_preview
    {| pending_previews := <[pid := pv]> previews;
       session_contexts := <[sid := pid]> contexts |} sid
  = Some (pid, pv).
Proof.
  intros (c & r & ->). unfold pending_preview.
  cbn [session_contexts pending_previews].
  rewrite lookup_insert_eq, lookup_insert_eq. reflexivity.
Qed.

Lemma confirm_pending oid request patient st orders pid pv :
  pending_preview st (session_of request) = Some (pid, pv) ->
  exists r orders' calls,
    _handle_order_confirmation oid request patient st orders
    = (r, {| pending_previews := delete pid (pending_previews st);
             session_contexts :=
               delete (session_of request) (session_contexts st) |},
       orders', calls)
    /\ requires_confirmation r = false
    /\ order_preview r = None
    /\ exists o s t d g, message r = OrderConfirmed o s t d g.
Proof.
  intros H. unfold _handle_order_confirmation. rewrite H.
  destruct (FulfillmentAgent.create_order _ _ _ _ _) as [o ords].
  eexists _, _, _. split; [reflexivity|].
  cbn [requires_confirmation order_preview message]. eauto 10.
Qed.

End TurnFacts.

(** X26.  The dispatcher of a turn answers exactly the tools it offers to the
    chat completion.  When every tool the completion calls is one of
    [ALL_TOOLS] (or it calls none and answers in words) the turn has a
    reply; when it calls only tools outside the list the turn returns no
    reply at all, and stores, orders and the data service are untouched. *)
Theorem X26_offered_tools_are_answered
    (search : string -> list Medicine) (extraction : nat -> ExtractionResult)
    (uuid order_id_for : nat -> string)
    (refill_reply status_reply : nat -> ChatResponse)
    (llm : list PromptMessage -> string + LLMMessage)
    (patient : Patient) (recent_orders : nat) (request : ChatRequest)
    (request_history : list HistoryMessage) (a : Turn.agent)
    (orders : gmap string Order) (m : LLMMessage) :
  (forall prompt, llm prompt = inr m) ->
  let turn :=
    Turn.process_message search extraction uuid order_id_for refill_reply
      status_reply llm (Some patient) recent_orders request request_history
      a orders in
  (Forall (fun n => In n Tools.ALL_TOOLS) (tool_calls m) -> is_Some turn.1.1.1)
  /\ (tool_calls m <> [] ->
      Forall (fun n => ~ In n Tools.ALL_TOOLS) (tool_calls m) ->
      turn.1.1.1 = None /\ Turn.stores turn.1.1.2 = Turn.stores a
      /\ turn.1.2 = orders /\ turn.2 = []).
Proof.
  intros Hllm turn. unfold turn, Turn.process_message. rewrite Hllm.
  destruct (tool_calls m) as [|n names] eqn:Hcalls.
  - split; [intros _; cbn; eauto|intros H; congruence].
  - cbn [nonempty]. split.
    + intros Hall.
      assert (Hne : n :: names <> [] \/ is_Some (@None ChatResponse))
        by (left; discriminate).
      pose proof (run_tools_offered search extraction uuid order_id_for
                    refill_reply status_reply request patient (n :: names) 0%nat
                    {| Turn.w_stores := Turn.stores a; Turn.w_orders := orders;
                       Turn.w_calls := [] |} None Hall Hne) as Hs.
      revert Hs.
      generalize (Turn.run_tools search extraction uuid order_id_for
                    refill_reply status_reply 0 (n :: names) request patient
                    {| Turn.w_stores := Turn.stores a; Turn.w_orders := orders;
                       Turn.w_calls := [] |} None).
      intros [w r|w] Hs; [exact Hs|cbn; eauto].
    + intros _ Hnot.
      rewrite (run_tools_not_offered search extraction uuid order_id_for
                 refill_reply status_reply request patient (n :: names) 0%nat
                 _ None Hnot).
      cbn. repeat split.
Qed.

Lemma X26_offered_tools_are_answered_witness :
  is_Some
    (Turn.process_message Samples.catalog (fun _ => Samples.wants "Paracetamol" 2)
       (fun _ => "0000AAAA") (fun _ => "ORD-1")
       (fun _ => Orchestrator.reply (Text "No refills due."))
       (fun _ => Orchestrator.reply (Text "No orders."))
       (fun _ => inr {| tool_calls := ["cancel_order"]; content := "" |})
       (Some Samples.patient) 0 (Samples.request "cancel") []
       {| Turn.stores := Orchestrator.empty_state;
          Turn.conversation_histories := ∅ |} ∅).1.1.1.
Proof.
  refine (proj1 (X26_offered_tools_are_answered Samples.catalog
            (fun _ => Samples.wants "Paracetamol" 2)
            (fun _ => "0000AAAA") (fun _ => "ORD-1")
            (fun _ => Orchestrator.reply (Text "No refills due."))
            (fun _ => Orchestrator.reply (Text "No orders."))
            (fun _ => inr {| tool_calls := ["cancel_order"]; content := "" |})
            Samples.patient 0 (Samples.request "cancel") []
            {| Turn.stores := Orchestrator.empty_state;
               Turn.conversation_histories := ∅ |} ∅
            {| tool_calls := ["cancel_order"]; content := "" |}
            (fun _ => eq_refl)) _).
  cbn [tool_calls]. constructor; [|constructor].
  unfold Tools.ALL_TOOLS. cbn [In]. tauto.
Defined.

(** X27.  Nothing ties a confirmation to a preview the patient has seen.
    When the completion calls [extract_order_details] and
    [confirm_last_order] in the same message and the order handler
    prepares a preview, the confirmation handler commits that preview in the
    same turn: the turn's reply is the order confirmation, it carries no
    preview and asks for no confirmation, and afterwards the session has no
    pending preview and the preview is no longer stored. *)
Theorem X27_order_and_confirmation_in_one_turn
    (search : string -> list Medicine) (extraction : nat -> ExtractionResult)
    (uuid order_id_for : nat -> string)
    (refill_reply status_reply : nat -> ChatResponse)
    (llm : list PromptMessage -> string + LLMMessage)
    (patient : Patient) (recent_orders : nat) (request : ChatRequest)
    (request_history : list HistoryMessage) (a : Turn.agent)
    (orders : gmap string Order) (text : string)
    (prepared : ChatResponse) (st' : Orchestrator.state) (pv : OrderPreview) :
  (forall prompt,
     llm prompt = inr {| tool_calls := ["extract_order_details"; "confirm_last_order"];
                         content := text |}) ->
  Orchestrator._handle_order search (extraction 0%nat) (uuid 0%nat) request
    patient (Turn.stores a) = Some (prepared, st') ->
  order_preview prepared = Some pv ->
  let turn :=
    Turn.process_message search extraction uuid order_id_for refill_reply
      status_reply llm (Some patient) recent_orders request request_history
      a orders in
  (exists r, turn.1.1.1 = Some r
     /\ requires_confirmation r = false
     /\ order_preview r = None
     /\ exists o s t d g, message r = OrderConfirmed o s t d g)
  /\ Orchestrator.pending_preview (Turn.stores turn.1.1.2)
       (Orchestrator.session_of request) = None
  /\ Orchestrator.pending_previews (Turn.stores turn.1.1.2) !! preview_id pv = None.
Proof.
  intros Hllm E0 Hpv turn. unfold turn, Turn.process_message. rewrite Hllm.
  cbn [tool_calls nonempty Turn.run_tools].
  rewrite run_tool_order. cbn [Turn.w_stores Turn.w_orders Turn.w_calls].
  rewrite E0.
  destruct (handle_order_preview _ _ _ _ _ _ _ _ _ E0 Hpv) as (Hbuilt & _ & _ & ->).
  rewrite run_tool_confirm. cbn [Turn.w_stores Turn.w_orders Turn.w_calls].
  assert (Hid : exists c r, preview_id pv = String c r).
  { rewrite Hbuilt. apply preview_id_truthy. }
  destruct (confirm_pending (order_id_for 1%nat) request patient _ orders _ _
              (pending_of_stored (Orchestrator.pending_previews (Turn.stores a))
                 (Orchestrator.session_contexts (Turn.stores a))
                 (Orchestrator.session_of request) (preview_id pv) pv Hid))
    as (r & orders' & calls & -> & Hrc & Hop & Hmsg).
  cbn [fst snd Turn.stores Turn.w_stores].
  split; [exists r; auto|].
  split.
  - unfold Orchestrator.pending_preview. cbn [Orchestrator.session_contexts].
    now rewrite lookup_delete_eq.
  - cbn [Orchestrator.pending_previews]. now rewrite lookup_delete_eq.
Qed.

Lemma X27_order_and_confirmation_in_one_turn_witness :
  Orchestrator.pending_preview
    (Turn.stores
       (Turn.process_message Samples.catalog (fun _ => Samples.wants "Paracetamol" 2)
          (fun _ => "0000AAAA") (fun _ => "ORD-1")
          (fun _ => Orchestrator.reply (Text "No refills due."))
          (fun _ => Orchestrator.reply (Text "No orders."))
          (fun _ => inr {| tool_calls := ["extract_order_details"; "confirm_last_order"];
                           content := "" |})
          (Some Samples.patient) 0 (Samples.request "2 paracetamol please") []
          {| Turn.stores := Orchestrator.empty_state;
             Turn.conversation_histories := ∅ |} ∅).1.1.2)
    (Orchestrator.session_of (Samples.request "2 paracetamol please")) = None.
Proof.
  refine (proj1 (proj2 (X27_order_and_confirmation_in_one_turn Samples.catalog
            (fun _ => Samples.wants "Paracetamol" 2)
            (fun _ => "0000AAAA") (fun _ => "ORD-1")
            (fun _ => Orchestrator.reply (Text "No refills due."))
            (fun _ => Orchestrator.reply (Text "No orders."))
            (fun _ => inr {| tool_calls := ["extract_order_details"; "confirm_last_order"];
                             content := "" |})
            Samples.patient 0 (Samples.request "2 paracetamol please") []
            {| Turn.stores := Orchestrator.empty_state;
               Turn.conversation_histories := ∅ |} ∅ ""
            Samples.turn1.1 Samples.turn1.2
            (Samples.preview_of "0000AAAA" (Samples.wants "Paracetamol" 2))
            (fun _ => eq_refl) _ _))).
  - vm_compute. reflexivity.
  - vm_compute. reflexivity.
Defined.

Section WindowFacts.

Lemma last_n_suffix {A} (n : nat) (l : list A) :
  take (length l - n) l ++ last_n n l = l
  /\ length (last_n n l) = Nat.min n (length l).
Proof.
  unfold last_n. split; [apply take_drop|].
  rewrite length_drop. lia.
Qed.

End WindowFacts.

(** X28.  What a turn does to the conversation histories.  The histories of
    the other sessions are never touched.  The base of the session's history
    is the request's history when that is not empty (it replaces what was
    stored) and the stored one otherwise.  When the completion answers and
    no handler raises, the session's history becomes the base, the user's
    message, and the reply's message when the reply has one: it grows by
    one or two entries.  When the call of the completion raises, the
    user's message is not recorded and stores and orders are as before,
    but a replacement by the request's history is kept; the same holds of
    the history when a handler raises, which the order handler does for a
    quantity too large for a float. *)
Theorem X28_history_of_a_turn
    (search : string -> list Medicine) (extraction : nat -> ExtractionResult)
    (uuid order_id_for : nat -> string)
    (refill_reply status_reply : nat -> ChatResponse)
    (llm : list PromptMessage -> string + LLMMessage)
    (patient : Patient) (recent_orders : nat) (request : ChatRequest)
    (request_history : list HistoryMessage) (a : Turn.agent)
    (orders : gmap string Order) :
  let turn :=
    Turn.process_message search extraction uuid order_id_for refill_reply
      status_reply llm (Some patient) recent_orders request request_history
      a orders in
  let sid := Orchestrator.session_of request in
  let base :=
    if nonempty request_history then request_history
    else default [] (Turn.conversation_histories a !! sid) in
  let prompt :=
    Turn.build_messages patient recent_orders (Turn.stores a) sid base
      (rq_message request) in
  let user := {| hm_role := Some "user";
                 hm_content := Some (Text (rq_message request)) |} in
  let unrecorded :=
    Turn.conversation_histories turn.1.1.2 !! sid
    = (if nonempty request_history then Some request_history
       else Turn.conversation_histories a !! sid) in
  (forall other, other <> sid ->
     Turn.conversation_histories turn.1.1.2 !! other
     = Turn.conversation_histories a !! other)
  /\ (forall m, llm prompt = inr m ->
        (Turn.conversation_histories turn.1.1.2 !! sid
         = Some (base ++ user
                   :: match turn.1.1.1 with
                      | Some r =>
                          if Turn.has_text (message r)
                          then [ {| hm_role := Some "assistant";
                                    hm_content := Some (message r) |} ]
                          else []
                      | None => []
                      end))
        \/ (turn.1.1.1
            = Some (Orchestrator.reply
                      (Text "I encountered an error processing your request. Error: int too large to convert to float"))
            /\ unrecorded))
  /\ (forall e, llm prompt = inl e ->
        unrecorded
        /\ Turn.stores turn.1.1.2 = Turn.stores a
        /\ turn.1.2 = orders /\ turn.2 = []).
Proof.
  intros turn sid base prompt user unrecorded.
  assert (Hbase : default []
            ((if nonempty request_history
              then <[sid := request_history]> (Turn.conversation_histories a)
              else Turn.conversation_histories a) !! sid) = base).
  { unfold base. destruct (nonempty request_history);
      [now rewrite lookup_insert_eq|reflexivity]. }
  assert (Hkept : forall st,
            Turn.conversation_histories
              {| Turn.stores := st;
                 Turn.conversation_histories :=
                   if nonempty request_history
                   then <[sid := request_history]> (Turn.conversation_histories a)
                   else Turn.conversation_histories a |} !! sid
            = (if nonempty request_history then Some request_history
               else Turn.conversation_histories a !! sid)).
  { intros st. cbn [Turn.conversation_histories].
    destruct (nonempty request_history);
      [now rewrite lookup_insert_eq|reflexivity]. }
  assert (Hother : forall other, other <> sid ->
            (if nonempty request_history
             then <[sid := request_history]> (Turn.conversation_histories a)
             else Turn.conversation_histories a) !! other
            = Turn.conversation_histories a !! other).
  { intros other Hne. destruct (nonempty request_history);
      [now rewrite lookup_insert_ne by congruence|reflexivity]. }
  unfold unrecorded, turn, Turn.process_message. fold sid. rewrite Hbase.
  fold prompt.
  destruct (llm prompt) as [e|m] eqn:Hllm.
  - cbn [fst snd Turn.conversation_histories Turn.stores Turn.w_stores
         Turn.w_orders Turn.w_calls].
    split; [exact Hother|]. split; [intros ? [=]|].
    intros _ _. split; [apply (Hkept (Turn.stores a))|repeat split].
  - destruct (if nonempty (tool_calls m)
              then Turn.run_tools search extraction uuid order_id_for
                     refill_reply status_reply 0 (tool_calls m) request patient
                     {| Turn.w_stores := Turn.stores a; Turn.w_orders := orders;
                        Turn.w_calls := [] |} None
              else Turn.Finished
                     {| Turn.w_stores := Turn.stores a; Turn.w_orders := orders;
                        Turn.w_calls := [] |}
                     (Some (Orchestrator.reply (Text (content m)))))
      as [w response|w].
    + cbn [fst snd Turn.conversation_histories Turn.stores].
      split; [|split]; [| |intros ? [=]].
      * intros other Hne. rewrite lookup_insert_ne by congruence.
        now apply Hother.
      * intros _ _. left. rewrite lookup_insert_eq. reflexivity.
    + cbn [fst snd Turn.conversation_histories Turn.stores].
      split; [exact Hother|]. split; [|intros ? [=]].
      intros _ _. right. split; [reflexivity|apply (Hkept (Turn.w_stores w))].
Qed.

(** X29.  The prompt of a turn is bounded whatever the length of the stored
    history: it holds the two system messages, the pending-order status
    when the session has a pending preview, the last ten messages of the
    history (all of them when there are fewer) in their order, and the
    user's message last; so at most fourteen messages. *)
Theorem X29_prompt_window
    (patient : Patient) (recent_orders : nat) (st : Orchestrator.state)
    (session_id : string) (history : list HistoryMessage) (text : string) :
  let prompt :=
    Turn.build_messages patient recent_orders st session_id history text in
  let pending :=
    match Orchestrator.pending_preview st session_id with
    | Some (pid, preview) => [PendingStatus pid preview]
    | None => []
    end in
  exists older recent,
    history = older ++ recent
    /\ length recent = Nat.min 10 (length history)
    /\ prompt
       = [SystemPrompt;
          PatientInfo (patient_name patient) (patient_id patient) recent_orders]
         ++ pending
         ++ map (fun msg => Past (default "user" (hm_role msg))
                              (default (Text "") (hm_content msg))) recent
         ++ [UserMessage text]
    /\ (length prompt <= 14)%nat
    /\ last prompt = Some (UserMessage text).
Proof.
  intros prompt pending.
  destruct (last_n_suffix 10 history) as [Hsplit Hlen].
  exists (take (length history - 10) history), (last_n 10 history).
  split; [now rewrite Hsplit|]. split; [exact Hlen|].
  split; [reflexivity|].
  unfold prompt, Turn.build_messages. fold pending.
  split.
  - rewrite !length_app, length_map, Hlen.
    assert (length pending <= 1)%nat.
    { unfold pending. destruct (Orchestrator.pending_preview st session_id)
        as [[? ?]|]; cbn [length]; lia. }
    cbn [length]. lia.
  - rewrite !app_assoc. apply last_snoc.
Qed.

Section AdminFacts.

Import RefillAgent.

Lemma fallback_alert clock history p :
  In p (_fallback_calculation clock history) ->
  action p <> "NONE" ->
  action p = "REMIND" /\ 0 <= days_remaining p <= 5
  /\ reason p = "Deterministic calculation".
Proof.
  intros Hin Hact.
  destruct (fallback_from_from clock history 0%nat p Hin) as (k & med & _ & Hone).
  unfold fallback_one in Hone.
  destruct (h_purchase_date med) as [bought|]; [|discriminate].
  inversion Hone; subst; clear Hone. cbn in *.
  set (remaining := Z.max 0 _) in *.
  destruct (Z.leb_spec remaining 5); [|congruence].
  repeat split; [unfold remaining|]; lia.
Qed.

End AdminFacts.

(** X30.  The admin view of the refills never lists a prediction whose
    action is NONE, and a patient with no medicine needing a refill adds
    nothing, whatever the reasoning service would answer.  When the
    reasoning service fails for every patient, every alert of the view is a
    REMIND with between 0 and 5 days remaining, computed by the
    fallback. *)
Theorem X30_admin_view_lists_alerts_only
    (patients : list (list MedicationRecord * option (list RefillPrediction)
                      * (nat -> Z))) :
  Forall (fun p => action p <> "NONE")
    (RefillAgent.get_all_patient_refills patients)
  /\ (forall answer clock more,
        RefillAgent.get_all_patient_refills (([], answer, clock) :: more)
        = RefillAgent.get_all_patient_refills more)
  /\ (Forall (fun pt => pt.1.2 = None) patients ->
      Forall (fun p => action p = "REMIND" /\ 0 <= days_remaining p <= 5
                       /\ reason p = "Deterministic calculation")
        (RefillAgent.get_all_patient_refills patients)).
Proof.
  unfold RefillAgent.get_all_patient_refills.
  split; [|split].
  - apply List.Forall_forall. intros p Hin.
    apply in_flat_map in Hin. destruct Hin as ([[meds answer] clock] & _ & Hin).
    destruct (nonempty meds); [|contradiction].
    apply filter_In in Hin. destruct Hin as [_ Hact].
    intros Heq. rewrite Heq in Hact. discriminate.
  - reflexivity.
  - intros Hdown. apply List.Forall_forall. intros p Hin.
    apply in_flat_map in Hin. destruct Hin as ([[meds answer] clock] & Hpt & Hin).
    rewrite List.Forall_forall in Hdown. specialize (Hdown _ Hpt).
    cbn [fst snd] in Hdown. subst answer.
    destruct (nonempty meds); [|contradiction].
    apply filter_In in Hin. destruct Hin as [Hin Hact].
    apply (fallback_alert clock meds p Hin).
    intros Heq. rewrite Heq in Hact. discriminate.
Qed.
